(** * Quadrature-encoder decoding pipeline (python_scripts/parse_encoder_data.py)

    A shallow embedding of the pandas pipeline that turns a logic-analyzer
    capture of a two-channel rotary encoder into a direction, an integrated
    angle, a trimmed frame and an angular velocity.  Python floats are
    binary64 primitive floats; Python ints are [Z]; a DataFrame is a list of
    rows carrying their index label, a column that has not been created yet
    being [None] in every row. *)

From Stdlib Require Import ZArith List String Ascii Bool Lia Floats.
From Stdlib Require Import Sorted Permutation.
Import ListNotations.
Local Open Scope string_scope.
Local Open Scope list_scope.
Local Open Scope Z_scope.

(** ** Exceptions and the two monads of the embedding *)

Inductive value_error : Type :=
| NotInList (x : string)                         (* list.index(x) *)
| UndefinedBitmask (got : string)                (* "undefined bitmask value" *)
| IllegalChange (got : string) (at_s : float)    (* "illegal change in position" *)
| EmptyArgmax.                                   (* idxmax of an empty Series *)

Inductive exn : Type :=
| KeyError (key : string)
| AttributeError (name : string)
| ValueError (why : value_error).

Inductive result (A : Type) : Type :=
| Ok (a : A)
| Raise (e : exn).
Arguments Ok {A} a.
Arguments Raise {A} e.

Definition rbind {A B} (c : result A) (k : A -> result B) : result B :=
  match c with
  | Ok a => k a
  | Raise e => Raise e
  end.

(** What the script prints while it decodes. *)
Inductive message : Type :=
| InitialPositions (a b : Z)                     (* "initial positions are a and b" *)
| FirstChange (idx : Z) (after_s : float)        (* "first change in position occurred at ..." *)
| Bewildered.                                    (* the diagnostic of track_angular_change *)

(** The attributes the script hangs on its own function objects:
    [detect_direction_of_motion.current_direction],
    [detect_change_in_angular_position.last_direction] (Python [None] is
    [None]) and [detect_change_in_angular_position.current_angle].  They
    outlive a call, so they are part of the world a run starts from. *)
Record statics : Type := mk_statics {
  current_direction : string;
  last_direction : option string;
  current_angle : float
}.

Record world : Type := mk_world {
  attrs : statics;
  stdout : list message
}.

Definition M (A : Type) : Type := world -> result A * world.

Definition ret {A} (a : A) : M A := fun w => (Ok a, w).
Definition raise {A} (e : exn) : M A := fun w => (Raise e, w).
Definition bind {A B} (c : M A) (k : A -> M B) : M B :=
  fun w => match c w with
           | (Ok a, w') => k a w'
           | (Raise e, w') => (Raise e, w')
           end.
Definition lift {A} (c : result A) : M A := fun w => (c, w).

Declare Scope py_scope.
Delimit Scope py_scope with py.
Notation "x <- c ;; k" := (bind c (fun x => k))
  (at level 61, c at next level, right associativity) : py_scope.
Notation "c ;; k" := (bind c (fun _ => k))
  (at level 61, right associativity) : py_scope.
Notation "x <~ c ;; k" := (rbind c (fun x => k))
  (at level 61, c at next level, right associativity) : py_scope.

Definition get_current_direction : M string :=
  fun w => (Ok (current_direction (attrs w)), w).
Definition get_last_direction : M (option string) :=
  fun w => (Ok (last_direction (attrs w)), w).
Definition get_current_angle : M float :=
  fun w => (Ok (current_angle (attrs w)), w).

Definition set_current_direction (d : string) : M unit :=
  fun w => (Ok tt,
            mk_world (mk_statics d (last_direction (attrs w)) (current_angle (attrs w)))
                     (stdout w)).
Definition set_last_direction (d : option string) : M unit :=
  fun w => (Ok tt,
            mk_world (mk_statics (current_direction (attrs w)) d (current_angle (attrs w)))
                     (stdout w)).
Definition set_current_angle (x : float) : M unit :=
  fun w => (Ok tt,
            mk_world (mk_statics (current_direction (attrs w)) (last_direction (attrs w)) x)
                     (stdout w)).
Definition print (m : message) : M unit :=
  fun w => (Ok tt, mk_world (attrs w) (stdout w ++ [m])).

(** ** The Python builtins the script calls *)

Module Py.

Fixpoint bits (p : positive) : string :=
  match p with
  | xH => "1"
  | xO q => (bits q ++ "0")%string
  | xI q => (bits q ++ "1")%string
  end.

(** [bin(n)] *)
Definition bin (n : Z) : string :=
  match n with
  | Z0 => "0b0"
  | Zpos p => ("0b" ++ bits p)%string
  | Zneg p => ("-0b" ++ bits p)%string
  end.

(** [s.replace("0b", "")]: every occurrence, scanning from the left. *)
Fixpoint replace_0b (s : string) : string :=
  match s with
  | String "0" (String "b" rest) => replace_0b rest
  | String c rest => String c (replace_0b rest)
  | EmptyString => EmptyString
  end.

Fixpoint zeros (n : nat) : string :=
  match n with
  | O => ""
  | S k => String "0" (zeros k)
  end.

(** [s.zfill(width)]: zeros go after a leading sign. *)
Definition zfill (width : nat) (s : string) : string :=
  let pad := zeros (width - String.length s) in
  match s with
  | String c rest =>
      if (Ascii.eqb c "+" || Ascii.eqb c "-")%bool
      then String c (pad ++ rest)%string
      else (pad ++ s)%string
  | EmptyString => pad
  end.

(** [l.index(x)] *)
Fixpoint index (x : string) (l : list string) : option Z :=
  match l with
  | [] => None
  | y :: rest =>
      if String.eqb y x then Some 0
      else match index x rest with
           | Some i => Some (i + 1)
           | None => None
           end
  end.

(** [x in l] *)
Definition mem (x : string) (l : list string) : bool :=
  existsb (String.eqb x) l.

(** [float(n)] for an int: the nearest binary64. *)
Definition float_of_int (n : Z) : float :=
  SF2Prim (binary_normalize prec emax n 0 false).

End Py.

(** ** DataFrames *)

(** One row of the frame.  [label] is the row's index label ([read_csv]
    numbers the rows 0, 1, 2, ...; filtering keeps the labels).  The first
    three columns come from the capture file, the others are created by the
    stages. *)
Record row : Type := mk_row {
  label : Z;
  time_s : float;                               (* "#Time (s)" *)
  chan_a : Z;                                   (* LOGIC_ANALYZER_ENCODER_CHAN_A *)
  chan_b : Z;                                   (* LOGIC_ANALYZER_ENCODER_CHAN_B *)
  matches_initial_position : option Z;
  timestamp_normalized_s : option float;
  current_position_bitmask : option string;
  previous_position_bitmask : option string;
  change_occurred : option Z;
  direction : option string;
  angle_deg : option float;
  velocity_deg_per_s : option float
}.

Definition frame : Type := list row.

Definition set_matches_initial_position (v : option Z) (r : row) : row :=
  mk_row (label r) (time_s r) (chan_a r) (chan_b r) v
         (timestamp_normalized_s r) (current_position_bitmask r)
         (previous_position_bitmask r) (change_occurred r) (direction r)
         (angle_deg r) (velocity_deg_per_s r).

Definition set_timestamp_normalized_s (v : option float) (r : row) : row :=
  mk_row (label r) (time_s r) (chan_a r) (chan_b r) (matches_initial_position r)
         v (current_position_bitmask r)
         (previous_position_bitmask r) (change_occurred r) (direction r)
         (angle_deg r) (velocity_deg_per_s r).

Definition set_current_position_bitmask (v : option string) (r : row) : row :=
  mk_row (label r) (time_s r) (chan_a r) (chan_b r) (matches_initial_position r)
         (timestamp_normalized_s r) v
         (previous_position_bitmask r) (change_occurred r) (direction r)
         (angle_deg r) (velocity_deg_per_s r).

Definition set_previous_position_bitmask (v : option string) (r : row) : row :=
  mk_row (label r) (time_s r) (chan_a r) (chan_b r) (matches_initial_position r)
         (timestamp_normalized_s r) (current_position_bitmask r)
         v (change_occurred r) (direction r)
         (angle_deg r) (velocity_deg_per_s r).

Definition set_change_occurred (v : option Z) (r : row) : row :=
  mk_row (label r) (time_s r) (chan_a r) (chan_b r) (matches_initial_position r)
         (timestamp_normalized_s r) (current_position_bitmask r)
         (previous_position_bitmask r) v (direction r)
         (angle_deg r) (velocity_deg_per_s r).

Definition set_direction (v : option string) (r : row) : row :=
  mk_row (label r) (time_s r) (chan_a r) (chan_b r) (matches_initial_position r)
         (timestamp_normalized_s r) (current_position_bitmask r)
         (previous_position_bitmask r) (change_occurred r) v
         (angle_deg r) (velocity_deg_per_s r).

Definition set_angle_deg (v : option float) (r : row) : row :=
  mk_row (label r) (time_s r) (chan_a r) (chan_b r) (matches_initial_position r)
         (timestamp_normalized_s r) (current_position_bitmask r)
         (previous_position_bitmask r) (change_occurred r) (direction r)
         v (velocity_deg_per_s r).

Definition set_velocity_deg_per_s (v : option float) (r : row) : row :=
  mk_row (label r) (time_s r) (chan_a r) (chan_b r) (matches_initial_position r)
         (timestamp_normalized_s r) (current_position_bitmask r)
         (previous_position_bitmask r) (change_occurred r) (direction r)
         (angle_deg r) v.

(** [index[name]] / [df[name]]: a column that does not exist is a KeyError. *)
Definition col {A} (name : string) (f : row -> option A) (r : row) : result A :=
  match f r with
  | Some v => Ok v
  | None => Raise (KeyError name)
  end.

(** [df.name]: a column that does not exist is an AttributeError. *)
Definition attr {A} (name : string) (f : row -> option A) (r : row) : result A :=
  match f r with
  | Some v => Ok v
  | None => Raise (AttributeError name)
  end.

(** [df[name]] as a whole column. *)
Fixpoint column {A} (name : string) (f : row -> option A) (df : frame)
  : result (list A) :=
  match df with
  | [] => Ok []
  | r :: rest =>
      (v <~ col name f r ;;
       vs <~ column name f rest ;;
       Ok (v :: vs))%py
  end.

(** [df.at[0, name]]: the row labelled 0, not the first row. *)
Definition at0 {A} (name : string) (f : row -> option A) (df : frame) : result A :=
  match find (fun r => label r =? 0) df with
  | Some r => col name f r
  | None => Raise (KeyError "0")
  end.

(** [s.shift(fill_value=fill)]: every value moves one row down. *)
Definition shift {A} (fill : A) (s : list A) : list A :=
  match s with
  | [] => []
  | _ :: _ => fill :: removelast s
  end.

(** [df[name] = values], row by row. *)
Fixpoint assign {A} (set : A -> row -> row) (df : frame) (values : list A) : frame :=
  match df, values with
  | r :: rest, v :: vs => set v r :: assign set rest vs
  | _, _ => []
  end.

(** [df[name] = df.apply(f, axis=1)] on a frame with at least one row: [f]
    runs on the rows in order, and whatever it leaves in the function
    attributes is seen by the next row.  On a frame without rows pandas
    does not do this (it tries [f] on a row of its own making); the
    pipeline never gets there, its first stage raising KeyError(0) on a
    capture without rows, and the base case below is the end of the
    recursion. *)
Fixpoint apply_assign {A} (f : row -> M A) (set : A -> row -> row) (df : frame)
  : M frame :=
  match df with
  | [] => ret []
  | r :: rest =>
      (v <- f r ;;
       rest' <- apply_assign f set rest ;;
       ret (set v r :: rest'))%py
  end.

(** [s.idxmax()] of a boolean Series: the label of the first [True], and the
    label of the first row when no entry is [True]. *)
Definition idxmax (s : list (Z * bool)) : result Z :=
  match find snd s with
  | Some (l, _) => Ok l
  | None => match s with
            | (l, _) :: _ => Ok l
            | [] => Raise (ValueError EmptyArgmax)
            end
  end.

(** What [read_csv] hands to the pipeline: one [(time, a, b)] triple per
    sample, labelled from 0.  The cells are taken as they stand after the
    conversions the stages make: the timestamp is the float that
    [astype(float)] gives for its text, and the channels are integers, which
    [int()] and [astype(int)] leave as they are.  A capture with a cell that
    does not convert, or with a channel cell that is a fraction or missing,
    is outside this embedding, and so is what the conversions raise on
    it. *)
Definition raw_row (i : Z) (s : float * Z * Z) : row :=
  let '(t, a, b) := s in
  mk_row i t a b None None None None None None None None.

Fixpoint load_from (i : Z) (capture : list (float * Z * Z)) : frame :=
  match capture with
  | [] => []
  | s :: rest => raw_row i s :: load_from (i + 1) rest
  end.

Definition read_csv (capture : list (float * Z * Z)) : frame := load_from 0 capture.

(** ** The stages, in the order [main] runs them *)

(** [detect_initial_stable_angular_position(df, period_s)].  The boolean
    column [change_occurred] it builds on the way is dropped again before it
    returns; [True]/[False] are 1/0. *)
Definition shifted_differs (s : list Z) : list Z :=
  match s with
  | [] => []
  | _ :: _ =>
      (* the first entry of [s.shift()] is NaN, which differs from anything *)
      1 :: map (fun pc => if fst pc =? snd pc then 0 else 1)
               (combine (removelast s) (tl s))
  end.

(** One entry of [((df[A] == a0) & (df[B] == b0)).map({True: 1, False: 0})]. *)
Definition matches_entry (a0 b0 : Z) (r : row) : Z :=
  if ((chan_a r =? a0) && (chan_b r =? b0))%bool then 1 else 0.

Definition set_at0_change_occurred (v : Z) (df : frame) : frame :=
  map (fun r => if label r =? 0 then set_change_occurred (Some v) r else r) df.

Definition detect_initial_stable_angular_position (df : frame) (period_s : float)
  : M frame :=
  (initial_position_chan_a <- lift (at0 "chan_a" (fun r => Some (chan_a r)) df) ;;
   initial_position_chan_b <- lift (at0 "chan_b" (fun r => Some (chan_b r)) df) ;;
   let df1 :=
     map (fun r =>
            set_matches_initial_position
              (Some (matches_entry initial_position_chan_a initial_position_chan_b r))
              r) df in
   matches <- lift (column "matches_initial_position" matches_initial_position df1) ;;
   let df2 := assign (fun v => set_change_occurred (Some v)) df1 (shifted_differs matches) in
   let df3 := set_at0_change_occurred 0 df2 in
   idx <- lift (idxmax (combine (map label df3) (map (fun m => m <? 1) matches))) ;;
   print (InitialPositions initial_position_chan_a initial_position_chan_b) ;;
   print (FirstChange idx (Py.float_of_int idx * period_s)%float) ;;
   ret (map (set_change_occurred None) df3))%py.

(** [normalize_timestamps(df, period_s)], after its [astype(float)]: the
    rows hold the timestamps as the floats it gives (see [read_csv]). *)
Definition normalize_timestamps (df : frame) (period_s : float) : result frame :=
  (initial_timestamp_s <~ at0 "#Time (s)" (fun r => Some (time_s r)) df ;;
   Ok (map (fun r =>
              set_timestamp_normalized_s (Some (time_s r - initial_timestamp_s)%float) r)
           df))%py.

(** [generate_encoder_position_bitmask(df)].  Both codes are computed on
    Python ints, row by row; [int()] and [astype(int)] are the identity on
    the integer channels of [read_csv]. *)
Definition bitmask_of (n : Z) : string :=
  Py.zfill 2 (Py.replace_0b (Py.bin n)).

Definition generate_encoder_position_bitmask (df : frame) : result frame :=
  (let df1 :=
     map (fun r =>
            set_current_position_bitmask
              (Some (bitmask_of (Z.lor (Z.shiftl (chan_a r) 1) (chan_b r)))) r) df in
   a0 <~ at0 "chan_a" (fun r => Some (chan_a r)) df1 ;;
   let shifted_A := shift a0 (map chan_a df1) in
   b0 <~ at0 "chan_b" (fun r => Some (chan_b r)) df1 ;;
   let shifted_B := shift b0 (map chan_b df1) in
   Ok (assign (fun '(sa, sb) =>
                 set_previous_position_bitmask
                   (Some (bitmask_of (Z.lor (Z.shiftl sa 1) sb))))
              df1 (combine shifted_A shifted_B)))%py.

(** [detect_direction_of_motion(df)] *)
Definition bitmask_cw_pattern : list string := ["00"; "01"; "11"; "10"].

Definition list_index (x : string) (l : list string) : result Z :=
  match Py.index x l with
  | Some i => Ok i
  | None => Raise (ValueError (NotInList x))
  end.

Definition check_direction (index : row) : M string :=
  (current_bitmask <- lift (col "current_position_bitmask" current_position_bitmask index) ;;
   previous_bitmask <- lift (col "previous_position_bitmask" previous_position_bitmask index) ;;
   current_bitmask_index <- lift (list_index current_bitmask bitmask_cw_pattern) ;;
   previous_bitmask_index <- lift (list_index previous_bitmask bitmask_cw_pattern) ;;
   changed <- lift (col "change_occurred" change_occurred index) ;;
   (if changed =? 0 then
      set_current_direction ""
    else if negb (Py.mem current_bitmask bitmask_cw_pattern) then
      raise (ValueError (UndefinedBitmask current_bitmask))
    else
      let len := Z.of_nat (List.length bitmask_cw_pattern) in
      let cw_step :=
        nth (Z.to_nat ((previous_bitmask_index + 1) mod len)) bitmask_cw_pattern "" in
      let ccw_step :=
        nth (Z.to_nat ((previous_bitmask_index - 1) mod len)) bitmask_cw_pattern "" in
      if String.eqb current_bitmask cw_step then
        set_current_direction "CW"
      else if String.eqb current_bitmask ccw_step then
        set_current_direction "CCW"
      else
        at_s <- lift (col "timestamp_normalized_s" timestamp_normalized_s index) ;;
        raise (ValueError (IllegalChange current_bitmask at_s))) ;;
   get_current_direction)%py.

Definition mark_change (r : row) : result row :=
  (current_bitmask <~ col "current_position_bitmask" current_position_bitmask r ;;
   previous_bitmask <~ col "previous_position_bitmask" previous_position_bitmask r ;;
   Ok (set_change_occurred
         (Some (if String.eqb current_bitmask previous_bitmask then 0 else 1)) r))%py.

Fixpoint mark_changes (df : frame) : result frame :=
  match df with
  | [] => Ok []
  | r :: rest =>
      (r' <~ mark_change r ;;
       rest' <~ mark_changes rest ;;
       Ok (r' :: rest'))%py
  end.

Definition detect_direction_of_motion (df : frame) : M frame :=
  (set_current_direction "" ;;
   df1 <- lift (mark_changes df) ;;
   apply_assign check_direction (fun d => set_direction (Some d)) df1)%py.

Section Encoder.

(** [ENCODER_RESOLUTION], counts per revolution (2048.0 in the script). *)
Variable ENCODER_RESOLUTION : float.

Definition ENCODER_POSITION_STEP_SIZE_DEG : float := (360 / ENCODER_RESOLUTION)%float.

(** [detect_change_in_angular_position(df)].  [track_angular_change] is
    split into the choice of its branch and the branch's body. *)
Inductive branch : Type :=
| Pass            (* change_occurred == 0 *)
| StepCW          (* direction == "CW" *)
| StepCCW         (* direction == "CCW" *)
| HoldCW          (* neither, last_direction == "CW" *)
| HoldCCW         (* neither, last_direction == "CCW" *)
| Diagnostic.     (* neither, no last direction: the print *)

Definition track_branch (index : row) (last : option string) : result branch :=
  (changed <~ col "change_occurred" change_occurred index ;;
   if changed =? 0 then Ok Pass
   else
     d <~ col "direction" direction index ;;
     if String.eqb d "CW" then Ok StepCW
     else if String.eqb d "CCW" then Ok StepCCW
     else match last with
          | Some l => if String.eqb l "CW" then Ok HoldCW
                      else if String.eqb l "CCW" then Ok HoldCCW
                      else Ok Diagnostic
          | None => Ok Diagnostic
          end)%py.

Definition run_branch (b : branch) : M unit :=
  (match b with
   | Pass => ret tt
   | StepCW =>
       a <- get_current_angle ;;
       set_current_angle (a + ENCODER_POSITION_STEP_SIZE_DEG)%float ;;
       set_last_direction (Some "CW")
   | StepCCW =>
       a <- get_current_angle ;;
       set_current_angle (a - ENCODER_POSITION_STEP_SIZE_DEG)%float ;;
       set_last_direction (Some "CCW")
   | HoldCW =>
       a <- get_current_angle ;;
       set_current_angle (a + ENCODER_POSITION_STEP_SIZE_DEG)%float
   | HoldCCW =>
       a <- get_current_angle ;;
       set_current_angle (a - ENCODER_POSITION_STEP_SIZE_DEG)%float
   | Diagnostic => print Bewildered
   end)%py.

Definition track_angular_change (index : row) : M float :=
  (last <- get_last_direction ;;
   b <- lift (track_branch index last) ;;
   run_branch b ;;
   get_current_angle)%py.

Definition detect_change_in_angular_position (df : frame) : M frame :=
  (set_last_direction None ;;
   set_current_angle 0%float ;;
   df' <- apply_assign track_angular_change (fun a => set_angle_deg (Some a)) df ;;
   set_current_angle 0%float ;;
   set_last_direction None ;;
   ret df')%py.

End Encoder.

(** [trim_redundant_data_points(df)]: [df[df.change_occurred == 0]].  The
    rows that pass the mask keep their labels. *)
Fixpoint trim_redundant_data_points (df : frame) : result frame :=
  match df with
  | [] => Ok []
  | r :: rest =>
      (changed <~ attr "change_occurred" change_occurred r ;;
       rest' <~ trim_redundant_data_points rest ;;
       Ok (if changed =? 0 then r :: rest' else rest'))%py
  end.

(** [detect_angular_velocity(df)] *)
Definition track_angular_velocity
  (angle previous_angle timestamp previous_timestamp : float) : float :=
  let angular_velocity := 0%float in
  let delta_theta := (angle - previous_angle)%float in
  let delta_t := (timestamp - previous_timestamp)%float in
  if negb (delta_t =? 0)%float then (delta_theta / delta_t)%float
  else angular_velocity.

Definition detect_angular_velocity (df : frame) : result frame :=
  (angle0 <~ at0 "angle_deg" angle_deg df ;;
   angles <~ column "angle_deg" angle_deg df ;;
   let previous_angle_deg := shift angle0 angles in
   timestamp0 <~ at0 "timestamp_normalized_s" timestamp_normalized_s df ;;
   timestamps <~ column "timestamp_normalized_s" timestamp_normalized_s df ;;
   let previous_timestamp_normalized_s := shift timestamp0 timestamps in
   Ok (assign (fun '(a, pa, (t, pt)) =>
                 set_velocity_deg_per_s (Some (track_angular_velocity a pa t pt)))
              df
              (combine (combine angles previous_angle_deg)
                       (combine timestamps previous_timestamp_normalized_s))))%py.

(** The body of [main]'s loop for one dataset, between [read_csv] and the
    plots. *)
Definition process_dataset (ENCODER_RESOLUTION period_s : float)
  (capture : list (float * Z * Z)) : M frame :=
  (let df := read_csv capture in
   df <- detect_initial_stable_angular_position df period_s ;;
   df <- lift (normalize_timestamps df period_s) ;;
   df <- lift (generate_encoder_position_bitmask df) ;;
   df <- detect_direction_of_motion df ;;
   df <- detect_change_in_angular_position ENCODER_RESOLUTION df ;;
   df <- lift (trim_redundant_data_points df) ;;
   df <- lift (detect_angular_velocity df) ;;
   ret df)%py.

(** The frame as it stands before the trimmer, for the claims that speak of
    the untrimmed sequence. *)
Definition annotate (ENCODER_RESOLUTION period_s : float)
  (capture : list (float * Z * Z)) : M frame :=
  (let df := read_csv capture in
   df <- detect_initial_stable_angular_position df period_s ;;
   df <- lift (normalize_timestamps df period_s) ;;
   df <- lift (generate_encoder_position_bitmask df) ;;
   df <- detect_direction_of_motion df ;;
   detect_change_in_angular_position ENCODER_RESOLUTION df)%py.

Definition world0 : world := mk_world (mk_statics "" None 0%float) [].

(** The six-sample capture of the worked example: two dwell samples, then a
    full clockwise turn of the code. *)
Definition scenario : list (float * Z * Z) :=
  [(0%float, 0, 0); (1%float, 0, 0); (2%float, 0, 1);
   (3%float, 1, 1); (4%float, 1, 0); (5%float, 0, 0)].

(** ** Definitions that follow the specification's words *)

(** The specification's [encode] table. *)
Definition encode (a b : Z) : string :=
  if a =? 0 then (if b =? 0 then "00" else "01")
  else (if b =? 0 then "10" else "11").

Definition is_bit (x : Z) : Prop := x = 0 \/ x = 1.

(** The specification's stable-origin result: the first position whose
    reading differs from the first sample's, [None] standing for "no motion
    detected". *)
Fixpoint first_differing (a0 b0 : Z) (i : Z) (samples : list (float * Z * Z))
  : option Z :=
  match samples with
  | [] => None
  | (_, a, b) :: rest =>
      if ((a =? a0) && (b =? b0))%bool then first_differing a0 b0 (i + 1) rest
      else Some i
  end.

Definition origin_change_index (samples : list (float * Z * Z)) : option Z :=
  match samples with
  | [] => None
  | (_, a0, b0) :: _ => first_differing a0 b0 0 samples
  end.

(** The index the detector prints, read back from what it printed. *)
Definition reported_index (out : list message) : option Z :=
  match find (fun m => match m with FirstChange _ _ => true | _ => false end) out with
  | Some (FirstChange idx _) => Some idx
  | _ => None
  end.

(** Stages 2 to 7 of [process_dataset], everything after the detector. *)
Definition decode (ENCODER_RESOLUTION period_s : float) (df : frame) : M frame :=
  (df <- lift (normalize_timestamps df period_s) ;;
   df <- lift (generate_encoder_position_bitmask df) ;;
   df <- detect_direction_of_motion df ;;
   df <- detect_change_in_angular_position ENCODER_RESOLUTION df ;;
   df <- lift (trim_redundant_data_points df) ;;
   df <- lift (detect_angular_velocity df) ;;
   ret df)%py.

(** A sample whose code changed, as the classifier marks it. *)
Definition changed (r : row) : bool :=
  match change_occurred r with
  | Some c => negb (c =? 0)
  | None => false
  end.

(** Python's [math.isfinite]. *)
Definition isfinite (x : float) : bool := PrimFloat.is_finite x.

(** Two worlds that agree on what the integrator reads. *)
Definition same_integrator_state (w w' : world) : Prop :=
  last_direction (attrs w) = last_direction (attrs w')
  /\ current_angle (attrs w) = current_angle (attrs w').

(** Relational triple: started in worlds related by [P], the computation
    gives the same result in both and leaves worlds related by [Q]. *)
Definition rel2 {A} (P Q : world -> world -> Prop) (c : M A) : Prop :=
  forall w w', P w w' ->
    fst (c w) = fst (c w') /\ Q (snd (c w)) (snd (c w')).

Definition anyw (w w' : world) : Prop := True.

(** A frame whose changed flag alternates 0, 1, 0, 1, ... down the rows. *)
Definition alternating_frame : frame :=
  map (fun r => set_change_occurred (Some (label r mod 2)) r) (read_csv scenario).

(** A dwell sample (no code change) and a world in which the last observed
    direction is clockwise. *)
Definition dwell_row : row :=
  mk_row 1 1%float 0 0 (Some 1) (Some 1%float) (Some "00") (Some "00")
         (Some 0) (Some "") None None.


(** A row that reaches the integrator marked as changed but without a
    direction; the classifier never produces one. *)
Definition stray_row : row :=
  mk_row 1 1%float 0 1 (Some 0) (Some 1%float) (Some "01") (Some "00")
         (Some 1) (Some "") None None.

(** The code at position [i] of the clockwise cycle. *)
Definition cycle (i : Z) : string := nth (Z.to_nat i) bitmask_cw_pattern "".

(** Two samples whose code jumps from "00" to "11". *)
Definition double_flip : list (float * Z * Z) :=
  [(0%float, 0, 0); (1%float, 1, 1)].

(** The integrator as the three live branches leave it: a changed sample
    moves the angle one step in its own direction, an unchanged sample
    leaves it where it is. *)
Fixpoint three_branch_angles (step a : float) (df : frame) : list float :=
  match df with
  | [] => []
  | r :: rest =>
      let a' :=
        if changed r then
          match direction r with
          | Some d => if String.eqb d "CW" then (a + step)%float else (a - step)%float
          | None => a
          end
        else a in
      a' :: three_branch_angles step a' rest
  end.

(** What the classifier leaves in a row: no change and no direction, or a
    change with one of the two directions. *)
Definition classified (r : row) : Prop :=
  (change_occurred r = Some 0 /\ direction r = Some "")
  \/ (exists ch, change_occurred r = Some ch /\ ch <> 0
                 /\ (direction r = Some "CW" \/ direction r = Some "CCW")).

(** Two samples as they reach the classifier: a clockwise step, then a
    dwell. *)
Definition two_rows : frame :=
  [set_direction None (set_change_occurred None stray_row);
   set_direction None (set_change_occurred None dwell_row)].

Definition two_rows_classified : frame :=
  match fst (detect_direction_of_motion two_rows world0) with
  | Ok df => df
  | Raise _ => []
  end.

(** The code of a sample, as the generator writes it in the current-code
    column. *)
Definition code_of (r : row) : string :=
  bitmask_of (Z.lor (Z.shiftl (chan_a r) 1) (chan_b r)).

Definition bits_only (df : frame) : Prop :=
  Forall (fun r => is_bit (chan_a r) /\ is_bit (chan_b r)) df.




(** [map] over a [result]. *)
Definition rmap {A B} (f : A -> B) (c : result A) : result B :=
  match c with
  | Ok a => Ok (f a)
  | Raise e => Raise e
  end.

(** The frame without its [matches_initial_position] column. *)
Definition forget_matches (df : frame) : frame :=
  map (set_matches_initial_position None) df.

(** A capture in which nothing moves. *)
Definition stationary : list (float * Z * Z) :=
  [(0%float, 0, 0); (1%float, 0, 0)].

(** A string of binary digits. *)
Fixpoint binary (s : string) : Prop :=
  match s with
  | EmptyString => True
  | String c rest => (c = "0"%char \/ c = "1"%char) /\ binary rest
  end.

(** The frame the generator returns for [r0 :: rest] when [r0] carries
    label 0. *)
Definition with_codes (r0 : row) (rest : frame) : frame :=
  assign (fun '(sa, sb) =>
            set_previous_position_bitmask
              (Some (bitmask_of (Z.lor (Z.shiftl sa 1) sb))))
         (map (fun r => set_current_position_bitmask (Some (code_of r)) r) (r0 :: rest))
         (combine (shift (chan_a r0) (map chan_a (r0 :: rest)))
                  (shift (chan_b r0) (map chan_b (r0 :: rest)))).

(** Stages 1 to 4 of [process_dataset]: everything up to and including the
    classifier, the one stage that rejects a capture for what its samples
    say. *)
Definition classify (period_s : float) (capture : list (float * Z * Z)) : M frame :=
  (let df := read_csv capture in
   df <- detect_initial_stable_angular_position df period_s ;;
   df <- lift (normalize_timestamps df period_s) ;;
   df <- lift (generate_encoder_position_bitmask df) ;;
   detect_direction_of_motion df)%py.

(** The rows of a frame that the classifier marked as changed. *)
Definition changed_rows (df : frame) : frame := filter changed df.

(** The annotated frame of the worked example. *)
Definition scenario_annotated : frame :=
  match fst (annotate 4%float 1%float scenario world0) with
  | Ok df => df
  | Raise _ => []
  end.

(** Stages 5 to 7 of [process_dataset]: what runs once the classifier has
    accepted the capture. *)
Definition kinematics (ENCODER_RESOLUTION : float) (df : frame) : M frame :=
  (df <- detect_change_in_angular_position ENCODER_RESOLUTION df ;;
   df <- lift (trim_redundant_data_points df) ;;
   df <- lift (detect_angular_velocity df) ;;
   ret df)%py.

(** A row that has the columns the classifier reads. *)
Definition coded (r : row) : Prop :=
  current_position_bitmask r <> None
  /\ previous_position_bitmask r <> None
  /\ timestamp_normalized_s r <> None.

(** One sample whose channel B reads 2. *)
Definition odd_capture : list (float * Z * Z) := [(0%float, 0, 2)].

(** ** The helpers around the pipeline (parse_encoder_data.py, common.py) *)

(** What a helper or the driver can die of, besides the pipeline's own
    exceptions. *)
Inductive failure : Type :=
| AssertionError (msg : string)
| IndexError
| ZeroDivisionError
| FloatError (text : string)          (* float() on text that is no number *)
| UnpackError                         (* x, y = ... on too few values *)
| NotADirectoryError
| FileNotFoundError
| SystemExit
| Uncaught (e : exn).

Inductive outcome (A : Type) : Type :=
| Done (a : A)
| Fail (f : failure).
Arguments Done {A} a.
Arguments Fail {A} f.

(** A line the helpers print: plain text, or the one line that shows a
    float. *)
Inductive note : Type :=
| Text (s : string)
| FoundRate (freq_hz : float).    (* "Found sampling rate value of [f] Hz" *)

Module Str.

(** [s.startswith(p)] *)
Definition startswith (s p : string) : bool := String.prefix p s.

(** [s.endswith(p)] *)
Fixpoint endswith (s p : string) : bool :=
  (String.eqb s p
   || match s with
      | EmptyString => false
      | String _ rest => endswith rest p
      end)%bool.

(** [s.split(c)] for a separator of one character. *)
Fixpoint split (c : ascii) (s : string) : list string :=
  match s with
  | EmptyString => [EmptyString]
  | String x rest =>
      if Ascii.eqb x c then EmptyString :: split c rest
      else match split c rest with
           | h :: t => String x h :: t
           | [] => [String x EmptyString]
           end
  end.

(** [s.replace("Hz", "")] *)
Fixpoint replace_Hz (s : string) : string :=
  match s with
  | String "H" (String "z" rest) => replace_Hz rest
  | String c rest => String c (replace_Hz rest)
  | EmptyString => EmptyString
  end.

(** A character of a string is its code point, below 256.  The white space
    [str.rstrip()] removes there: tab to carriage return, the four
    separators 28..31, the space, NEXT LINE (133) and the no-break space
    (160). *)
Definition is_space (c : ascii) : bool :=
  let n := N_of_ascii c in
  (((9 <=? n) && (n <=? 13)) || ((28 <=? n) && (n <=? 32))
   || (n =? 133) || (n =? 160))%N%bool.

(** [s.rstrip()] *)
Fixpoint rstrip (s : string) : string :=
  match s with
  | EmptyString => EmptyString
  | String c rest =>
      match rstrip rest with
      | EmptyString => if is_space c then EmptyString else String c EmptyString
      | String c' r => String c (String c' r)
      end
  end.

(** [c not in s] *)
Fixpoint lacks (c : ascii) (s : string) : bool :=
  match s with
  | EmptyString => true
  | String x rest => (negb (Ascii.eqb x c) && lacks c rest)%bool
  end.

End Str.

(** [set_dataset_format(category)], on the two module globals it assigns. *)
Definition SUPPORTED_DATASET_CATEGORIES : list string :=
  ["flir_blackfly_s"; "rpi_cam"; "sbs_encoder_data"].

Record channels : Type := mk_channels {
  LOGIC_ANALYZER_ENCODER_CHAN_A : string;
  LOGIC_ANALYZER_ENCODER_CHAN_B : string
}.

(** The values the module is loaded with. *)
Definition initial_channels : channels := mk_channels "DIO 1" "DIO 2".

Definition set_dataset_format (category : string) (g : channels)
  : outcome bool * channels * list note :=
  if negb (Py.mem category SUPPORTED_DATASET_CATEGORIES) then
    (Fail (AssertionError
             ("given category is not supported, please contact developer (got "
              ++ category ++ ")")%string), g, [])
  else if String.eqb category (nth 0 SUPPORTED_DATASET_CATEGORIES "") then
    (Done true, mk_channels "DIO 0" "DIO 1", [])
  else if String.eqb category (nth 1 SUPPORTED_DATASET_CATEGORIES "") then
    (Done true, mk_channels "DIO 1" "DIO 2", [])
  else if String.eqb category (nth 2 SUPPORTED_DATASET_CATEGORIES "") then
    (Done true, mk_channels "DIO 0" "DIO 1", [])
  else
    (Done false, g,
     [Text ("given category [" ++ category
            ++ "] has been added to the supported categories list, but not actually supported")%string]).

(** [get_header_row_index(dir)], on the lines of the file at [dir]. *)
Fixpoint header_scan (dir : string) (lines : list string) (line_num : Z)
  : Z * list note :=
  match lines with
  | [] =>
      (-1, [Text (String "009" ("Failed to locate sampling rate value from ["
                                ++ dir ++ "]"))%string])
  | l :: rest =>
      if Str.startswith l "#Time (s)," then (line_num, [])
      else header_scan dir rest (line_num + 1)
  end.

Definition get_header_row_index (dir : string) (lines : list string)
  : Z * list note :=
  header_scan dir lines 0.

(** [convert_frequency_to_period(freq_hz)]: Python's float division raises
    on a zero divisor. *)
Definition convert_frequency_to_period (freq_hz : float) : outcome float :=
  if (freq_hz =? 0)%float then Fail ZeroDivisionError
  else Done (1 / freq_hz)%float.

Section Builtins.

(** Python's [float(text)]: [None] when the text is no number. *)
Variable py_float : string -> option float.

(** [get_sampling_frequency_hz(dir)], on the lines of the file at [dir]. *)
Fixpoint get_sampling_frequency_hz (dir : string) (lines : list string)
  : outcome float * list note :=
  match lines with
  | [] =>
      (Done (-1)%float,
       [Text (String "009" ("Failed to locate sampling rate value from ["
                            ++ dir ++ "]"))%string])
  | l :: rest =>
      if Str.startswith l "#Sample rate: " then
        let text := Str.replace_Hz (Str.rstrip (last (Str.split ":" l) "")) in
        match py_float text with
        | Some freq_hz => (Done freq_hz, [FoundRate freq_hz])
        | None => (Fail (FloatError text), [])
        end
      else get_sampling_frequency_hz dir rest
  end.

End Builtins.

(** The path [output_updated_dataframe(df, csv_path)] writes to. *)
Definition out_path (csv_path : string) : string :=
  (hd "" (Str.split "." csv_path) ++ "_new.csv")%string.

(** [get_dataset_path()], on the text the user typed; [default_path] is
    the module constant. *)
Definition get_dataset_path (default_path typed : string) : string * list note :=
  let path :=
    if (negb (String.eqb typed "") && negb (Str.endswith typed "/"))%bool
    then (typed ++ "/")%string
    else default_path in
  (path, [Text ("Targeting datasets under [" ++ path ++ "]")%string]).

(** [_timer(start)], on the function attribute [_timer.t_i] and the reading
    of the clock. *)
Definition _timer (start : bool) (now : float) (t_i : option float)
  : float * option float * list note :=
  let t_i : option float := None in
  if start then
    match t_i with
    | Some _ =>
        ((-1)%float, t_i,
         [Text "a timer has already been started -- unable to start a timer."])
    | None => (0%float, Some now, [])
    end
  else
    match t_i with
    | Some t => ((now - t)%float, None, [])
    | None =>
        ((-1)%float, t_i,
         [Text "no timer has been started -- unable to stop a timer."])
    end.

(** A history of calls to [_timer], each with the clock reading it would
    see; the durations returned, in order. *)
Fixpoint timer_history (calls : list (bool * float)) (t_i : option float)
  : list float :=
  match calls with
  | [] => []
  | (start, now) :: rest =>
      let '(r, t_i', _) := _timer start now t_i in
      r :: timer_history rest t_i'
  end.

(** [main]'s two lines [freq_hz = get_sampling_frequency_hz(...)] and
    [period_s = convert_frequency_to_period(freq_hz)]. *)
Definition period_of (py_float : string -> option float) (dir : string)
  (lines : list string) : outcome float :=
  match fst (get_sampling_frequency_hz py_float dir lines) with
  | Done freq_hz => convert_frequency_to_period freq_hz
  | Fail f => Fail f
  end.

(** The line feed that ends a line read from a file. *)
Definition LF : string := String "010" EmptyString.

(** The line of a capture file that declares the rate [d]. *)
Definition rate_line (d : string) : string :=
  ("#Sample rate: " ++ d ++ "Hz" ++ LF)%string.

(** ** Exchanging the two channels *)

(** The capture read with the two channel columns exchanged. *)
Definition swap_channels (capture : list (float * Z * Z)) : list (float * Z * Z) :=
  map (fun s => (fst (fst s), snd s, snd (fst s))) capture.

(** The opposite sense of rotation; the empty direction is its own. *)
Definition opposite (d : string) : string :=
  if String.eqb d "CW" then "CCW"
  else if String.eqb d "CCW" then "CW"
  else d.

(** A code with its two digits exchanged. *)
Definition exchange (code : string) : string :=
  match code with
  | String x (String y EmptyString) => String y (String x EmptyString)
  | _ => code
  end.

(** Two rows that carry mirrored codes, both of the cycle. *)
Definition mirrored_codes (r r' : row) : Prop :=
  exists c p,
    In c bitmask_cw_pattern /\ In p bitmask_cw_pattern
    /\ current_position_bitmask r = Some c
    /\ previous_position_bitmask r = Some p
    /\ current_position_bitmask r' = Some (exchange c)
    /\ previous_position_bitmask r' = Some (exchange p).

(** Two classified rows that tell mirrored motions. *)
Definition mirrored (r r' : row) : Prop :=
  change_occurred r' = change_occurred r
  /\ direction r' = option_map opposite (direction r).

(** ** The frame-rate histogram (get_fps.py) *)

Module GetFps.

(** [p in s] *)
Fixpoint contains (s p : string) : bool :=
  (Str.startswith s p
   || match s with
      | EmptyString => false
      | String _ rest => contains rest p
      end)%bool.

(** [s[n:]] *)
Fixpoint drop (n : nat) (s : string) : string :=
  match n, s with
  | O, _ => s
  | S n', String _ rest => drop n' rest
  | S _, EmptyString => EmptyString
  end.

(** [frame.split("/")[-1]], then [.split("-")[1]], then [[8:]]. *)
Definition timestamp_of (frame : string) : outcome string :=
  let frame_timestamp := last (Str.split "/" frame) "" in
  match nth_error (Str.split "-" frame_timestamp) 1 with
  | Some frame_timestamp => Done (drop 8 frame_timestamp)
  | None => Fail IndexError
  end.

(** The loop that fills [frame_timestamp_list]. *)
Fixpoint timestamps (frames_filenames_list_raw : list string)
  : outcome (list string) :=
  match frames_filenames_list_raw with
  | [] => Done []
  | frame :: rest =>
      if contains frame "fps" then timestamps rest
      else
        match timestamp_of frame with
        | Fail f => Fail f
        | Done frame_timestamp =>
            match timestamps rest with
            | Done frame_timestamp_list =>
                Done (frame_timestamp :: frame_timestamp_list)
            | Fail f => Fail f
            end
        end
  end.

(** [fps_dict[ts] += 1] for a key of the dict, [fps_dict[ts] = 1] for a new
    one; the dict keeps its keys in the order they came. *)
Fixpoint count (ts : string) (fps_dict : list (string * Z)) : list (string * Z) :=
  match fps_dict with
  | [] => [(ts, 1)]
  | (k, n) :: rest =>
      if String.eqb ts k then (k, n + 1) :: rest
      else (k, n) :: count ts rest
  end.

Definition histogram (frame_timestamp_list : list string) : list (string * Z) :=
  fold_left (fun fps_dict ts => count ts fps_dict) frame_timestamp_list [].

(** The order of two [(key, count)] tuples. *)
Definition item_leb (p q : string * Z) : bool :=
  if String.eqb (fst p) (fst q) then snd p <=? snd q
  else String.leb (fst p) (fst q).

(** [sorted(fps_dict.items())] *)
Fixpoint insert (p : string * Z) (l : list (string * Z)) : list (string * Z) :=
  match l with
  | [] => [p]
  | q :: rest => if item_leb p q then p :: l else q :: insert p rest
  end.

Definition sorted (items : list (string * Z)) : list (string * Z) :=
  fold_right insert [] items.

(** [main()], from the list [glob.glob] returns to the two tuples handed to
    [plt.plot].  The assignment to [x, y] unpacks what [zip] yields for the
    items, two tuples, and [zip] of no item yields none. *)
Definition main (frames_filenames_list_raw : list string)
  : outcome (list string * list Z) :=
  match timestamps frames_filenames_list_raw with
  | Fail f => Fail f
  | Done frame_timestamp_list =>
      let fps_dict := histogram frame_timestamp_list in
      let fps_lists := sorted fps_dict in
      match fps_lists with
      | [] => Fail UnpackError
      | _ :: _ => Done (map fst fps_lists, map snd fps_lists)
      end
  end.

(** How often [k] occurs in a list of timestamps. *)
Definition occurrences (k : string) (l : list string) : Z :=
  Z.of_nat (count_occ string_dec l k).

End GetFps.

(** ** The driver (common.scan_for_datasets, parse_encoder_data.main) *)

(** What the file system holds at a path: a file, or a directory with its
    named entries. *)
Inductive node : Type :=
| File
| Dir (entries : list entry)
with entry : Type :=
| Entry (name : string) (at_name : node).

Definition name_of (e : entry) : string :=
  match e with Entry name _ => name end.

(** What is at [name] below a directory. *)
Fixpoint child (name : string) (entries : list entry) : option node :=
  match entries with
  | [] => None
  | Entry n x :: rest => if String.eqb n name then Some x else child name rest
  end.

(** [os.listdir(path)] and [os.path.isdir(path)], on what is at the path. *)
Definition listdir (at_path : option node) : outcome (list string) :=
  match at_path with
  | Some (Dir entries) => Done (map name_of entries)
  | Some File => Fail NotADirectoryError
  | None => Fail FileNotFoundError
  end.

Definition isdir (at_path : option node) : bool :=
  match at_path with
  | Some (Dir _) => true
  | _ => false
  end.

(** [l.sort()] on a list of strings. *)
Fixpoint insert_name (x : string) (l : list string) : list string :=
  match l with
  | [] => [x]
  | y :: rest => if String.leb x y then x :: l else y :: insert_name x rest
  end.

Definition sort_names (l : list string) : list string :=
  fold_right insert_name [] l.

(** A dict from strings to lists of strings, its items in insertion order. *)
Definition dict : Type := list (string * list string).

(** [d[k] = v] *)
Fixpoint dict_set (k : string) (v : list string) (d : dict) : dict :=
  match d with
  | [] => [(k, v)]
  | (k', v') :: rest =>
      if String.eqb k' k then (k', v) :: rest else (k', v') :: dict_set k v rest
  end.

(** [del d[k]] *)
Definition dict_del (k : string) (d : dict) : dict :=
  filter (fun kv => negb (String.eqb (fst kv) k)) d.

(** [k in d] and [d[k]] *)
Fixpoint dict_get (k : string) (d : dict) : option (list string) :=
  match d with
  | [] => None
  | (k', v) :: rest => if String.eqb k' k then Some v else dict_get k rest
  end.

(** The sorted [temp_folders_list] of one category. *)
Definition subfolders (category : option node) : outcome (list string) :=
  match listdir category with
  | Fail f => Fail f
  | Done names =>
      match category with
      | Some (Dir entries) =>
          Done (sort_names (filter (fun f => isdir (child f entries)) names))
      | _ => Done []
      end
  end.

(** The loop of [scan_for_datasets] over the sorted category names. *)
Fixpoint scan_categories (entries : list entry)
  (dataset_category_list : list string) (datasets_dict : dict) : outcome dict :=
  match dataset_category_list with
  | [] => Done datasets_dict
  | category_dir :: rest =>
      match subfolders (child category_dir entries) with
      | Fail f => Fail f
      | Done temp_folders_list =>
          scan_categories entries rest
                          (dict_set category_dir temp_folders_list datasets_dict)
      end
  end.

Definition keys_to_remove (datasets_dict : dict) : list string :=
  map fst (filter (fun kv => match snd kv with [] => true | _ :: _ => false end)
                  datasets_dict).

(** [scan_for_datasets(dir)], on what is at [dir]; what it prints is left
    out. *)
Definition scan_for_datasets (at_dir : option node) : outcome dict :=
  match listdir at_dir with
  | Fail f => Fail f
  | Done names =>
      let dataset_category_list := sort_names names in
      let entries := match at_dir with
                     | Some (Dir entries) => entries
                     | _ => []
                     end in
      match scan_categories entries dataset_category_list [] with
      | Fail f => Fail f
      | Done datasets_dict =>
          Done (fold_left (fun d k => dict_del k d)
                          (keys_to_remove datasets_dict) datasets_dict)
      end
  end.

(** The categories of a root directory as [scan_for_datasets] reports
    them when every entry is a directory. *)
Definition categories_of (entries : list entry) : dict :=
  filter (fun kv => match snd kv with [] => false | _ :: _ => true end)
         (map (fun k => (k, match subfolders (child k entries) with
                            | Done l => l
                            | Fail _ => []
                            end))
              (sort_names (map name_of entries))).

(** [block_list] *)
Definition block_list : dict := [("flir_blackfly_s", ["0"])].

(** [category in block_list and dataset in block_list[category]] *)
Definition blocked (category dataset : string) : bool :=
  match dict_get category block_list with
  | Some datasets => Py.mem dataset datasets
  | None => false
  end.

Section Driver.

(** The body of [main]'s inner loop for one dataset that is not skipped,
    from the load of the csv file to the output file: it runs under the
    channel names in force and either completes or raises. *)
Variable run_dataset : channels -> string -> string -> outcome unit.

(** [for dataset in datasets]; the datasets whose body was entered are
    collected, with the channel names in force. *)
Fixpoint main_datasets (g : channels) (category : string)
  (datasets : list string) (ran : list (string * string * channels))
  : outcome unit * list (string * string * channels) :=
  match datasets with
  | [] => (Done tt, ran)
  | dataset :: rest =>
      if blocked category dataset then main_datasets g category rest ran
      else
        match run_dataset g category dataset with
        | Done _ => main_datasets g category rest (ran ++ [(category, dataset, g)])
        | Fail f => (Fail f, ran ++ [(category, dataset, g)])
        end
  end.

(** [for category, datasets in datasets_paths.items()] *)
Fixpoint main_categories (g : channels) (items : dict)
  (ran : list (string * string * channels))
  : outcome unit * channels * list (string * string * channels) :=
  match items with
  | [] => (Done tt, g, ran)
  | (category, datasets) :: rest =>
      match set_dataset_format category g with
      | (Fail f, g', _) => (Fail f, g', ran)
      | (Done false, g', _) => (Fail SystemExit, g', ran)
      | (Done true, g', _) =>
          match main_datasets g' category datasets ran with
          | (Done _, ran') => main_categories g' rest ran'
          | (Fail f, ran') => (Fail f, g', ran')
          end
      end
  end.

(** [main(dataset_root_dir, datasets_paths)]: the outcome, the channel
    names it leaves in the globals, and the datasets whose body was entered,
    in order. *)
Definition main (datasets_paths : dict) (g : channels)
  : outcome unit * channels * list (string * string * channels) :=
  match datasets_paths with
  | [] => (Fail SystemExit, g, [])
  | _ :: _ => main_categories g datasets_paths []
  end.

End Driver.

(** The datasets of a scan in the order [main] comes to them, without the
    skipped ones. *)
Definition planned (datasets_paths : dict) : list (string * string) :=
  flat_map (fun kv => map (pair (fst kv))
                          (filter (fun dataset => negb (blocked (fst kv) dataset))
                                  (snd kv)))
           datasets_paths.

(** A root directory with two categories that hold datasets, one without
    any, and a stray file in a category. *)
Definition thesis_datasets : list entry :=
  [Entry "rpi_cam" (Dir [Entry "7" (Dir [Entry "7.csv" File]);
                         Entry "notes.txt" File;
                         Entry "3" (Dir [])]);
   Entry "sbs_encoder_data" (Dir []);
   Entry "flir_blackfly_s" (Dir [Entry "0" (Dir []); Entry "1" (Dir [])])].

(** ** [get_time_offset] *)

(** [x] put before the first piece of a split. *)
Definition onto_first (x : ascii) (pieces : list string) : list string :=
  match pieces with
  | h :: t => String x h :: t
  | [] => [String x EmptyString]
  end.

(** [s.split(" = ")] *)
Fixpoint split_spaced_eq (s : string) : list string :=
  match s with
  | EmptyString => [EmptyString]
  | String x rest =>
      match rest with
      | String y (String z rest') =>
          if (Ascii.eqb x " " && Ascii.eqb y "=" && Ascii.eqb z " ")%bool
          then EmptyString :: split_spaced_eq rest'
          else onto_first x (split_spaced_eq rest)
      | _ => onto_first x (split_spaced_eq rest)
      end
  end.

(** [get_time_offset(dir)], on the lines of [dir + "stats.txt"].  The
    message is built, and its [l.split('=')[1]] evaluated, before the value
    is. *)
Fixpoint get_time_offset (dir : string) (lines : list string)
  : outcome string * list note :=
  match lines with
  | [] =>
      (Done EmptyString,
       [Text (String "009" ("Failed to locate t_diff value from ["
                            ++ dir ++ "stats.txt]"))%string])
  | l :: rest =>
      if Str.startswith l "t_diff" then
        match nth_error (Str.split "=" l) 1 with
        | None => (Fail IndexError, [])
        | Some shown =>
            let found :=
              Text ("Found t_diff value of [" ++ Str.rstrip shown
                    ++ "] seconds")%string in
            match nth_error (split_spaced_eq l) 1 with
            | None => (Fail IndexError, [found])
            | Some value => (Done (Str.rstrip value), [found])
            end
        end
      else get_time_offset dir rest
  end.

(** The line of stats.txt that carries the offset [v]. *)
Definition t_diff_line (v : string) : string := ("t_diff = " ++ v ++ LF)%string.

(** * Proofs *)

(** ** Inversion of the monads *)

Lemma rbind_ok {A B} (c : result A) (k : A -> result B) (b : B) :
  rbind c k = Ok b -> exists a, c = Ok a /\ k a = Ok b.
Proof.
  destruct c as [a|e]; simpl; intros H; [eauto | discriminate].
Qed.

Lemma bind_ok {A B} (c : M A) (k : A -> M B) (w w' : world) (b : B) :
  bind c k w = (Ok b, w') ->
  exists a w1, c w = (Ok a, w1) /\ k a w1 = (Ok b, w').
Proof.
  unfold bind. destruct (c w) as [[a|e] w1]; intros H.
  - eauto.
  - inversion H.
Qed.

Lemma lift_ok {A} (c : result A) (w w' : world) (a : A) :
  lift c w = (Ok a, w') -> c = Ok a /\ w' = w.
Proof.
  unfold lift. intros H. inversion H. auto.
Qed.

Lemma bind_lift_ok {A B} (a : A) (k : A -> M B) (w : world) :
  bind (lift (Ok a)) k w = k a w.
Proof. reflexivity. Qed.

Lemma col_ok {A} name (f : row -> option A) r v :
  col name f r = Ok v -> f r = Some v.
Proof.
  unfold col. destruct (f r); intros H; inversion H; reflexivity.
Qed.

Lemma col_some {A} name (f : row -> option A) r v :
  f r = Some v -> col name f r = Ok v.
Proof.
  unfold col. intros ->. reflexivity.
Qed.

Lemma attr_ok {A} name (f : row -> option A) r v :
  attr name f r = Ok v -> f r = Some v.
Proof.
  unfold attr. destruct (f r); intros H; inversion H; reflexivity.
Qed.

(** Peel one [rbind] or [bind] off a hypothesis that a computation returned
    normally, naming the intermediate value and the two runs. *)
Tactic Notation "invert_rbind" hyp(H) "as" ident(a) ident(H1) ident(H2) :=
  apply rbind_ok in H; destruct H as (a & H1 & H2).

Tactic Notation "invert_bind" hyp(H) "as" ident(a) ident(w) ident(H1) ident(H2) :=
  apply bind_ok in H; destruct H as (a & w & H1 & H2).

(** ** The trimmer *)

Lemma trim_keeps_unchanged (df out : frame) :
  trim_redundant_data_points df = Ok out ->
  out = filter (fun r => negb (changed r)) df.
Proof.
  revert out. induction df as [|r rest IH]; simpl; intros out H.
  - inversion H. reflexivity.
  - invert_rbind H as c Hc H. invert_rbind H as rest' Hrest H.
    apply attr_ok in Hc. unfold changed at 1. rewrite Hc.
    rewrite Bool.negb_involutive.
    rewrite <- (IH _ Hrest).
    destruct (c =? 0); inversion H; reflexivity.
Qed.

Lemma trim_total (df : frame) :
  Forall (fun r => change_occurred r <> None) df ->
  exists out, trim_redundant_data_points df = Ok out.
Proof.
  induction 1 as [|r rest Hr _ IH]; simpl.
  - eauto.
  - destruct IH as [out ->]. unfold attr.
    destruct (change_occurred r) as [c|]; [|congruence].
    simpl. eauto.
Qed.

(** C1 (what the code does): the trimmer returns, in their original order,
    exactly the samples whose changed flag is FALSE, so its length is the
    count of unchanged samples; on the six-sample scenario it keeps the two
    dwell samples 0 and 1 and drops the four samples 2..5 whose code
    changed. *)
Theorem trimmer_keeps_the_unchanged_samples :
  (forall df out,
      trim_redundant_data_points df = Ok out ->
      out = filter (fun r => negb (changed r)) df
      /\ Forall (fun r => changed r = false) out) /\
  (exists df out,
      fst (annotate 4%float 1%float scenario world0) = Ok df
      /\ trim_redundant_data_points df = Ok out
      /\ map label out = [0; 1]
      /\ map label (filter changed df) = [2; 3; 4; 5]
      /\ List.length out = 2%nat
      /\ List.length (filter changed df) = 4%nat).
Proof.
  split.
  - intros df out H. apply trim_keeps_unchanged in H. split; [exact H|].
    subst out. apply Forall_forall. intros r Hr.
    apply filter_In in Hr. destruct Hr as [_ Hr].
    now apply Bool.negb_true_iff in Hr.
  - eexists. eexists. vm_compute. repeat split; reflexivity.
Qed.

Lemma trimmer_keeps_the_unchanged_samples_witness :
  trim_redundant_data_points alternating_frame
  = Ok (filter (fun r => negb (changed r)) alternating_frame)
  /\ map label (filter (fun r => negb (changed r)) alternating_frame) = [0; 2; 4].
Proof.
  split; [|reflexivity].
  destruct (proj1 trimmer_keeps_the_unchanged_samples alternating_frame
              (filter (fun r => negb (changed r)) alternating_frame) eq_refl)
    as [_ _].
  reflexivity.
Defined.

(** C4 (what the code does): on the six-sample scenario with resolution 4
    the codes, directions and angles are the expected ones, but the trimmer
    keeps the dwell samples 0 and 1 instead of samples 2..5, so the output
    has length 2 and velocities 0, 0. *)
Theorem scenario_run :
  exists df out,
    fst (annotate 4%float 1%float scenario world0) = Ok df
    /\ fst (process_dataset 4%float 1%float scenario world0) = Ok out
    /\ map current_position_bitmask df
       = [Some "00"; Some "00"; Some "01"; Some "11"; Some "10"; Some "00"]
    /\ map direction df
       = [Some ""; Some ""; Some "CW"; Some "CW"; Some "CW"; Some "CW"]
    /\ map angle_deg df
       = [Some 0%float; Some 0%float; Some 90%float;
          Some 180%float; Some 270%float; Some 360%float]
    /\ map label (filter changed df) = [2; 3; 4; 5]
    /\ map label out = [0; 1]
    /\ map velocity_deg_per_s out = [Some 0%float; Some 0%float].
Proof.
  eexists. eexists. vm_compute. repeat split; reflexivity.
Qed.

(** ** The integrator *)


Lemma track_unchanged (res : float) (r : row) (w : world) :
  change_occurred r = Some 0 ->
  track_angular_change res r w = (Ok (current_angle (attrs w)), w).
Proof.
  intros H. unfold track_angular_change, track_branch, bind, lift, col.
  simpl. rewrite H. simpl. reflexivity.
Qed.




(** ** The direction classifier *)

Lemma in_cycle (i : Z) : 0 <= i < 4 -> i = 0 \/ i = 1 \/ i = 2 \/ i = 3.
Proof. lia. Qed.

Lemma check_direction_changed (r : row) (p c ch : Z) (t : float) (w : world) :
  0 <= p < 4 -> 0 <= c < 4 -> ch <> 0 ->
  previous_position_bitmask r = Some (cycle p) ->
  current_position_bitmask r = Some (cycle c) ->
  change_occurred r = Some ch ->
  timestamp_normalized_s r = Some t ->
  fst (check_direction r w)
  = if c =? (p + 1) mod 4 then Ok "CW"
    else if c =? (p - 1) mod 4 then Ok "CCW"
    else Raise (ValueError (IllegalChange (cycle c) t)).
Proof.
  intros Hp Hc Hch Hprev Hcur Hchg Ht.
  apply Z.eqb_neq in Hch.
  unfold check_direction, bind, lift, col.
  rewrite Hcur, Hprev, Hchg, Ht.
  destruct (in_cycle p Hp) as [-> | [-> | [-> | ->]]];
    destruct (in_cycle c Hc) as [-> | [-> | [-> | ->]]];
    simpl; rewrite Hch; reflexivity.
Qed.

Lemma mark_change_differs (r : row) (p c : Z) :
  0 <= p < 4 -> 0 <= c < 4 -> c <> p ->
  previous_position_bitmask r = Some (cycle p) ->
  current_position_bitmask r = Some (cycle c) ->
  mark_change r = Ok (set_change_occurred (Some 1) r).
Proof.
  intros Hp Hc Hne Hprev Hcur. unfold mark_change, col.
  rewrite Hcur, Hprev. simpl.
  destruct (in_cycle p Hp) as [-> | [-> | [-> | ->]]];
    destruct (in_cycle c Hc) as [-> | [-> | [-> | ->]]];
    try congruence; reflexivity.
Qed.

Lemma apply_assign_app_raise {A} (f : row -> M A) (set : A -> row -> row)
  (r : row) (before after : frame) :
  (forall w, exists e, fst (f r w) = Raise e) ->
  forall w, exists e, fst (apply_assign f set (before ++ r :: after) w) = Raise e.
Proof.
  intros Hr. induction before as [|b before IH]; intros w; simpl.
  - unfold bind. destruct (Hr w) as [e He].
    destruct (f r w) as [[v|e'] w1]; simpl in *; [discriminate|eauto].
  - unfold bind at 1. destruct (f b w) as [[v|e'] w1]; simpl; [|eauto].
    unfold bind at 1. destruct (IH w1) as [e He].
    destruct (apply_assign f set (before ++ r :: after) w1) as [[v'|e'] w2];
      simpl in *; [discriminate|eauto].
Qed.

Lemma mark_changes_app (before after : frame) (r : row) (df1 : frame) :
  mark_changes (before ++ r :: after) = Ok df1 ->
  exists before' r' after',
    df1 = before' ++ r' :: after' /\ mark_change r = Ok r'.
Proof.
  revert df1. induction before as [|b before IH]; simpl; intros df1 H.
  - invert_rbind H as r' Hr H. invert_rbind H as rest' Hrest H.
    inversion H; subst. exists [], r', rest'. auto.
  - invert_rbind H as b' Hb H. invert_rbind H as rest' Hrest H.
    inversion H; subst.
    destruct (IH _ Hrest) as (bs & r' & a' & -> & Hr).
    exists (b' :: bs), r', a'. auto.
Qed.

(** C3: for a sample whose code changed, with p and c the positions of the
    previous and current code in the cycle "00","01","11","10", the
    classifier answers CW exactly when c = (p+1) mod 4, CCW exactly when
    c = (p-1) mod 4, and otherwise raises the illegal-change error, which
    aborts the classifier stage on any frame holding that sample; the
    capture that jumps from "00" to "11" is aborted with that error. *)
Theorem classifier_transition_rule :
  (forall (r : row) (p c : Z) (t : float) (w : world),
      0 <= p < 4 -> 0 <= c < 4 -> c <> p ->
      previous_position_bitmask r = Some (cycle p) ->
      current_position_bitmask r = Some (cycle c) ->
      timestamp_normalized_s r = Some t ->
      exists r',
        mark_change r = Ok r' /\ change_occurred r' = Some 1 /\
        (fst (check_direction r' w) = Ok "CW" <-> c = (p + 1) mod 4) /\
        (fst (check_direction r' w) = Ok "CCW" <-> c = (p - 1) mod 4) /\
        (c <> (p + 1) mod 4 -> c <> (p - 1) mod 4 ->
         fst (check_direction r' w)
         = Raise (ValueError (IllegalChange (cycle c) t))
         /\ forall before after w0,
             exists e,
               fst (detect_direction_of_motion (before ++ r :: after) w0) = Raise e))
  /\ fst (process_dataset 2048%float 1%float double_flip world0)
     = Raise (ValueError (IllegalChange "11" 1%float)).
Proof.
  split; [|reflexivity].
  intros r p c t w Hp Hc Hne Hprev Hcur Ht.
  exists (set_change_occurred (Some 1) r).
  pose proof (mark_change_differs r p c Hp Hc Hne Hprev Hcur) as Hmark.
  assert (Hrule : forall w1,
             fst (check_direction (set_change_occurred (Some 1) r) w1)
             = if c =? (p + 1) mod 4 then Ok "CW"
               else if c =? (p - 1) mod 4 then Ok "CCW"
               else Raise (ValueError (IllegalChange (cycle c) t))).
  { intros w1. apply check_direction_changed with (ch := 1); auto; discriminate. }
  split; [exact Hmark|]. split; [reflexivity|].
  rewrite Hrule.
  destruct (Z.eqb_spec c ((p + 1) mod 4)) as [E1|E1];
    destruct (Z.eqb_spec c ((p - 1) mod 4)) as [E2|E2].
  - exfalso. destruct (in_cycle p Hp) as [-> | [-> | [-> | ->]]];
      vm_compute in E1, E2; congruence.
  - repeat split; auto; try discriminate; try contradiction.
  - repeat split; auto; try discriminate; try contradiction.
  - split; [split; [discriminate|contradiction]|].
    split; [split; [discriminate|contradiction]|].
    intros _ _. split; [reflexivity|].
    intros before after w0.
    unfold detect_direction_of_motion, bind at 1. simpl.
    unfold bind at 1, lift.
    destruct (mark_changes (before ++ r :: after)) as [df1|e] eqn:Hm;
      [|simpl; eauto].
    apply mark_changes_app in Hm.
    destruct Hm as (b' & r' & a' & -> & Hr').
    rewrite Hmark in Hr'. inversion Hr'; subst r'.
    apply apply_assign_app_raise.
    intros w1. rewrite Hrule. eauto.
Qed.

Lemma classifier_transition_rule_witness :
  fst (check_direction stray_row world0) = Ok "CW".
Proof.
  destruct (proj1 classifier_transition_rule
              (set_change_occurred None stray_row) 0 1 1%float world0
              ltac:(lia) ltac:(lia) ltac:(discriminate)
              eq_refl eq_refl eq_refl)
    as (r' & Hmark & _ & Hcw & _).
  inversion Hmark; subst r'.
  apply Hcw. reflexivity.
Defined.

(** ** From the classifier to the integrator *)

Lemma check_direction_ok (r : row) (w w' : world) (d : string) :
  check_direction r w = (Ok d, w') ->
  exists ch, change_occurred r = Some ch
             /\ ((ch = 0 /\ d = "") \/ (ch <> 0 /\ (d = "CW" \/ d = "CCW"))).
Proof.
  unfold check_direction, bind, lift, col, list_index.
  destruct (current_position_bitmask r) as [cur|]; [|discriminate].
  destruct (previous_position_bitmask r) as [prev|]; [|discriminate].
  destruct (Py.index cur bitmask_cw_pattern) as [ci|]; [|discriminate].
  destruct (Py.index prev bitmask_cw_pattern) as [pi|]; [|discriminate].
  destruct (change_occurred r) as [ch|]; [|discriminate].
  intros H. exists ch. split; [reflexivity|].
  destruct (Z.eqb_spec ch 0) as [E|E].
  - left. simpl in H. inversion H. auto.
  - right. split; [exact E|].
    destruct (negb (Py.mem cur bitmask_cw_pattern)); [discriminate|].
    cbv zeta in H.
    destruct (String.eqb cur _); [simpl in H; inversion H; auto|].
    destruct (String.eqb cur _); [simpl in H; inversion H; auto|].
    destruct (timestamp_normalized_s r); discriminate.
Qed.

Lemma apply_assign_ok {A} (f : row -> M A) (set : A -> row -> row)
  (df df' : frame) (w w' : world) :
  apply_assign f set df w = (Ok df', w') ->
  Forall2 (fun r r' => exists v w1 w2, f r w1 = (Ok v, w2) /\ r' = set v r) df df'.
Proof.
  revert df' w w'. induction df as [|r rest IH]; simpl; intros df' w w' H.
  - inversion H. constructor.
  - invert_bind H as v w1 Hv H. invert_bind H as rest' w2 Hrest H.
    inversion H; subst. constructor; eauto.
Qed.

Lemma mark_changes_ok (df df1 : frame) :
  mark_changes df = Ok df1 ->
  Forall2 (fun r r1 => mark_change r = Ok r1) df df1.
Proof.
  revert df1. induction df as [|r rest IH]; simpl; intros df1 H.
  - inversion H. constructor.
  - invert_rbind H as r1 Hr H. invert_rbind H as rest1 Hrest H.
    inversion H; subst. constructor; auto.
Qed.

Lemma mark_change_ok (r r1 : row) :
  mark_change r = Ok r1 ->
  exists cur prev,
    current_position_bitmask r = Some cur
    /\ previous_position_bitmask r = Some prev
    /\ r1 = set_change_occurred (Some (if String.eqb cur prev then 0 else 1)) r.
Proof.
  unfold mark_change. intros H.
  invert_rbind H as cur Hcur H. invert_rbind H as prev Hprev H.
  apply col_ok in Hcur. apply col_ok in Hprev. inversion H. eauto.
Qed.

Lemma classifier_output_classified (df df' : frame) (w w' : world) :
  detect_direction_of_motion df w = (Ok df', w') ->
  Forall classified df'.
Proof.
  unfold detect_direction_of_motion. intros H.
  invert_bind H as u w1 Hset H. invert_bind H as df1 w2 Hmark H.
  apply apply_assign_ok in H.
  clear - H. induction H as [|r r' l l' Hr _ IH]; constructor; auto.
  destruct Hr as (d & wa & wb & Hd & ->).
  apply check_direction_ok in Hd.
  destruct Hd as (ch & Hch & [[-> ->] | [Hne Hd]]).
  - left. simpl. auto.
  - right. exists ch. simpl. repeat split; auto.
    destruct Hd as [-> | ->]; auto.
Qed.

Lemma classified_branch (r : row) (last : option string) :
  classified r ->
  (changed r = false /\ track_branch r last = Ok Pass)
  \/ (changed r = true /\ direction r = Some "CW" /\ track_branch r last = Ok StepCW)
  \/ (changed r = true /\ direction r = Some "CCW" /\ track_branch r last = Ok StepCCW).
Proof.
  unfold classified, changed, track_branch, col.
  intros [[Hch Hd] | (ch & Hch & Hne & Hd)]; rewrite Hch.
  - left. auto.
  - right. apply Z.eqb_neq in Hne. simpl. rewrite Hne.
    destruct Hd as [Hd | Hd]; rewrite Hd; simpl; auto.
Qed.

Lemma apply_assign_cons {A} (f : row -> M A) (set : A -> row -> row)
  (r : row) (rest : frame) (w : world) :
  apply_assign f set (r :: rest) w
  = match f r w with
    | (Ok v, w1) =>
        match apply_assign f set rest w1 with
        | (Ok rest', w2) => (Ok (set v r :: rest'), w2)
        | (Raise e, w2) => (Raise e, w2)
        end
    | (Raise e, w1) => (Raise e, w1)
    end.
Proof.
  simpl. unfold bind at 1. destruct (f r w) as [[v|e] w1]; [|reflexivity].
  unfold bind. destruct (apply_assign f set rest w1) as [[rest'|e] w2]; reflexivity.
Qed.

Lemma track_angular_change_eq (res : float) (r : row) (w : world) :
  track_angular_change res r w
  = match track_branch r (last_direction (attrs w)) with
    | Ok b => (Ok (current_angle (attrs (snd (run_branch res b w)))),
               snd (run_branch res b w))
    | Raise e => (Raise e, w)
    end.
Proof.
  unfold track_angular_change, bind, lift, get_last_direction.
  destruct (track_branch r (last_direction (attrs w))) as [b|e]; [|reflexivity].
  destruct b; reflexivity.
Qed.

Lemma integrator_on_classified (res : float) (df : frame) :
  Forall classified df ->
  forall w, exists w',
    apply_assign (track_angular_change res) (fun a => set_angle_deg (Some a)) df w
    = (Ok (assign (fun a => set_angle_deg (Some a)) df
                  (three_branch_angles (ENCODER_POSITION_STEP_SIZE_DEG res)
                                       (current_angle (attrs w)) df)),
       w')
    /\ stdout w' = stdout w
    /\ current_direction (attrs w') = current_direction (attrs w).
Proof.
  induction 1 as [|r rest Hr _ IH]; intros w.
  - exists w. simpl. auto.
  - rewrite apply_assign_cons, track_angular_change_eq.
    cbn [three_branch_angles assign].
    destruct (classified_branch r (last_direction (attrs w)) Hr)
      as [[Hc Hb] | [(Hc & Hd & Hb) | (Hc & Hd & Hb)]];
      rewrite Hb, Hc; try rewrite Hd;
      match goal with
      | |- context [apply_assign _ _ rest ?w1] =>
          destruct (IH w1) as (w' & Hrun & Hout & Hdir)
      end;
      rewrite Hrun; exists w'; auto.
Qed.

Lemma integrator_eq (res : float) (df' : frame) (w0 : world) :
  Forall classified df' ->
  detect_change_in_angular_position res df' w0
  = (Ok (assign (fun a => set_angle_deg (Some a)) df'
                (three_branch_angles (ENCODER_POSITION_STEP_SIZE_DEG res)
                                     0%float df')),
     mk_world (mk_statics (current_direction (attrs w0)) None 0%float)
              (stdout w0)).
Proof.
  intros H. unfold detect_change_in_angular_position.
  unfold bind at 1. cbn [set_last_direction].
  unfold bind at 1. cbn [set_current_angle].
  unfold bind at 1.
  match goal with
  | |- context [apply_assign _ _ df' ?w1] =>
      destruct (integrator_on_classified res df' H w1)
        as (w2 & Hrun & Hout & Hdir)
  end.
  rewrite Hrun. cbn in Hout, Hdir |- *. rewrite Hout, Hdir. reflexivity.
Qed.

Lemma classifier_marks_code_changes (df df' : frame) (w w' : world) :
  detect_direction_of_motion df w = (Ok df', w') ->
  Forall (fun r => exists cur prev,
              current_position_bitmask r = Some cur
              /\ previous_position_bitmask r = Some prev
              /\ changed r = negb (String.eqb cur prev)) df'.
Proof.
  unfold detect_direction_of_motion. intros H.
  invert_bind H as u w1 Hset H. invert_bind H as df1 w2 Hmark H.
  apply lift_ok in Hmark. destruct Hmark as [Hmark _].
  apply mark_changes_ok in Hmark. apply apply_assign_ok in H.
  assert (H1 : Forall (fun r => exists cur prev,
                          current_position_bitmask r = Some cur
                          /\ previous_position_bitmask r = Some prev
                          /\ changed r = negb (String.eqb cur prev)) df1).
  { clear - Hmark. induction Hmark as [|r r1 l l1 Hr _ IH]; constructor; auto.
    apply mark_change_ok in Hr. destruct Hr as (cur & prev & Hc & Hp & ->).
    exists cur, prev. unfold changed. cbn. repeat split; auto.
    destruct (String.eqb cur prev); reflexivity. }
  clear - H H1. induction H as [|r r' l l' Hr _ IH]; constructor;
    inversion H1; subst; auto.
  destruct Hr as (d & wa & wb & _ & ->). assumption.
Qed.

(** C10: when the direction classifier completes without raising, a sample
    is marked as changed exactly when its current code differs from its
    previous code, every sample with a code change carries direction CW or
    CCW (and every other sample the empty direction); hence the integrator only ever takes its
    pass, CW and CCW branches, never the two hold branches nor the
    diagnostic one, it leaves the running angle and the whole world as they
    are on a sample with no code change, and the stage as a whole returns
    the angles of the three-branch integration, printing nothing. *)
Theorem hold_branches_unreachable (df df' : frame) (w w' : world) :
  detect_direction_of_motion df w = (Ok df', w') ->
  Forall (fun r =>
            (exists cur prev,
                current_position_bitmask r = Some cur
                /\ previous_position_bitmask r = Some prev
                /\ changed r = negb (String.eqb cur prev))
            /\ (changed r = true ->
                direction r = Some "CW" \/ direction r = Some "CCW")
            /\ (changed r = false -> direction r = Some "")
            /\ (forall last,
                   track_branch r last = Ok Pass
                   \/ track_branch r last = Ok StepCW
                   \/ track_branch r last = Ok StepCCW)
            /\ (changed r = false ->
                forall res w0,
                  track_angular_change res r w0
                  = (Ok (current_angle (attrs w0)), w0))) df'
  /\ forall res w0,
      detect_change_in_angular_position res df' w0
      = (Ok (assign (fun a => set_angle_deg (Some a)) df'
                    (three_branch_angles (ENCODER_POSITION_STEP_SIZE_DEG res)
                                         0%float df')),
         mk_world (mk_statics (current_direction (attrs w0)) None 0%float)
                  (stdout w0)).
Proof.
  intros H. pose proof (classifier_marks_code_changes _ _ _ _ H) as Hmarks.
  apply classifier_output_classified in H.
  split.
  - apply Forall_forall. intros r Hin.
    rewrite Forall_forall in Hmarks, H.
    pose proof (H r Hin) as Hr.
    split; [exact (Hmarks r Hin)|]. repeat split.
    + intros Hc.
      destruct (classified_branch r None Hr)
        as [[Hc' _] | [(_ & Hd & _) | (_ & Hd & _)]]; auto; congruence.
    + intros Hc. destruct Hr as [[_ Hd] | (ch & Hch & Hne & _)]; auto.
      unfold changed in Hc. rewrite Hch in Hc.
      apply Bool.negb_false_iff, Z.eqb_eq in Hc. contradiction.
    + intros last.
      destruct (classified_branch r last Hr)
        as [[_ Hb] | [(_ & _ & Hb) | (_ & _ & Hb)]]; auto.
    + intros Hc res w0.
      destruct (classified_branch r (last_direction (attrs w0)) Hr)
        as [[_ Hb] | [(Hc' & _) | (Hc' & _)]]; try congruence.
      rewrite track_angular_change_eq, Hb. reflexivity.
  - intros res w0. apply integrator_eq. exact H.
Qed.

Lemma hold_branches_unreachable_witness :
  fst (detect_direction_of_motion two_rows world0) = Ok two_rows_classified
  /\ map direction two_rows_classified = [Some "CW"; Some ""]
  /\ fst (detect_change_in_angular_position 4%float two_rows_classified world0)
     = Ok (assign (fun a => set_angle_deg (Some a)) two_rows_classified
                  [90%float; 90%float]).
Proof.
  split; [reflexivity|]. split; [reflexivity|].
  rewrite (proj2 (hold_branches_unreachable two_rows two_rows_classified world0
                    (snd (detect_direction_of_motion two_rows world0)) eq_refl)
             4%float world0).
  reflexivity.
Defined.

(** ** Independence from the function attributes left by an earlier run *)

Lemma rel2_seq {A B} (P Q R : world -> world -> Prop) (c : M A) (k : A -> M B) :
  rel2 P Q c ->
  (forall a, rel2 Q R (k a)) ->
  (forall w w', Q w w' -> R w w') ->
  rel2 P R (bind c k).
Proof.
  intros Hc Hk Hqr w w' HP. unfold bind.
  destruct (Hc w w' HP) as [Hres Hq].
  destruct (c w) as [[a|e] w1], (c w') as [[a'|e'] w1'];
    simpl in Hres, Hq; try discriminate.
  - inversion Hres; subst a'. apply Hk. exact Hq.
  - inversion Hres; subst e'. simpl. auto.
Qed.

Lemma rel2_lift {A} (P : world -> world -> Prop) (c : result A) :
  rel2 P P (lift c).
Proof. intros w w' HP. simpl. auto. Qed.

Lemma rel2_ret {A} (P : world -> world -> Prop) (a : A) :
  rel2 P P (ret a).
Proof. intros w w' HP. simpl. auto. Qed.

Lemma rel2_any {A} (P : world -> world -> Prop) (c : M A) :
  (forall w w', fst (c w) = fst (c w')) -> rel2 P anyw c.
Proof. intros H w w' _. split; [apply H|exact I]. Qed.

Lemma rel2_apply_assign {A} (P : world -> world -> Prop)
  (f : row -> M A) (set : A -> row -> row) (df : frame) :
  (forall r, rel2 P P (f r)) -> rel2 P P (apply_assign f set df).
Proof.
  intros Hf. induction df as [|r rest IH].
  - apply rel2_ret.
  - simpl. apply rel2_seq with (Q := P); auto.
    intros v. apply rel2_seq with (Q := P); auto.
    intros rest'. apply rel2_ret.
Qed.

Lemma check_direction_blind (r : row) (w w' : world) :
  fst (check_direction r w) = fst (check_direction r w').
Proof.
  unfold check_direction, bind, lift, col, list_index.
  destruct (current_position_bitmask r) as [cur|]; [|reflexivity].
  destruct (previous_position_bitmask r) as [prev|]; [|reflexivity].
  destruct (Py.index cur bitmask_cw_pattern) as [ci|]; [|reflexivity].
  destruct (Py.index prev bitmask_cw_pattern) as [pi|]; [|reflexivity].
  destruct (change_occurred r) as [ch|]; [|reflexivity].
  destruct (ch =? 0); [reflexivity|].
  destruct (negb (Py.mem cur bitmask_cw_pattern)); [reflexivity|].
  cbv zeta.
  destruct (String.eqb cur _); [reflexivity|].
  destruct (String.eqb cur _); [reflexivity|].
  destruct (timestamp_normalized_s r); reflexivity.
Qed.

Lemma classifier_blind (df : frame) :
  rel2 anyw anyw (detect_direction_of_motion df).
Proof.
  unfold detect_direction_of_motion.
  apply rel2_seq with (Q := anyw); auto.
  - apply rel2_any. reflexivity.
  - intros _. apply rel2_seq with (Q := anyw); auto.
    + apply rel2_lift.
    + intros df1. apply rel2_apply_assign.
      intros r. apply rel2_any. apply check_direction_blind.
Qed.

Lemma track_angular_change_rel (res : float) (r : row) :
  rel2 same_integrator_state same_integrator_state (track_angular_change res r).
Proof.
  intros w w' [Hl Ha]. rewrite !track_angular_change_eq, <- Hl.
  destruct (track_branch r (last_direction (attrs w))) as [b|e].
  - unfold same_integrator_state.
    destruct b; cbn; rewrite <- ?Ha, <- ?Hl; auto.
  - simpl. unfold same_integrator_state. auto.
Qed.

Lemma integrator_blind (res : float) (df : frame) :
  rel2 anyw anyw (detect_change_in_angular_position res df).
Proof.
  unfold detect_change_in_angular_position.
  apply rel2_seq
    with (Q := fun w w' => last_direction (attrs w) = last_direction (attrs w')).
  - intros w w' _. simpl. auto.
  - intros _. apply rel2_seq with (Q := same_integrator_state).
    + intros w w' H. simpl. unfold same_integrator_state. simpl. auto.
    + intros _. apply rel2_seq with (Q := same_integrator_state).
      * apply rel2_apply_assign. apply track_angular_change_rel.
      * intros df'. apply rel2_any. reflexivity.
      * intros; exact I.
    + intros; exact I.
  - intros; exact I.
Qed.

Lemma detector_blind (df : frame) (period_s : float) :
  rel2 anyw anyw (detect_initial_stable_angular_position df period_s).
Proof.
  apply rel2_any. intros w w'.
  unfold detect_initial_stable_angular_position, bind, lift.
  destruct (at0 "chan_a" _ df) as [a0|]; [|reflexivity].
  destruct (at0 "chan_b" _ df) as [b0|]; [|reflexivity].
  cbv zeta.
  destruct (column "matches_initial_position" _ _) as [ms|]; [|reflexivity].
  destruct (idxmax _) as [idx|]; reflexivity.
Qed.

Lemma process_dataset_blind (res period_s : float) (capture : list (float * Z * Z)) :
  rel2 anyw anyw (process_dataset res period_s capture).
Proof.
  unfold process_dataset. cbv zeta.
  apply rel2_seq with (Q := anyw); auto using detector_blind.
  intros df1. apply rel2_seq with (Q := anyw); auto using rel2_lift.
  intros df2. apply rel2_seq with (Q := anyw); auto using rel2_lift.
  intros df3. apply rel2_seq with (Q := anyw); auto using classifier_blind.
  intros df4. apply rel2_seq with (Q := anyw); auto using integrator_blind.
  intros df5. apply rel2_seq with (Q := anyw); auto using rel2_lift.
  intros df6. apply rel2_seq with (Q := anyw); auto using rel2_lift.
  intros df7. apply rel2_ret.
Qed.

(** C5: the output of a pipeline run (the frame, or the error it raises)
    does not depend on the function attributes [current_direction],
    [last_direction] and [current_angle] (nor on anything else in the world)
    it starts from; in particular a second run on the same capture, started
    in the world the first run left behind, gives the identical output. *)
Theorem rerun_gives_identical_output
  (res period_s : float) (capture : list (float * Z * Z)) :
  (forall w w',
      fst (process_dataset res period_s capture w)
      = fst (process_dataset res period_s capture w'))
  /\ (forall w,
         fst (process_dataset res period_s capture
                (snd (process_dataset res period_s capture w)))
         = fst (process_dataset res period_s capture w)).
Proof.
  assert (H : forall w w',
             fst (process_dataset res period_s capture w)
             = fst (process_dataset res period_s capture w')).
  { intros w w'. apply (process_dataset_blind res period_s capture w w' I). }
  split; [exact H|]. intros w. apply H.
Qed.

(** ** Columns, shifts and assignments *)

Lemma nth_error_removelast {A} (l : list A) (j : nat) :
  nth_error (removelast l) j
  = match nth_error l (S j) with
    | Some _ => nth_error l j
    | None => None
    end.
Proof.
  revert j. induction l as [|x l IH]; intros j.
  - destruct j; reflexivity.
  - destruct l as [|y l].
    + destruct j; reflexivity.
    + change (removelast (x :: y :: l)) with (x :: removelast (y :: l)).
      destruct j as [|k]; [reflexivity|].
      cbn [nth_error]. rewrite IH. reflexivity.
Qed.

Lemma nth_error_shift {A} (fill : A) (l : list A) (i : nat) :
  nth_error (shift fill l) i
  = match nth_error l i with
    | Some _ => match i with
                | O => Some fill
                | S j => nth_error l j
                end
    | None => None
    end.
Proof.
  destruct l as [|x l]; [destruct i; reflexivity|].
  unfold shift. destruct i as [|j]; [reflexivity|].
  cbn [nth_error]. rewrite nth_error_removelast. reflexivity.
Qed.

Lemma length_removelast_cons {A} (x : A) (l : list A) :
  List.length (removelast (x :: l)) = List.length l.
Proof.
  revert x. induction l as [|y l IH]; intros x; [reflexivity|].
  change (removelast (x :: y :: l)) with (x :: removelast (y :: l)).
  cbn [List.length]. f_equal. apply IH.
Qed.

Lemma length_shift {A} (fill : A) (l : list A) :
  List.length (shift fill l) = List.length l.
Proof.
  destruct l as [|x l]; [reflexivity|].
  unfold shift. cbn [List.length]. f_equal. apply length_removelast_cons.
Qed.

Lemma nth_error_combine {A B} (l1 : list A) (l2 : list B) (i : nat) :
  nth_error (combine l1 l2) i
  = match nth_error l1 i, nth_error l2 i with
    | Some a, Some b => Some (a, b)
    | _, _ => None
    end.
Proof.
  revert l2 i. induction l1 as [|a l1 IH]; intros l2 i.
  - destruct i; reflexivity.
  - destruct l2 as [|b l2].
    + destruct i; cbn; [reflexivity|]. destruct (nth_error l1 i); reflexivity.
    + destruct i; cbn; [reflexivity|]. apply IH.
Qed.

Lemma nth_error_assign {A} (set : A -> row -> row) (df : frame) (vs : list A)
  (i : nat) :
  nth_error (assign set df vs) i
  = match nth_error df i, nth_error vs i with
    | Some r, Some v => Some (set v r)
    | _, _ => None
    end.
Proof.
  revert vs i. induction df as [|r df IH]; intros vs i.
  - destruct i; reflexivity.
  - destruct vs as [|v vs].
    + destruct i; cbn; [reflexivity|]. destruct (nth_error df i); reflexivity.
    + destruct i; cbn; [reflexivity|]. apply IH.
Qed.

Lemma length_assign {A} (set : A -> row -> row) (df : frame) (vs : list A) :
  List.length vs = List.length df ->
  List.length (assign set df vs) = List.length df.
Proof.
  revert vs. induction df as [|r df IH]; intros [|v vs] H; cbn in *;
    try reflexivity; try discriminate.
  f_equal. apply IH. congruence.
Qed.

Lemma at0_head {A} name (f : row -> option A) (r0 : row) (rest : frame) :
  label r0 = 0 -> at0 name f (r0 :: rest) = col name f r0.
Proof.
  intros H. unfold at0. cbn [find]. rewrite H. reflexivity.
Qed.

Lemma column_ok {A} name (f : row -> option A) (df : frame) (vs : list A) :
  column name f df = Ok vs -> map f df = map Some vs.
Proof.
  revert vs. induction df as [|r df IH]; simpl; intros vs H.
  - inversion H. reflexivity.
  - invert_rbind H as v Hv H. invert_rbind H as vs' Hvs H.
    inversion H; subst. apply col_ok in Hv. cbn. rewrite Hv.
    f_equal. auto.
Qed.

Lemma column_some {A} name (f : row -> option A) (df : frame) (vs : list A) :
  map f df = map Some vs -> column name f df = Ok vs.
Proof.
  revert vs. induction df as [|r df IH]; intros [|v vs] H; cbn in H;
    try discriminate; [reflexivity|].
  inversion H as [[Hv Hvs]]. simpl. unfold col. rewrite Hv. simpl.
  rewrite (IH _ Hvs). reflexivity.
Qed.

(** ** The bitmask generator *)

Lemma code_of_bits (r : row) :
  is_bit (chan_a r) -> is_bit (chan_b r) ->
  code_of r = encode (chan_a r) (chan_b r).
Proof.
  unfold code_of. intros [-> | ->] [-> | ->]; reflexivity.
Qed.

Lemma generate_eq (r0 : row) (rest : frame) :
  label r0 = 0 ->
  generate_encoder_position_bitmask (r0 :: rest) = Ok (with_codes r0 rest).
Proof.
  intros H0. unfold generate_encoder_position_bitmask, with_codes.
  cbv zeta. cbn [map]. rewrite !at0_head by exact H0.
  unfold col. cbn [chan_a chan_b set_current_position_bitmask rbind].
  rewrite !map_map. reflexivity.
Qed.

Lemma with_codes_nth (r0 : row) (rest : frame) (i : nat) (r' : row) :
  nth_error (with_codes r0 rest) i = Some r' ->
  exists r sa sb,
    nth_error (r0 :: rest) i = Some r
    /\ r' = set_previous_position_bitmask
              (Some (bitmask_of (Z.lor (Z.shiftl sa 1) sb)))
              (set_current_position_bitmask (Some (code_of r)) r)
    /\ match i with
       | O => sa = chan_a r0 /\ sb = chan_b r0
       | S j => exists p, nth_error (r0 :: rest) j = Some p
                          /\ sa = chan_a p /\ sb = chan_b p
       end.
Proof.
  unfold with_codes. intros H.
  rewrite nth_error_assign, nth_error_combine, !nth_error_shift in H.
  rewrite (nth_error_map chan_a), (nth_error_map chan_b) in H.
  rewrite nth_error_map in H.
  destruct (nth_error (r0 :: rest) i) as [r|] eqn:Hr; [|discriminate H].
  cbn [option_map] in H.
  destruct i as [|j].
  - inversion H; subst r'. exists r, (chan_a r0), (chan_b r0). auto.
  - rewrite (nth_error_map chan_a), (nth_error_map chan_b) in H.
    destruct (nth_error (r0 :: rest) j) as [p|] eqn:Hp;
      cbn [option_map] in H; [|discriminate H].
    inversion H; subst r'.
    exists r, (chan_a p), (chan_b p). eauto 8.
Qed.

(** C6: on a frame indexed from 0, the generator sets every sample's
    current code to the zero-padded binary text of (a << 1) | b, which for
    channel bits is "00", "01", "10", "11" for (0,0), (0,1), (1,0), (1,1);
    and, the channels being bits, the first sample's previous code is its
    own current code and every later sample's previous code is the current
    code of the sample before it.  No other column is touched. *)
Theorem bitmask_generator_codes (r0 : row) (rest : frame) :
  label r0 = 0 ->
  exists df',
    generate_encoder_position_bitmask (r0 :: rest) = Ok df'
    /\ List.length df' = List.length (r0 :: rest)
    /\ (forall i r', nth_error df' i = Some r' ->
        exists r, nth_error (r0 :: rest) i = Some r
          /\ current_position_bitmask r' = Some (code_of r)
          /\ (is_bit (chan_a r) -> is_bit (chan_b r) ->
              current_position_bitmask r' = Some (encode (chan_a r) (chan_b r)))
          /\ set_previous_position_bitmask None
               (set_current_position_bitmask None r')
             = set_previous_position_bitmask None
               (set_current_position_bitmask None r))
    /\ (bits_only (r0 :: rest) ->
        (forall r', nth_error df' 0 = Some r' ->
                    previous_position_bitmask r' = current_position_bitmask r')
        /\ (forall i p r',
               nth_error df' i = Some p -> nth_error df' (S i) = Some r' ->
               previous_position_bitmask r' = current_position_bitmask p))
    /\ (encode 0 0 = "00" /\ encode 0 1 = "01"
        /\ encode 1 0 = "10" /\ encode 1 1 = "11").
Proof.
  intros H0. exists (with_codes r0 rest).
  split; [apply generate_eq; exact H0|].
  split.
  { unfold with_codes. rewrite length_assign; rewrite ?length_map; auto.
    rewrite length_combine, !length_shift, !length_map.
    apply Nat.min_id. }
  split.
  { intros i r' Hr'. apply with_codes_nth in Hr'.
    destruct Hr' as (r & sa & sb & Hr & -> & _).
    exists r. split; [exact Hr|]. split; [reflexivity|].
    split; [|reflexivity].
    intros Ha Hb.
    cbn [previous_position_bitmask current_position_bitmask
         set_previous_position_bitmask set_current_position_bitmask].
    f_equal. apply code_of_bits; assumption. }
  split; [|repeat split; reflexivity].
  intros Hbits. split.
  - intros r' Hr'. apply with_codes_nth in Hr'.
    destruct Hr' as (r & sa & sb & Hr & -> & Hprev). cbn in Hprev.
    destruct Hprev as [Hsa Hsb]. subst sa sb.
    cbn in Hr. inversion Hr; subst r.
    cbn [previous_position_bitmask current_position_bitmask
         set_previous_position_bitmask set_current_position_bitmask].
    reflexivity.
  - intros i p' r' Hp' Hr'.
    apply with_codes_nth in Hr'. apply with_codes_nth in Hp'.
    destruct Hr' as (r & sa & sb & Hr & -> & Hprev). cbn in Hprev.
    destruct Hprev as (p & Hp & Hsa & Hsb). subst sa sb.
    destruct Hp' as (p0 & sa' & sb' & Hp0 & -> & _).
    rewrite Hp in Hp0. inversion Hp0; subst p0.
    cbn [previous_position_bitmask current_position_bitmask
         set_previous_position_bitmask set_current_position_bitmask].
    reflexivity.
Qed.

Lemma bitmask_generator_codes_witness :
  exists df',
    generate_encoder_position_bitmask (read_csv scenario) = Ok df'
    /\ map current_position_bitmask df'
       = [Some "00"; Some "00"; Some "01"; Some "11"; Some "10"; Some "00"]
    /\ map previous_position_bitmask df'
       = [Some "00"; Some "00"; Some "00"; Some "01"; Some "11"; Some "10"].
Proof.
  destruct (bitmask_generator_codes
              (raw_row 0 (0%float, 0, 0)) (load_from 1 (tl scenario)) eq_refl)
    as (df' & Hgen & _).
  exists df'. split; [exact Hgen|].
  vm_compute in Hgen. inversion Hgen. split; reflexivity.
Defined.

(** ** Binary64 facts *)

Lemma finite_cases (x : float) :
  isfinite x = true ->
  (exists s, Prim2SF x = S754_zero s) \/ (exists s m e, Prim2SF x = S754_finite s m e).
Proof.
  unfold isfinite, is_finite, is_nan, is_infinity. intros H.
  apply Bool.negb_true_iff, Bool.orb_false_iff in H. destruct H as [Hnan Hinf].
  apply Bool.negb_false_iff in Hnan.
  rewrite eqb_spec in Hnan, Hinf. rewrite abs_spec in Hinf.
  destruct (Prim2SF x) as [s|s| |s m e]; eauto.
  - cbn in Hinf. discriminate.
  - cbn in Hnan. discriminate.
Qed.

Lemma float_sub_diag (x : float) : isfinite x = true -> (x - x)%float = 0%float.
Proof.
  intros H. apply Prim2SF_inj. rewrite sub_spec.
  change (Prim2SF 0%float) with (S754_zero false).
  destruct (finite_cases x H) as [[s ->] | (s & m & e & ->)].
  - destruct s; reflexivity.
  - unfold SF64sub, SFsub. rewrite Z.sub_diag. reflexivity.
Qed.

(** ** The velocity estimator *)

Lemma column_total {A} name (f : row -> option A) (df : frame) :
  Forall (fun r => f r <> None) df -> exists vs, column name f df = Ok vs.
Proof.
  induction 1 as [|r df Hr _ [vs IH]]; simpl.
  - eauto.
  - unfold col. destruct (f r) as [v|]; [|congruence].
    simpl. rewrite IH. simpl. eauto.
Qed.

Lemma nth_error_column {A} (f : row -> option A) (df : frame) (vs : list A)
  (i : nat) (r : row) :
  map f df = map Some vs -> nth_error df i = Some r ->
  exists v, f r = Some v /\ nth_error vs i = Some v.
Proof.
  intros Hmap Hr.
  assert (H : nth_error (map f df) i = nth_error (map Some vs) i) by now rewrite Hmap.
  rewrite !nth_error_map, Hr in H. cbn in H.
  destruct (nth_error vs i) as [v|]; cbn in H; [|discriminate].
  exists v. split; [now inversion H|reflexivity].
Qed.


Lemma velocity_eq (r0 : row) (rest : frame) (angles timestamps : list float)
  (a0 t0 : float) :
  label r0 = 0 ->
  angle_deg r0 = Some a0 ->
  timestamp_normalized_s r0 = Some t0 ->
  map angle_deg (r0 :: rest) = map Some angles ->
  map timestamp_normalized_s (r0 :: rest) = map Some timestamps ->
  detect_angular_velocity (r0 :: rest)
  = Ok (assign (fun '(a, pa, (t, pt)) =>
                  set_velocity_deg_per_s (Some (track_angular_velocity a pa t pt)))
               (r0 :: rest)
               (combine (combine angles (shift a0 angles))
                        (combine timestamps (shift t0 timestamps)))).
Proof.
  intros H0 Ha Ht Has Hts. unfold detect_angular_velocity.
  rewrite !at0_head by exact H0.
  rewrite (col_some _ _ _ _ Ha), (col_some _ _ _ _ Ht).
  rewrite (column_some _ _ _ _ Has), (column_some _ _ _ _ Hts).
  reflexivity.
Qed.


(** ** The stable-origin detector *)

Lemma length_shifted_differs (s : list Z) :
  List.length (shifted_differs s) = List.length s.
Proof.
  destruct s as [|x s]; [reflexivity|].
  unfold shifted_differs. cbn [List.length tl]. f_equal.
  rewrite length_map, length_combine, length_removelast_cons.
  apply Nat.min_id.
Qed.

Lemma scratch_column_dropped (df : frame) (vs : list Z) :
  List.length vs = List.length df ->
  Forall (fun r => change_occurred r = None) df ->
  map (set_change_occurred None)
      (set_at0_change_occurred 0 (assign (fun v => set_change_occurred (Some v)) df vs))
  = df.
Proof.
  intros Hlen Hnone. revert vs Hlen.
  induction Hnone as [|r df Hr _ IH]; intros [|v vs] Hlen;
    cbn in Hlen; try discriminate; [reflexivity|].
  cbn [assign set_at0_change_occurred map]. f_equal.
  - destruct r; cbn in Hr; subst.
    cbn. destruct (_ =? 0); reflexivity.
  - apply IH. congruence.
Qed.

Lemma scratch_column_labels (df : frame) (vs : list Z) :
  List.length vs = List.length df ->
  map label
      (set_at0_change_occurred 0 (assign (fun v => set_change_occurred (Some v)) df vs))
  = map label df.
Proof.
  revert vs. induction df as [|r df IH]; intros [|v vs] Hlen;
    cbn in Hlen; try discriminate; [reflexivity|].
  cbn [assign set_at0_change_occurred map]. f_equal.
  - cbn. destruct (label r =? 0); reflexivity.
  - apply IH. congruence.
Qed.

Lemma load_from_unannotated (i : Z) (samples : list (float * Z * Z)) :
  Forall (fun r => change_occurred r = None /\ matches_initial_position r = None)
         (load_from i samples).
Proof.
  revert i. induction samples as [|[[t a] b] rest IH]; intros i; constructor; auto.
Qed.

Lemma find_first_differing (a0 b0 : Z) (samples : list (float * Z * Z)) (i : Z) :
  find snd
       (combine (map label (load_from i samples))
                (map (fun m => m <? 1)
                     (map (matches_entry a0 b0) (load_from i samples))))
  = option_map (fun k => (k, true)) (first_differing a0 b0 i samples).
Proof.
  revert i. induction samples as [|[[t a] b] rest IH]; intros i; [reflexivity|].
  assert (Hm : matches_entry a0 b0 (raw_row i (t, a, b))
               = if ((a =? a0) && (b =? b0))%bool then 1 else 0) by reflexivity.
  cbn [load_from map combine find first_differing]. rewrite Hm.
  destruct ((a =? a0) && (b =? b0))%bool; cbn [snd Z.ltb Z.compare];
    [apply IH|reflexivity].
Qed.

Lemma detector_eq (period_s t0 : float) (a0 b0 : Z)
  (rest : list (float * Z * Z)) (w : world) :
  let capture := (t0, a0, b0) :: rest in
  let idx := match origin_change_index capture with
             | Some i => i
             | None => 0
             end in
  detect_initial_stable_angular_position (read_csv capture) period_s w
  = (Ok (map (fun r => set_matches_initial_position
                         (Some (matches_entry a0 b0 r)) r)
             (read_csv capture)),
     mk_world (attrs w)
              (stdout w ++ [InitialPositions a0 b0;
                            FirstChange idx (Py.float_of_int idx * period_s)%float])).
Proof.
  intros capture idx.
  unfold detect_initial_stable_angular_position.
  set (df := read_csv capture).
  assert (Ha : at0 "chan_a" (fun r => Some (chan_a r)) df = Ok a0) by reflexivity.
  assert (Hb : at0 "chan_b" (fun r => Some (chan_b r)) df = Ok b0) by reflexivity.
  rewrite Ha, bind_lift_ok, Hb, bind_lift_ok. cbv zeta.
  set (df1 := map (fun r => set_matches_initial_position
                              (Some (matches_entry a0 b0 r)) r) df).
  assert (Hcol : column "matches_initial_position" matches_initial_position df1
                 = Ok (map (matches_entry a0 b0) df)).
  { apply column_some. unfold df1. rewrite !map_map. reflexivity. }
  rewrite Hcol, bind_lift_ok.
  assert (Hlen : List.length (shifted_differs (map (matches_entry a0 b0) df))
                 = List.length df1).
  { rewrite length_shifted_differs. unfold df1. rewrite !length_map. reflexivity. }
  rewrite (scratch_column_labels df1 _ Hlen).
  rewrite scratch_column_dropped; [|exact Hlen|].
  2: { unfold df1. apply Forall_map.
       eapply Forall_impl; [|apply (load_from_unannotated 0 capture)].
       intros r [Hr _]. exact Hr. }
  assert (Hidx : idxmax (combine (map label df1)
                                 (map (fun m => m <? 1)
                                      (map (matches_entry a0 b0) df)))
                 = Ok idx).
  { unfold idxmax, df1. rewrite map_map. cbn [label set_matches_initial_position].
    change (map (fun x => label x) df) with (map label df).
    unfold df, read_csv. rewrite find_first_differing.
    unfold idx, origin_change_index, capture.
    destruct (first_differing a0 b0 0 ((t0, a0, b0) :: rest)); reflexivity. }
  rewrite Hidx, bind_lift_ok.
  unfold bind, print, ret. cbn. rewrite <- app_assoc. reflexivity.
Qed.

(** ** No later stage reads [matches_initial_position] *)

Section Unread.

Variable v : option Z.

Local Abbreviation g := (set_matches_initial_position v).

Lemma map_swap {A} (f f' : A -> A) (h : A -> A) (l : list A) :
  (forall x, f (h x) = h (f' x)) -> map f (map h l) = map h (map f' l).
Proof.
  intros H. rewrite !map_map. apply map_ext. exact H.
Qed.

Lemma map_unread {A} (f : row -> A) (df : frame) :
  (forall r, f (g r) = f r) -> map f (map g df) = map f df.
Proof.
  intros H. rewrite map_map. apply map_ext. exact H.
Qed.

Lemma at0_unread {A} name (f : row -> option A) (df : frame) :
  (forall r, f (g r) = f r) -> at0 name f (map g df) = at0 name f df.
Proof.
  intros Hf. unfold at0.
  induction df as [|r df IH]; [reflexivity|].
  cbn [map find label set_matches_initial_position].
  destruct (label r =? 0); [|exact IH].
  unfold col. rewrite Hf. reflexivity.
Qed.

Lemma column_unread {A} name (f : row -> option A) (df : frame) :
  (forall r, f (g r) = f r) -> column name f (map g df) = column name f df.
Proof.
  intros Hf. induction df as [|r df IH]; [reflexivity|].
  cbn [map column]. unfold col. rewrite Hf, IH. reflexivity.
Qed.

Lemma assign_unread {A} (set : A -> row -> row) (df : frame) (vs : list A) :
  (forall x r, set x (g r) = g (set x r)) ->
  assign set (map g df) vs = map g (assign set df vs).
Proof.
  intros Hs. revert vs. induction df as [|r df IH]; intros [|x vs];
    try reflexivity.
  cbn [map assign]. rewrite Hs, IH. reflexivity.
Qed.

Lemma apply_assign_unread {A} (f : row -> M A) (set : A -> row -> row)
  (df : frame) (w : world) :
  (forall r w, f (g r) w = f r w) ->
  (forall x r, set x (g r) = g (set x r)) ->
  apply_assign f set (map g df) w
  = (rmap (map g) (fst (apply_assign f set df w)),
     snd (apply_assign f set df w)).
Proof.
  intros Hf Hs. revert w. induction df as [|r df IH]; intros w; [reflexivity|].
  cbn [map]. rewrite !apply_assign_cons, Hf.
  destruct (f r w) as [[x|e] w1]; [|reflexivity].
  rewrite IH.
  destruct (apply_assign f set df w1) as [[rest'|e] w2]; [|reflexivity].
  cbn. rewrite Hs. reflexivity.
Qed.

Lemma normalize_unread (df : frame) (period_s : float) :
  normalize_timestamps (map g df) period_s
  = rmap (map g) (normalize_timestamps df period_s).
Proof.
  unfold normalize_timestamps. rewrite at0_unread by reflexivity.
  destruct (at0 _ _ df) as [t0|e]; [|reflexivity].
  cbn [rbind rmap]. f_equal. apply map_swap. reflexivity.
Qed.

Lemma generate_unread (df : frame) :
  generate_encoder_position_bitmask (map g df)
  = rmap (map g) (generate_encoder_position_bitmask df).
Proof.
  unfold generate_encoder_position_bitmask. cbv zeta.
  rewrite (map_swap _ (fun r => set_current_position_bitmask
                                  (Some (bitmask_of (Z.lor (Z.shiftl (chan_a r) 1)
                                                           (chan_b r)))) r))
    by reflexivity.
  rewrite !at0_unread by reflexivity.
  destruct (at0 "chan_a" _ _) as [a0|e]; [|reflexivity].
  destruct (at0 "chan_b" _ _) as [b0|e]; [|reflexivity].
  cbn [rbind rmap]. f_equal.
  rewrite assign_unread by (intros [sa sb] r; reflexivity).
  rewrite (map_unread chan_a), (map_unread chan_b) by reflexivity.
  reflexivity.
Qed.

Lemma mark_change_unread (r : row) :
  mark_change (g r) = rmap g (mark_change r).
Proof.
  unfold mark_change, col.
  cbn [current_position_bitmask previous_position_bitmask
       set_matches_initial_position].
  destruct (current_position_bitmask r); [|reflexivity].
  destruct (previous_position_bitmask r); reflexivity.
Qed.

Lemma mark_changes_unread (df : frame) :
  mark_changes (map g df) = rmap (map g) (mark_changes df).
Proof.
  induction df as [|r df IH]; [reflexivity|].
  cbn [map mark_changes]. rewrite IH.
  rewrite mark_change_unread.
  destruct (mark_change r) as [r'|e]; [|reflexivity].
  cbn [rmap rbind]. destruct (mark_changes df); reflexivity.
Qed.

Lemma bind_commutes {A B} (fa : A -> A) (fb : B -> B)
  (c c' : M A) (k k' : A -> M B) (w : world) :
  c' w = (rmap fa (fst (c w)), snd (c w)) ->
  (forall a w1, k' (fa a) w1 = (rmap fb (fst (k a w1)), snd (k a w1))) ->
  bind c' k' w = (rmap fb (fst (bind c k w)), snd (bind c k w)).
Proof.
  intros Hc Hk. unfold bind. rewrite Hc.
  destruct (c w) as [[a|e] w1]; cbn [fst snd rmap]; [apply Hk|reflexivity].
Qed.

Lemma lift_commutes {A} (fa : A -> A) (c c' : result A) (w : world) :
  c' = rmap fa c ->
  lift c' w = (rmap fa (fst (lift c w)), snd (lift c w)).
Proof. intros ->. reflexivity. Qed.

Lemma check_direction_unread (r : row) (w : world) :
  check_direction (g r) w = check_direction r w.
Proof. reflexivity. Qed.

Lemma classifier_unread (df : frame) (w : world) :
  detect_direction_of_motion (map g df) w
  = (rmap (map g) (fst (detect_direction_of_motion df w)),
     snd (detect_direction_of_motion df w)).
Proof.
  unfold detect_direction_of_motion.
  apply bind_commutes with (fa := fun u : unit => u).
  { reflexivity. }
  intros _ w1. apply bind_commutes with (fa := map g).
  { apply lift_commutes. apply mark_changes_unread. }
  intros df1 w2. apply apply_assign_unread.
  - apply check_direction_unread.
  - reflexivity.
Qed.

Lemma integrator_unread (res : float) (df : frame) (w : world) :
  detect_change_in_angular_position res (map g df) w
  = (rmap (map g) (fst (detect_change_in_angular_position res df w)),
     snd (detect_change_in_angular_position res df w)).
Proof.
  unfold detect_change_in_angular_position.
  apply bind_commutes with (fa := fun u : unit => u); [reflexivity|].
  intros _ w1.
  apply bind_commutes with (fa := fun u : unit => u); [reflexivity|].
  intros _ w2.
  apply bind_commutes with (fa := map g).
  { apply apply_assign_unread; reflexivity. }
  intros df' w3. reflexivity.
Qed.

Lemma trim_unread (df : frame) :
  trim_redundant_data_points (map g df)
  = rmap (map g) (trim_redundant_data_points df).
Proof.
  induction df as [|r df IH]; [reflexivity|].
  cbn [map trim_redundant_data_points]. rewrite IH. unfold attr.
  cbn [change_occurred set_matches_initial_position].
  destruct (change_occurred r) as [c|]; [|reflexivity].
  cbn [rbind]. destruct (trim_redundant_data_points df) as [rest'|e];
    [|reflexivity].
  cbn [rbind rmap]. destruct (c =? 0); reflexivity.
Qed.

Lemma velocity_unread (df : frame) :
  detect_angular_velocity (map g df) = rmap (map g) (detect_angular_velocity df).
Proof.
  unfold detect_angular_velocity.
  rewrite !at0_unread, !column_unread by reflexivity.
  destruct (at0 "angle_deg" _ _) as [a0|e]; [|reflexivity].
  cbn [rbind]. destruct (column "angle_deg" _ _) as [angles|e]; [|reflexivity].
  cbn [rbind]. destruct (at0 "timestamp_normalized_s" _ _) as [t0|e]; [|reflexivity].
  cbn [rbind].
  destruct (column "timestamp_normalized_s" _ _) as [timestamps|e]; [|reflexivity].
  cbn [rbind rmap]. f_equal. apply assign_unread.
  intros [[a pa] [t pt]] r. reflexivity.
Qed.

Lemma decode_unread (res period_s : float) (df : frame) (w : world) :
  decode res period_s (map g df) w
  = (rmap (map g) (fst (decode res period_s df w)),
     snd (decode res period_s df w)).
Proof.
  unfold decode.
  apply bind_commutes with (fa := map g).
  { apply lift_commutes, normalize_unread. }
  intros df1 w1. apply bind_commutes with (fa := map g).
  { apply lift_commutes, generate_unread. }
  intros df2 w2. apply bind_commutes with (fa := map g).
  { apply classifier_unread. }
  intros df3 w3. apply bind_commutes with (fa := map g).
  { apply integrator_unread. }
  intros df4 w4. apply bind_commutes with (fa := map g).
  { apply lift_commutes, trim_unread. }
  intros df5 w5. apply bind_commutes with (fa := map g).
  { apply lift_commutes, velocity_unread. }
  intros df6 w6. reflexivity.
Qed.

End Unread.

Lemma decode_blind (res period_s : float) (df : frame) :
  rel2 anyw anyw (decode res period_s df).
Proof.
  unfold decode.
  apply rel2_seq with (Q := anyw); auto using rel2_lift.
  intros df2. apply rel2_seq with (Q := anyw); auto using rel2_lift.
  intros df3. apply rel2_seq with (Q := anyw); auto using classifier_blind.
  intros df4. apply rel2_seq with (Q := anyw); auto using integrator_blind.
  intros df5. apply rel2_seq with (Q := anyw); auto using rel2_lift.
  intros df6. apply rel2_seq with (Q := anyw); auto using rel2_lift.
  intros df7. apply rel2_ret.
Qed.

Lemma forget_fresh_column (f : row -> option Z) (df : frame) :
  Forall (fun r => matches_initial_position r = None) df ->
  forget_matches (map (fun r => set_matches_initial_position (f r) r) df) = df.
Proof.
  unfold forget_matches. rewrite map_map.
  induction 1 as [|r df Hr _ IH]; [reflexivity|].
  cbn [map]. rewrite IH. f_equal.
  destruct r; cbn in Hr; subst. reflexivity.
Qed.

(** C9 (counterexample): on a capture in which no sample differs from the
    first, the detector prints "first change in position occurred at 0",
    not a no-motion result. *)
Lemma stationary_capture_reports_index_0 :
  origin_change_index stationary = None
  /\ reported_index
       (stdout (snd (detect_initial_stable_angular_position
                       (read_csv stationary) 1%float world0)))
     = Some 0
  /\ reported_index
       (stdout (snd (detect_initial_stable_angular_position
                       (read_csv stationary) 1%float world0)))
     <> origin_change_index stationary.
Proof.
  split; [reflexivity|]. split; [reflexivity|]. discriminate.
Qed.

(** C9 (amended): on a non-empty capture the detector prints the first
    index at which the channel reading differs from the initial reading,
    and index 0 when no sample differs; it leaves the function attributes
    and every column of the frame as they were, adding only the column
    [matches_initial_position], and the later stages never read that column:
    run without the detector they produce the same frame, that column
    apart. *)
Theorem detector_is_read_only
  (res period_s t0 : float) (a0 b0 : Z) (rest : list (float * Z * Z)) (w : world) :
  exists df' idx,
    detect_initial_stable_angular_position
      (read_csv ((t0, a0, b0) :: rest)) period_s w
    = (Ok df',
       mk_world (attrs w)
                (stdout w ++ [InitialPositions a0 b0;
                              FirstChange idx (Py.float_of_int idx * period_s)%float]))
    /\ idx = match origin_change_index ((t0, a0, b0) :: rest) with
             | Some i => i
             | None => 0
             end
    /\ forget_matches df' = read_csv ((t0, a0, b0) :: rest)
    /\ rmap forget_matches
            (fst (process_dataset res period_s ((t0, a0, b0) :: rest) w))
       = fst (decode res period_s (read_csv ((t0, a0, b0) :: rest)) w).
Proof.
  pose proof (detector_eq period_s t0 a0 b0 rest w) as Hdet. cbv zeta in Hdet.
  eexists. eexists. split; [exact Hdet|]. split; [reflexivity|].
  assert (Hforget :
            forget_matches
              (map (fun r => set_matches_initial_position
                               (Some (matches_entry a0 b0 r)) r)
                   (read_csv ((t0, a0, b0) :: rest)))
            = read_csv ((t0, a0, b0) :: rest)).
  { apply (forget_fresh_column (fun r => Some (matches_entry a0 b0 r))).
    eapply Forall_impl; [|apply load_from_unannotated].
    intros r [_ Hr]. exact Hr. }
  split; [exact Hforget|].
  set (df' := map (fun r => set_matches_initial_position
                             (Some (matches_entry a0 b0 r)) r)
                  (read_csv ((t0, a0, b0) :: rest))) in *.
  match type of Hdet with
  | _ = (_, ?w1') => set (w1 := w1') in *
  end.
  assert (Hpd : process_dataset res period_s ((t0, a0, b0) :: rest) w
                = decode res period_s df' w1).
  { change (process_dataset res period_s ((t0, a0, b0) :: rest))
      with (bind (detect_initial_stable_angular_position
                    (read_csv ((t0, a0, b0) :: rest)) period_s)
                 (decode res period_s)).
    unfold bind at 1. rewrite Hdet. reflexivity. }
  rewrite Hpd.
  pose proof (decode_unread None res period_s df' w1) as Hun.
  change (map (set_matches_initial_position None) df')
    with (forget_matches df') in Hun.
  rewrite Hforget in Hun.
  transitivity (fst (decode res period_s (read_csv ((t0, a0, b0) :: rest)) w1)).
  - rewrite Hun. reflexivity.
  - apply (decode_blind res period_s _ w1 w I).
Qed.

(** ** The text of a code *)

Lemma binary_app (s1 s2 : string) :
  binary s1 -> binary s2 -> binary (s1 ++ s2)%string.
Proof.
  induction s1 as [|c s1 IH]; cbn; [auto|].
  intros [Hc H1] H2. auto.
Qed.

Lemma binary_bits (p : positive) : binary (Py.bits p).
Proof.
  induction p as [q IH|q IH|]; cbn [Py.bits].
  - apply binary_app; [exact IH|]. cbn. auto.
  - apply binary_app; [exact IH|]. cbn. auto.
  - cbn. auto.
Qed.

Lemma replace_0b_binary (s : string) : binary s -> Py.replace_0b s = s.
Proof.
  induction s as [|c s IH]; [reflexivity|].
  intros [Hc Hs]. specialize (IH Hs).
  destruct Hc as [-> | ->].
  - destruct s as [|c' s']; [reflexivity|].
    destruct Hs as [[-> | ->] Hs']; cbn in IH |- *; rewrite IH; reflexivity.
  - cbn. rewrite IH. reflexivity.
Qed.

Lemma length_append (s1 s2 : string) :
  String.length (s1 ++ s2) = (String.length s1 + String.length s2)%nat.
Proof.
  induction s1 as [|c s1 IH]; cbn; [reflexivity|]. now rewrite IH.
Qed.

Lemma length_bits (p : positive) : (1 <= String.length (Py.bits p))%nat.
Proof.
  destruct p; cbn [Py.bits]; rewrite ?length_append; cbn; lia.
Qed.

Lemma index_long (c1 c2 c3 : ascii) (s : string) :
  Py.index (String c1 (String c2 (String c3 s))) bitmask_cw_pattern = None.
Proof.
  assert (H : forall y, String.length y = 2%nat ->
                        String.eqb y (String c1 (String c2 (String c3 s))) = false).
  { intros y Hy. apply String.eqb_neq. intros ->. cbn in Hy. discriminate. }
  unfold bitmask_cw_pattern. cbn [Py.index].
  rewrite !H by reflexivity. reflexivity.
Qed.

Lemma long_string (s : string) :
  (3 <= String.length s)%nat ->
  exists c1 c2 c3 s', s = String c1 (String c2 (String c3 s')).
Proof.
  destruct s as [|c1 [|c2 [|c3 s']]]; cbn; try lia. eauto.
Qed.

Lemma zfill_binary (s : string) :
  binary s -> (2 <= String.length s)%nat -> Py.zfill 2 s = s.
Proof.
  intros Hb Hlen. unfold Py.zfill.
  replace (2 - String.length s)%nat with 0%nat by lia.
  destruct s as [|c s]; [reflexivity|].
  destruct Hb as [[-> | ->] _]; reflexivity.
Qed.

Lemma bitmask_in_cycle (n : Z) :
  Py.index (bitmask_of n) bitmask_cw_pattern <> None -> 0 <= n <= 3.
Proof.
  intros H. destruct n as [|p|p]; [lia| |exfalso; apply H; reflexivity].
  assert (Hlong : forall s, binary s -> (3 <= String.length s)%nat ->
                            Py.index (Py.zfill 2 (Py.replace_0b ("0b" ++ s)%string))
                                     bitmask_cw_pattern = None).
  { intros s Hb Hl.
    change (Py.replace_0b ("0b" ++ s)%string) with (Py.replace_0b s).
    rewrite (replace_0b_binary s Hb), (zfill_binary s Hb) by lia.
    destruct (long_string s Hl) as (c1 & c2 & c3 & s' & ->).
    apply index_long. }
  unfold bitmask_of, Py.bin in H.
  destruct p as [[q|q|]|[q|q|]|]; try lia; exfalso; apply H; apply Hlong;
    try apply binary_bits;
    cbn [Py.bits]; rewrite !length_append;
    pose proof (length_bits q); cbn [String.length]; lia.
Qed.

Lemma lor_ge_l (x y : Z) : 0 <= y -> x <= Z.lor x y.
Proof.
  intros Hy.
  pose proof (Z.sub_lor_l_same_l y x) as H.
  assert (0 <= Z.land y (Z.lnot x)) by (apply Z.land_nonneg; auto).
  lia.
Qed.

(** ** The first sample through the pipeline *)

Lemma check_direction_ok_codes (r : row) (w w' : world) (d : string) :
  check_direction r w = (Ok d, w') ->
  exists cur, current_position_bitmask r = Some cur
              /\ Py.index cur bitmask_cw_pattern <> None.
Proof.
  unfold check_direction, bind, lift, col, list_index.
  destruct (current_position_bitmask r) as [cur|]; [|discriminate].
  destruct (previous_position_bitmask r) as [prev|]; [|discriminate].
  destruct (Py.index cur bitmask_cw_pattern) as [ci|] eqn:Hci; [|discriminate].
  intros _. exists cur. split; [reflexivity|congruence].
Qed.

Lemma classifier_head (r : row) (tl df' : frame) (w w' : world) :
  detect_direction_of_motion (r :: tl) w = (Ok df', w') ->
  exists r1 d tl' wa wb,
    mark_change r = Ok r1
    /\ check_direction r1 wa = (Ok d, wb)
    /\ df' = set_direction (Some d) r1 :: tl'.
Proof.
  unfold detect_direction_of_motion. intros H.
  invert_bind H as u w1 Hset H. invert_bind H as df1 w2 Hmark H.
  apply lift_ok in Hmark. destruct Hmark as [Hmark ->].
  cbn [mark_changes] in Hmark.
  invert_rbind Hmark as r1 Hr1 Hmark. invert_rbind Hmark as tl1 Htl1 Hmark.
  inversion Hmark; subst df1.
  rewrite apply_assign_cons in H.
  destruct (check_direction r1 w1) as [[d|e] wb] eqn:Hd; [|discriminate].
  destruct (apply_assign _ _ tl1 wb) as [[tl'|e] wc]; [|discriminate].
  inversion H; subst. exists r1, d, tl', w1, wb. auto.
Qed.

Lemma integrator_head (res : float) (r : row) (tl df' : frame) (w w' : world) :
  detect_change_in_angular_position res (r :: tl) w = (Ok df', w') ->
  exists a tl',
    df' = set_angle_deg (Some a) r :: tl'
    /\ fst (track_angular_change res r
              (mk_world (mk_statics (current_direction (attrs w)) None 0%float)
                        (stdout w)))
       = Ok a.
Proof.
  unfold detect_change_in_angular_position. intros H.
  invert_bind H as u1 w1 H1 H. invert_bind H as u2 w2 H2 H.
  invert_bind H as df1 w3 Hrun H.
  unfold set_last_direction in H1. inversion H1; subst u1 w1.
  unfold set_current_angle in H2. inversion H2; subst u2 w2.
  rewrite apply_assign_cons in Hrun.
  match type of Hrun with
  | context [track_angular_change res r ?w0] =>
      destruct (track_angular_change res r w0) as [[a|e] wa] eqn:Ha;
      [|discriminate]
  end.
  destruct (apply_assign _ _ tl wa) as [[tl'|e] wb]; [|discriminate].
  inversion Hrun; subst df1.
  invert_bind H as u3 w4 Hreset1 H. invert_bind H as u4 w5 Hreset2 H.
  inversion H; subst df'. exists a, tl'. split; [reflexivity|].
  reflexivity.
Qed.

Lemma detector_head (period_s t0 : float) (a0 b0 : Z)
  (rest : list (float * Z * Z)) (w w1 : world) (df1 : frame) :
  detect_initial_stable_angular_position
    (read_csv ((t0, a0, b0) :: rest)) period_s w = (Ok df1, w1) ->
  exists r1 tl1, df1 = r1 :: tl1 /\ label r1 = 0 /\ time_s r1 = t0.
Proof.
  pose proof (detector_eq period_s t0 a0 b0 rest w) as Hdet. cbv zeta in Hdet.
  rewrite Hdet. intros H. inversion H. subst.
  cbn [read_csv load_from map]. eexists. eexists. split; [reflexivity|].
  split; reflexivity.
Qed.

Lemma normalize_head (period_s : float) (r1 : row) (tl1 df2 : frame) :
  label r1 = 0 ->
  normalize_timestamps (r1 :: tl1) period_s = Ok df2 ->
  exists r2 tl2,
    df2 = r2 :: tl2 /\ label r2 = 0
    /\ timestamp_normalized_s r2 = Some (time_s r1 - time_s r1)%float.
Proof.
  intros H0 H. unfold normalize_timestamps in H.
  rewrite at0_head in H by exact H0. cbn [col rbind map] in H.
  inversion H. eexists. eexists. split; [reflexivity|].
  split; [exact H0|reflexivity].
Qed.

Lemma generate_head (r2 : row) (tl2 df3 : frame) :
  label r2 = 0 ->
  generate_encoder_position_bitmask (r2 :: tl2) = Ok df3 ->
  exists r3 tl3,
    df3 = r3 :: tl3 /\ label r3 = 0
    /\ timestamp_normalized_s r3 = timestamp_normalized_s r2
    /\ current_position_bitmask r3 = Some (code_of r2)
    /\ previous_position_bitmask r3
       = Some (bitmask_of (Z.lor (Z.shiftl (chan_a r2) 1) (chan_b r2))).
Proof.
  intros H0 H. rewrite (generate_eq r2 tl2 H0) in H. inversion H.
  unfold with_codes. cbn [map shift combine assign].
  eexists. eexists. split; [reflexivity|].
  split; [exact H0|]. repeat split; reflexivity.
Qed.

Lemma classify_integrate_head (res : float) (a b : Z) (r3 : row)
  (tl3 df4 df5 : frame) (w2 w3 w4 w5 : world) :
  current_position_bitmask r3 = Some (bitmask_of (Z.lor (Z.shiftl a 1) b)) ->
  previous_position_bitmask r3
  = Some (bitmask_of (Z.lor (Z.shiftl a 1) b)) ->
  detect_direction_of_motion (r3 :: tl3) w2 = (Ok df4, w3) ->
  detect_change_in_angular_position res df4 w4 = (Ok df5, w5) ->
  exists r tl,
    df5 = r :: tl /\ label r = label r3
    /\ timestamp_normalized_s r = timestamp_normalized_s r3
    /\ angle_deg r = Some 0%float
    /\ change_occurred r = Some 0.
Proof.
  intros Hcur Hprev Hdir Hang.
  apply classifier_head in Hdir.
  destruct Hdir as (r1 & d & tl' & wa & wb & Hmark & Hd & ->).
  apply mark_change_ok in Hmark.
  destruct Hmark as (cur & prev & Hcur' & Hprev' & ->).
  apply check_direction_ok_codes in Hd.
  destruct Hd as (cur0 & Hc & Hin).
  cbn [current_position_bitmask set_change_occurred] in Hc.
  assert (Ecur : cur = bitmask_of (Z.lor (Z.shiftl a 1) b)) by congruence.
  assert (Ecur0 : cur0 = cur) by congruence.
  assert (Eprev : prev = bitmask_of (Z.lor (Z.shiftl a 1) b))
    by congruence.
  assert (Hsame : String.eqb cur prev = true).
  { apply String.eqb_eq. congruence. }
  rewrite Hsame in Hang.
  apply integrator_head in Hang.
  destruct Hang as (x & tl & -> & Hx).
  rewrite track_unchanged in Hx by reflexivity.
  cbn in Hx. inversion Hx; subst x.
  eexists. eexists. split; [reflexivity|]. repeat split; reflexivity.
Qed.

Lemma head_after_integrator (res period_s t0 : float) (a0 b0 : Z)
  (rest : list (float * Z * Z)) (w w1 w2 w3 w4 w5 : world)
  (df1 df2 df3 df4 df5 : frame) :
  detect_initial_stable_angular_position
    (read_csv ((t0, a0, b0) :: rest)) period_s w = (Ok df1, w1) ->
  normalize_timestamps df1 period_s = Ok df2 ->
  generate_encoder_position_bitmask df2 = Ok df3 ->
  detect_direction_of_motion df3 w2 = (Ok df4, w3) ->
  detect_change_in_angular_position res df4 w4 = (Ok df5, w5) ->
  exists r tl,
    df5 = r :: tl /\ label r = 0
    /\ timestamp_normalized_s r = Some (t0 - t0)%float
    /\ angle_deg r = Some 0%float
    /\ change_occurred r = Some 0.
Proof.
  intros Hdet Hnorm Hgen Hdir Hang.
  apply detector_head in Hdet. destruct Hdet as (r1 & tl1 & -> & Hl1 & Ht1).
  apply normalize_head in Hnorm; [|exact Hl1].
  destruct Hnorm as (r2 & tl2 & -> & Hl2 & Hts2).
  rewrite Ht1 in Hts2.
  apply generate_head in Hgen; [|exact Hl2].
  destruct Hgen as (r3 & tl3 & -> & Hl3 & Hts3 & Hcur & Hprev).
  destruct (classify_integrate_head res (chan_a r2) (chan_b r2) r3 tl3 df4 df5
              w2 w3 w4 w5 Hcur Hprev Hdir Hang)
    as (r & tl & -> & Hl & Hts & Ha & Hch).
  exists r, tl. split; [reflexivity|].
  repeat split; congruence.
Qed.

Lemma trim_head (r : row) (tl out : frame) :
  change_occurred r = Some 0 ->
  trim_redundant_data_points (r :: tl) = Ok out ->
  exists tl', out = r :: tl'.
Proof.
  intros Hch H. cbn [trim_redundant_data_points] in H.
  unfold attr in H. rewrite Hch in H. cbn [rbind] in H.
  invert_rbind H as tl' Htl H. inversion H. eauto.
Qed.

Lemma velocity_head (r : row) (tl out : frame) :
  detect_angular_velocity (r :: tl) = Ok out ->
  exists v tl', out = set_velocity_deg_per_s (Some v) r :: tl'.
Proof.
  unfold detect_angular_velocity. intros H.
  invert_rbind H as a0 Ha0 H. invert_rbind H as angles Hangles H.
  invert_rbind H as t0 Ht0 H. invert_rbind H as timestamps Htimes H.
  cbn [column] in Hangles, Htimes.
  invert_rbind Hangles as a Ha Hangles. invert_rbind Hangles as as' Has Hangles.
  invert_rbind Htimes as t Ht Htimes. invert_rbind Htimes as ts' Hts Htimes.
  inversion Hangles; subst angles. inversion Htimes; subst timestamps.
  cbn [shift combine assign] in H. inversion H. eauto.
Qed.

(** ** The pipeline completes whenever the classifier does *)

Lemma bind_run {A B} (c : M A) (k : A -> M B) (w w1 : world) (a : A) :
  c w = (Ok a, w1) -> bind c k w = k a w1.
Proof. unfold bind. intros ->. reflexivity. Qed.

Lemma Forall_assign {A} (P P' : row -> Prop) (set : A -> row -> row)
  (df : frame) (vs : list A) :
  (forall x r, P' r -> P (set x r)) ->
  Forall P' df -> Forall P (assign set df vs).
Proof.
  intros Hset H. revert vs.
  induction H as [|r df Hr _ IH]; intros [|x vs]; cbn [assign]; auto.
Qed.

Lemma Forall2_transfer {A B} (R : A -> B -> Prop) (P : A -> Prop) (Q : B -> Prop)
  (l : list A) (l' : list B) :
  (forall x y, R x y -> P x -> Q y) ->
  Forall2 R l l' -> Forall P l -> Forall Q l'.
Proof.
  intros HR H. induction H as [|x y l l' Hxy _ IH]; intros HP; constructor;
    inversion HP; subst; eauto.
Qed.

Lemma normalize_rows (period_s : float) (df df2 : frame) :
  normalize_timestamps df period_s = Ok df2 ->
  Forall (fun r => timestamp_normalized_s r <> None) df2.
Proof.
  unfold normalize_timestamps. intros H. invert_rbind H as t0 Ht0 H.
  inversion H. apply Forall_map, Forall_forall. intros r _. discriminate.
Qed.

Lemma generate_rows (df df3 : frame) :
  generate_encoder_position_bitmask df = Ok df3 ->
  Forall (fun r => timestamp_normalized_s r <> None) df ->
  Forall (fun r => timestamp_normalized_s r <> None) df3.
Proof.
  unfold generate_encoder_position_bitmask. cbv zeta. intros H Hts.
  invert_rbind H as a0 Ha0 H. invert_rbind H as b0 Hb0 H. inversion H.
  apply Forall_assign with (P' := fun r => timestamp_normalized_s r <> None).
  - intros [sa sb] r Hr. exact Hr.
  - apply Forall_map. eapply Forall_impl; [|exact Hts]. intros r Hr. exact Hr.
Qed.

Lemma classifier_rows (df3 df4 : frame) (w w' : world) :
  detect_direction_of_motion df3 w = (Ok df4, w') ->
  Forall (fun r => timestamp_normalized_s r <> None) df3 ->
  Forall (fun r => timestamp_normalized_s r <> None) df4.
Proof.
  unfold detect_direction_of_motion. intros H Hts.
  invert_bind H as u w1 Hset H. invert_bind H as df1 w2 Hmark H.
  apply lift_ok in Hmark. destruct Hmark as [Hmark ->].
  apply mark_changes_ok in Hmark. apply apply_assign_ok in H.
  assert (H1 : Forall (fun r => timestamp_normalized_s r <> None) df1).
  { eapply Forall2_transfer; [|exact Hmark|exact Hts].
    intros r r1 Hr Hx. apply mark_change_ok in Hr.
    destruct Hr as (cur & prev & _ & _ & ->). exact Hx. }
  eapply Forall2_transfer; [|exact H|exact H1].
  intros r r' (d & wa & wb & _ & ->) Hx. exact Hx.
Qed.

Lemma classified_has_flag (r : row) : classified r -> change_occurred r <> None.
Proof.
  intros [[H _] | (ch & H & _)]; congruence.
Qed.

Lemma velocity_total (r0 : row) (rest : frame) :
  label r0 = 0 ->
  Forall (fun r => angle_deg r <> None) (r0 :: rest) ->
  Forall (fun r => timestamp_normalized_s r <> None) (r0 :: rest) ->
  exists df', detect_angular_velocity (r0 :: rest) = Ok df'.
Proof.
  intros H0 Hangle Htime.
  destruct (column_total "angle_deg" _ _ Hangle) as [angles Has].
  destruct (column_total "timestamp_normalized_s" _ _ Htime) as [timestamps Hts].
  apply column_ok in Has. apply column_ok in Hts.
  destruct (nth_error_column _ _ _ 0%nat r0 Has eq_refl) as (a0 & Ha0 & _).
  destruct (nth_error_column _ _ _ 0%nat r0 Hts eq_refl) as (t0 & Ht0 & _).
  eexists. apply (velocity_eq r0 rest angles timestamps a0 t0); auto.
Qed.

Lemma pipeline_completes (res period_s t0 : float) (a0 b0 : Z)
  (rest : list (float * Z * Z)) (w w4 : world) (df4 : frame) :
  classify period_s ((t0, a0, b0) :: rest) w = (Ok df4, w4) ->
  exists out w',
    process_dataset res period_s ((t0, a0, b0) :: rest) w = (Ok out, w').
Proof.
  intros H. unfold classify in H. cbv zeta in H.
  invert_bind H as df1 w1 Hdet H.
  invert_bind H as df2 w2 Hnorm H.
  invert_bind H as df3 w3 Hgen H.
  unfold process_dataset. cbv zeta.
  rewrite (bind_run _ _ _ _ _ Hdet), (bind_run _ _ _ _ _ Hnorm),
    (bind_run _ _ _ _ _ Hgen), (bind_run _ _ _ _ _ H).
  apply lift_ok in Hnorm. destruct Hnorm as [Hnorm ->].
  apply lift_ok in Hgen. destruct Hgen as [Hgen ->].
  pose proof (classifier_output_classified _ _ _ _ H) as Hcl.
  pose proof (classifier_rows _ _ _ _ H
                (generate_rows _ _ Hgen (normalize_rows _ _ _ Hnorm))) as Hts4.
  pose proof (integrator_eq res df4 w4 Hcl) as Hang.
  rewrite (bind_run _ _ _ _ _ Hang).
  destruct (head_after_integrator res period_s t0 a0 b0 rest
              w w1 w1 w4 w4 _ df1 df2 df3 df4 _ Hdet Hnorm Hgen H Hang)
    as (r & tl & Hdf5 & Hl & _ & _ & Hch).
  set (df5 := assign (fun a => set_angle_deg (Some a)) df4
                     (three_branch_angles (ENCODER_POSITION_STEP_SIZE_DEG res)
                                          0%float df4)) in *.
  assert (Hrows5 : Forall (fun r => change_occurred r <> None
                                    /\ angle_deg r <> None
                                    /\ timestamp_normalized_s r <> None) df5).
  { unfold df5.
    apply Forall_assign
      with (P' := fun r => change_occurred r <> None
                           /\ timestamp_normalized_s r <> None).
    - intros x r0 [Hc Ht]. cbn. repeat split; auto. discriminate.
    - apply Forall_forall. intros r0 Hr0. split.
      + apply classified_has_flag. rewrite Forall_forall in Hcl. auto.
      + rewrite Forall_forall in Hts4. auto. }
  destruct (trim_total df5) as [df6 Htrim].
  { eapply Forall_impl; [|exact Hrows5]. intros r0 [Hc _]. exact Hc. }
  unfold bind at 1, lift at 1. rewrite Htrim.
  pose proof (trim_keeps_unchanged df5 df6 Htrim) as Hfilter.
  rewrite Hdf5 in Htrim.
  destruct (trim_head r tl df6 Hch Htrim) as (tl6 & Hdf6).
  assert (Hrows6 : Forall (fun r => angle_deg r <> None
                                    /\ timestamp_normalized_s r <> None) df6).
  { rewrite Hfilter. apply Forall_forall. intros r0 Hr0.
    apply filter_In in Hr0. destruct Hr0 as [Hr0 _].
    rewrite Forall_forall in Hrows5. destruct (Hrows5 r0 Hr0) as (_ & Ha & Ht).
    auto. }
  rewrite Hdf6 in Hrows6 |- *.
  destruct (velocity_total r tl6 Hl) as [df7 Hvel].
  { eapply Forall_impl; [|exact Hrows6]. intros r0 [Ha _]. exact Ha. }
  { eapply Forall_impl; [|exact Hrows6]. intros r0 [_ Ht]. exact Ht. }
  unfold bind at 1, lift at 1. rewrite Hvel.
  eexists. eexists. reflexivity.
Qed.

(** C8: for every capture with at least one sample whose first timestamp
    is a finite number: whenever the stages up to the integrator complete,
    the first sample of the annotated frame has normalized timestamp 0.0
    and angle 0.0; whenever the whole pipeline completes, its output starts
    with that same sample (label 0), still at timestamp 0.0 and angle 0.0;
    and the pipeline does complete on every such capture that the classifier
    accepts. *)
Theorem first_sample_is_the_origin
  (res period_s t0 : float) (a0 b0 : Z) (rest : list (float * Z * Z)) (w : world) :
  isfinite t0 = true ->
  (forall df w',
      annotate res period_s ((t0, a0, b0) :: rest) w = (Ok df, w') ->
      exists r tl,
        df = r :: tl /\ label r = 0
        /\ timestamp_normalized_s r = Some 0%float
        /\ angle_deg r = Some 0%float)
  /\ (forall out w',
         process_dataset res period_s ((t0, a0, b0) :: rest) w = (Ok out, w') ->
         exists r tl,
           out = r :: tl /\ label r = 0
           /\ timestamp_normalized_s r = Some 0%float
           /\ angle_deg r = Some 0%float)
  /\ (forall df4 w4,
         classify period_s ((t0, a0, b0) :: rest) w = (Ok df4, w4) ->
         exists out w',
           process_dataset res period_s ((t0, a0, b0) :: rest) w = (Ok out, w')).
Proof.
  intros Hfin. pose proof (float_sub_diag t0 Hfin) as Hzero.
  split; [|split].
  - intros df w' H. unfold annotate in H. cbv zeta in H.
    invert_bind H as df1 w1 Hdet H.
    invert_bind H as df2 w2 Hnorm H. apply lift_ok in Hnorm. destruct Hnorm as [Hnorm ->].
    invert_bind H as df3 w3 Hgen H. apply lift_ok in Hgen. destruct Hgen as [Hgen ->].
    invert_bind H as df4 w4 Hdir H.
    destruct (head_after_integrator res period_s t0 a0 b0 rest
                w w1 w1 w4 w4 w' df1 df2 df3 df4 df Hdet Hnorm Hgen Hdir H)
      as (r & tl & -> & Hl & Hts & Ha & _).
    rewrite Hzero in Hts. eauto 8.
  - intros out w' H. unfold process_dataset in H. cbv zeta in H.
    invert_bind H as df1 w1 Hdet H.
    invert_bind H as df2 w2 Hnorm H. apply lift_ok in Hnorm. destruct Hnorm as [Hnorm ->].
    invert_bind H as df3 w3 Hgen H. apply lift_ok in Hgen. destruct Hgen as [Hgen ->].
    invert_bind H as df4 w4 Hdir H.
    invert_bind H as df5 w5 Hang H.
    invert_bind H as df6 w6 Htrim H. apply lift_ok in Htrim. destruct Htrim as [Htrim ->].
    invert_bind H as df7 w7 Hvel H. apply lift_ok in Hvel. destruct Hvel as [Hvel ->].
    inversion H; subst out w'.
    destruct (head_after_integrator res period_s t0 a0 b0 rest
                w w1 w1 w4 w4 w5 df1 df2 df3 df4 df5 Hdet Hnorm Hgen Hdir Hang)
      as (r & tl & -> & Hl & Hts & Ha & Hch).
    destruct (trim_head r tl df6 Hch Htrim) as (tl6 & ->).
    destruct (velocity_head r tl6 df7 Hvel) as (v & tl7 & ->).
    rewrite Hzero in Hts.
    eexists. eexists. split; [reflexivity|].
    cbn. auto.
  - intros df4 w4 H. eapply pipeline_completes. exact H.
Qed.

Lemma first_sample_is_the_origin_witness :
  exists r tl,
    fst (process_dataset 4%float 1%float scenario world0) = Ok (r :: tl)
    /\ label r = 0
    /\ timestamp_normalized_s r = Some 0%float
    /\ angle_deg r = Some 0%float.
Proof.
  destruct (first_sample_is_the_origin 4%float 1%float 0%float 0 0 (tl scenario)
              world0 eq_refl) as (_ & Hout & _).
  change ((0%float, 0, 0) :: tl scenario) with scenario in Hout.
  destruct (process_dataset 4%float 1%float scenario world0)
    as [[out|e] w'] eqn:Hrun.
  - destruct (Hout out w' eq_refl) as (r & tl & -> & Hrest).
    exists r, tl. split; [reflexivity|exact Hrest].
  - vm_compute in Hrun. discriminate Hrun.
Defined.

(** ** The velocity estimator on a trimmed sequence *)

Lemma find_no_label0 (df : frame) :
  (forall r, In r df -> label r <> 0) ->
  find (fun r => label r =? 0) df = None.
Proof.
  induction df as [|r df IH]; intros H; [reflexivity|].
  cbn [find]. destruct (Z.eqb_spec (label r) 0) as [E|E].
  - exfalso. apply (H r); [left; reflexivity|exact E].
  - apply IH. intros r' Hr'. apply H. right. exact Hr'.
Qed.

Lemma at0_no_label0 {A} name (f : row -> option A) (df : frame) :
  (forall r, In r df -> label r <> 0) ->
  at0 name f df = Raise (KeyError "0").
Proof.
  intros H. unfold at0. rewrite (find_no_label0 df H). reflexivity.
Qed.








(** * Further properties of the pipeline *)

(** ** Frames without a row labelled 0 *)

(** X1: [df.at[0, ...]] looks the label 0 up, so on a frame that holds no
    row labelled 0 (the empty frame, or one whose first rows were filtered
    out) the detector, the normalizer, the generator (on a non-empty frame)
    and the velocity estimator (on a frame that has its angle column) all
    raise KeyError(0); the detector does so
    before it prints anything, and the whole pipeline does so on the empty
    capture, leaving the world as it found it. *)
Theorem stages_need_label_0 (df : frame) (period_s : float) (w : world) :
  (forall r, In r df -> label r <> 0) ->
  detect_initial_stable_angular_position df period_s w = (Raise (KeyError "0"), w)
  /\ normalize_timestamps df period_s = Raise (KeyError "0")
  /\ (df <> [] -> generate_encoder_position_bitmask df = Raise (KeyError "0"))
  /\ (Forall (fun r => angle_deg r <> None) df ->
      detect_angular_velocity df = Raise (KeyError "0"))
  /\ forall res, process_dataset res period_s [] w = (Raise (KeyError "0"), w).
Proof.
  intros H. split; [|split; [|split; [|split]]].
  - unfold detect_initial_stable_angular_position, bind, lift.
    rewrite (at0_no_label0 _ _ df H). reflexivity.
  - unfold normalize_timestamps. rewrite (at0_no_label0 _ _ df H). reflexivity.
  - intros _. unfold generate_encoder_position_bitmask. cbv zeta.
    rewrite at0_no_label0; [reflexivity|].
    intros r Hr. apply in_map_iff in Hr. destruct Hr as (r0 & <- & Hr0).
    apply (H r0 Hr0).
  - intros _. unfold detect_angular_velocity.
    rewrite (at0_no_label0 _ _ df H). reflexivity.
  - intros res. reflexivity.
Qed.

Lemma stages_need_label_0_witness :
  map label (changed_rows scenario_annotated) = [2; 3; 4; 5]
  /\ detect_angular_velocity (changed_rows scenario_annotated)
     = Raise (KeyError "0").
Proof.
  assert (Hlabels : map label (changed_rows scenario_annotated) = [2; 3; 4; 5])
    by (vm_compute; reflexivity).
  split; [exact Hlabels|].
  assert (Hno : forall r, In r (changed_rows scenario_annotated) -> label r <> 0).
  { intros r Hr.
    assert (Hl : In (label r) [2; 3; 4; 5]).
    { rewrite <- Hlabels. apply in_map. exact Hr. }
    cbn in Hl. lia. }
  assert (Hcols : Forall (fun r => angle_deg r <> None)
                         (changed_rows scenario_annotated)).
  { assert (Hb : forallb (fun r => match angle_deg r with
                                   | Some _ => true
                                   | None => false
                                   end)
                         (changed_rows scenario_annotated) = true)
      by (vm_compute; reflexivity).
    rewrite forallb_forall in Hb.
    apply Forall_forall. intros r Hr. specialize (Hb r Hr).
    destruct (angle_deg r); [discriminate|discriminate Hb]. }
  destruct (stages_need_label_0 (changed_rows scenario_annotated) 1%float world0 Hno)
    as (_ & _ & _ & Hvel & _).
  exact (Hvel Hcols).
Defined.

(** ** The sampling period *)

Lemma detector_period (df : frame) (period_s period_s' : float) (w w' : world) :
  fst (detect_initial_stable_angular_position df period_s w)
  = fst (detect_initial_stable_angular_position df period_s' w').
Proof.
  unfold detect_initial_stable_angular_position, bind, lift.
  destruct (at0 "chan_a" _ df) as [a0|]; [|reflexivity].
  destruct (at0 "chan_b" _ df) as [b0|]; [|reflexivity].
  cbv zeta.
  destruct (column "matches_initial_position" _ _) as [ms|]; [|reflexivity].
  destruct (idxmax _) as [idx|]; reflexivity.
Qed.

(** X2: the sampling period (the reciprocal of the declared sampling
    frequency) reaches nothing but the detector's printed report: whatever
    two periods the pipeline is run with, on whatever two worlds, it returns
    the same frame or raises the same error. *)
Theorem period_only_reaches_the_report
  (res period_s period_s' : float) (capture : list (float * Z * Z))
  (w w' : world) :
  fst (process_dataset res period_s capture w)
  = fst (process_dataset res period_s' capture w').
Proof.
  change (process_dataset res period_s capture)
    with (bind (detect_initial_stable_angular_position (read_csv capture) period_s)
               (decode res period_s)).
  change (process_dataset res period_s' capture)
    with (bind (detect_initial_stable_angular_position (read_csv capture) period_s')
               (decode res period_s)).
  unfold bind.
  pose proof (detector_period (read_csv capture) period_s period_s' w w') as H.
  destruct (detect_initial_stable_angular_position (read_csv capture) period_s w)
    as [[df1|e] w1];
    destruct (detect_initial_stable_angular_position (read_csv capture) period_s' w')
      as [[df1'|e'] w1']; cbn [fst] in H; try discriminate.
  - inversion H; subst df1'. apply (decode_blind res period_s df1 w1 w1' I).
  - exact H.
Qed.

(** ** How a run can fail *)

Lemma index_some_mem (x : string) (l : list string) (i : Z) :
  Py.index x l = Some i -> Py.mem x l = true.
Proof.
  unfold Py.mem. revert i. induction l as [|y l IH]; intros i H; [discriminate|].
  cbn [Py.index] in H. cbn [existsb].
  rewrite (String.eqb_sym x y).
  destruct (String.eqb y x); [reflexivity|].
  destruct (Py.index x l) as [j|]; [|discriminate].
  rewrite (IH j eq_refl). reflexivity.
Qed.

Lemma check_direction_raises (r : row) (w : world) (e : exn) :
  fst (check_direction r w) = Raise e ->
  (exists name, e = KeyError name
                /\ (current_position_bitmask r = None
                    \/ previous_position_bitmask r = None
                    \/ change_occurred r = None
                    \/ timestamp_normalized_s r = None))
  \/ (exists code, e = ValueError (NotInList code)
                   /\ Py.index code bitmask_cw_pattern = None
                   /\ (current_position_bitmask r = Some code
                       \/ previous_position_bitmask r = Some code))
  \/ (exists code t, e = ValueError (IllegalChange code t)
                     /\ Py.index code bitmask_cw_pattern <> None
                     /\ current_position_bitmask r = Some code
                     /\ changed r = true).
Proof.
  intros H. unfold changed.
  unfold check_direction, bind, lift, col, list_index in H.
  destruct (current_position_bitmask r) as [cur|];
    [|cbn [fst] in H; inversion H; eauto 6].
  destruct (previous_position_bitmask r) as [prev|];
    [|cbn [fst] in H; inversion H; eauto 6].
  destruct (Py.index cur bitmask_cw_pattern) as [ci|] eqn:Hci;
    [|cbn [fst] in H; inversion H; right; left; eauto 6].
  destruct (Py.index prev bitmask_cw_pattern) as [pi|] eqn:Hpi;
    [|cbn [fst] in H; inversion H; right; left; eauto 6].
  destruct (change_occurred r) as [ch|];
    [|cbn [fst] in H; inversion H; left; eauto 8].
  destruct (ch =? 0) eqn:Hch; [cbn [fst set_current_direction] in H; discriminate|].
  rewrite (index_some_mem cur _ ci Hci) in H. cbn [negb] in H. cbv zeta in H.
  destruct (String.eqb cur _) in H;
    [cbn [fst set_current_direction] in H; discriminate|].
  destruct (String.eqb cur _) in H;
    [cbn [fst set_current_direction] in H; discriminate|].
  destruct (timestamp_normalized_s r) as [t|];
    cbn [fst raise] in H; inversion H; [|left; eauto 8].
  right; right. exists cur, t. repeat split; auto. congruence.
Qed.

Lemma apply_assign_raises {A} (f : row -> M A) (set : A -> row -> row)
  (df : frame) (w : world) (e : exn) :
  fst (apply_assign f set df w) = Raise e ->
  exists r w1, In r df /\ fst (f r w1) = Raise e.
Proof.
  revert w. induction df as [|r df IH]; intros w H; [discriminate|].
  rewrite apply_assign_cons in H.
  destruct (f r w) as [[v|e'] w1] eqn:Hf.
  - destruct (apply_assign f set df w1) as [[rest'|e''] w2] eqn:Hrest;
      [discriminate|].
    destruct (IH w1) as (r' & w' & Hin & Hr'); [rewrite Hrest; exact H|].
    exists r', w'. split; [right; exact Hin|exact Hr'].
  - exists r, w. split; [left; reflexivity|]. rewrite Hf.
    cbn [fst] in H |- *. inversion H. reflexivity.
Qed.

Lemma mark_changes_raises (df : frame) (e : exn) :
  mark_changes df = Raise e -> exists name, e = KeyError name.
Proof.
  induction df as [|r df IH]; [discriminate|].
  cbn [mark_changes]. unfold mark_change, col.
  destruct (current_position_bitmask r); [|cbn; intros H; inversion H; eauto].
  destruct (previous_position_bitmask r); [|cbn; intros H; inversion H; eauto].
  cbn [rbind]. destruct (mark_changes df) as [rest|e']; [discriminate|].
  cbn. intros H. inversion H; subst. apply IH. reflexivity.
Qed.

(** X3: the classifier's "undefined bitmask" sanity check is dead code.  On
    any frame that has at least one row, from any world, a raise of the
    classifier is a KeyError (a column it reads is missing), the ValueError
    of [list.index] for a code outside the cycle, or the illegal-change
    ValueError for a changed sample whose code is in the cycle; it is never
    the "undefined bitmask" ValueError.  (What pandas raises on a frame
    without rows is not part of this.) *)
Theorem classifier_raises (df : frame) (w : world) (e : exn) :
  df <> [] ->
  fst (detect_direction_of_motion df w) = Raise e ->
  ((exists name, e = KeyError name)
   \/ (exists code, e = ValueError (NotInList code)
                    /\ Py.index code bitmask_cw_pattern = None)
   \/ (exists code t, e = ValueError (IllegalChange code t)
                      /\ Py.index code bitmask_cw_pattern <> None))
  /\ forall got, e <> ValueError (UndefinedBitmask got).
Proof.
  intros _ H.
  assert (Hcases :
            (exists name, e = KeyError name)
            \/ (exists code, e = ValueError (NotInList code)
                             /\ Py.index code bitmask_cw_pattern = None)
            \/ (exists code t, e = ValueError (IllegalChange code t)
                               /\ Py.index code bitmask_cw_pattern <> None)).
  { unfold detect_direction_of_motion, bind at 1 in H.
    cbn [set_current_direction] in H.
    unfold bind at 1, lift in H.
    destruct (mark_changes df) as [df1|e1] eqn:Hmark.
    - apply apply_assign_raises in H. destruct H as (r & w1 & _ & Hr).
      apply check_direction_raises in Hr.
      destruct Hr as [(name & -> & _)
                     | [(code & -> & Hnone & _) | (code & t & -> & Hin & _)]];
        eauto 6.
    - cbn in H. inversion H; subst e1. left.
      apply (mark_changes_raises df e Hmark). }
  split; [exact Hcases|].
  intros got ->.
  destruct Hcases as [[name Hn] | [(code & Hn & _) | (code & t & Hn & _)]];
    discriminate.
Qed.

Lemma classifier_raises_witness :
  fst (detect_direction_of_motion
         [set_previous_position_bitmask (Some "100") stray_row] world0)
  = Raise (ValueError (NotInList "100"))
  /\ Py.index "100" bitmask_cw_pattern = None.
Proof.
  assert (Hrun : fst (detect_direction_of_motion
                        [set_previous_position_bitmask (Some "100") stray_row]
                        world0)
                 = Raise (ValueError (NotInList "100"))) by reflexivity.
  split; [exact Hrun|].
  assert (Hrows : [set_previous_position_bitmask (Some "100") stray_row] <> [])
    by discriminate.
  destruct (classifier_raises _ world0 _ Hrows Hrun)
    as [[(name & Hname) | [(code & Hcode & Hnone) | (code & t & Hcode & _)]] _].
  - discriminate Hname.
  - inversion Hcode; subst code. exact Hnone.
  - discriminate Hcode.
Defined.

Lemma bind_raise {A B} (c : M A) (k : A -> M B) (w : world) (e : exn) :
  fst (bind c k w) = Raise e ->
  fst (c w) = Raise e
  \/ exists a w1, c w = (Ok a, w1) /\ fst (k a w1) = Raise e.
Proof.
  unfold bind. destruct (c w) as [[a|e'] w1]; intros H.
  - right. eauto.
  - left. cbn [fst] in H |- *. inversion H. reflexivity.
Qed.

Lemma process_as_classify (res period_s : float)
  (capture : list (float * Z * Z)) (w : world) :
  process_dataset res period_s capture w
  = bind (classify period_s capture) (kinematics res) w.
Proof.
  unfold process_dataset, classify, kinematics. cbv zeta. unfold bind.
  destruct (detect_initial_stable_angular_position _ _ w) as [[df1|e] w1];
    [|reflexivity].
  destruct (lift (normalize_timestamps df1 period_s) w1) as [[df2|e] w2];
    [|reflexivity].
  destruct (lift (generate_encoder_position_bitmask df2) w2) as [[df3|e] w3];
    [|reflexivity].
  destruct (detect_direction_of_motion df3 w3) as [[df4|e] w4]; reflexivity.
Qed.

Lemma Forall2_of_nth {A B} (R : A -> B -> Prop) (l : list A) (l' : list B) :
  List.length l = List.length l' ->
  (forall i x y, nth_error l i = Some x -> nth_error l' i = Some y -> R x y) ->
  Forall2 R l l'.
Proof.
  revert l'. induction l as [|x l IH]; intros [|y l'] Hlen H;
    cbn in Hlen; try discriminate; constructor.
  - apply (H 0%nat); reflexivity.
  - apply IH; [congruence|]. intros i a b Ha Hb. apply (H (S i)); assumption.
Qed.

Lemma length_with_codes (r0 : row) (rest : frame) :
  List.length (with_codes r0 rest) = List.length (r0 :: rest).
Proof.
  unfold with_codes. rewrite length_assign; rewrite ?length_map; auto.
  rewrite length_combine, !length_shift, !length_map. apply Nat.min_id.
Qed.

Lemma with_codes_rows (r0 : row) (rest : frame) :
  Forall2 (fun r r' =>
             exists pv, r' = set_previous_position_bitmask (Some pv)
                               (set_current_position_bitmask (Some (code_of r)) r))
          (r0 :: rest) (with_codes r0 rest).
Proof.
  apply Forall2_of_nth; [symmetry; apply length_with_codes|].
  intros i r r' Hr Hr'. apply with_codes_nth in Hr'.
  destruct Hr' as (r1 & sa & sb & Hr1 & -> & _).
  assert (r1 = r) by congruence. subst r1. eauto.
Qed.

Lemma loaded_rows (a0 b0 : Z) (t0 : float) (samples : list (float * Z * Z)) (i : Z) :
  Forall2 (fun s r => chan_a r = snd (fst s) /\ chan_b r = snd s
                      /\ timestamp_normalized_s r <> None)
          samples
          (map (fun r => set_timestamp_normalized_s (Some (time_s r - t0)%float) r)
               (map (fun r => set_matches_initial_position
                                (Some (matches_entry a0 b0 r)) r)
                    (load_from i samples))).
Proof.
  revert i. induction samples as [|[[t a] b] rest IH]; intros i; constructor.
  - cbn. repeat split; discriminate.
  - apply IH.
Qed.

Lemma stages_1_to_3 (period_s t0 : float) (a0 b0 : Z)
  (rest : list (float * Z * Z)) (w : world) :
  exists r2 tl2 w1,
    label r2 = 0
    /\ Forall2 (fun s r => chan_a r = snd (fst s) /\ chan_b r = snd s
                           /\ timestamp_normalized_s r <> None)
               ((t0, a0, b0) :: rest) (r2 :: tl2)
    /\ forall B (k : frame -> M B),
        bind (detect_initial_stable_angular_position
                (read_csv ((t0, a0, b0) :: rest)) period_s)
             (fun df => bind (lift (normalize_timestamps df period_s))
                          (fun df => bind (lift (generate_encoder_position_bitmask df))
                                       k)) w
        = k (with_codes r2 tl2) w1.
Proof.
  pose proof (detector_eq period_s t0 a0 b0 rest w) as Hdet. cbv zeta in Hdet.
  pose proof (loaded_rows a0 b0 t0 ((t0, a0, b0) :: rest) 0) as Hrows.
  change (load_from 0 ((t0, a0, b0) :: rest))
    with (raw_row 0 (t0, a0, b0) :: load_from (0 + 1) rest) in Hrows.
  cbn [map] in Hrows.
  match type of Hrows with
  | Forall2 _ _ (?r :: ?tl) => exists r, tl
  end.
  eexists. split; [reflexivity|]. split; [exact Hrows|].
  intros B k. rewrite (bind_run _ _ _ _ _ Hdet).
  unfold normalize_timestamps. cbn [read_csv load_from map].
  rewrite at0_head by reflexivity.
  cbn [col rbind time_s set_matches_initial_position raw_row].
  rewrite bind_lift_ok. cbn [map].
  rewrite generate_eq by reflexivity. rewrite bind_lift_ok.
  reflexivity.
Qed.

Lemma Forall2_left {A B} (R : A -> B -> Prop) (l : list A) (l' : list B) :
  Forall2 R l l' -> Forall (fun x => exists y, R x y) l.
Proof.
  induction 1; constructor; eauto.
Qed.

Lemma mark_changes_total (df : frame) :
  Forall coded df -> exists df1, mark_changes df = Ok df1.
Proof.
  induction 1 as [|r df (Hc & Hp & _) _ [df1 IH]]; [cbn; eauto|].
  cbn [mark_changes]. unfold mark_change, col.
  destruct (current_position_bitmask r); [|congruence].
  destruct (previous_position_bitmask r); [|congruence].
  cbn [rbind]. rewrite IH. cbn. eauto.
Qed.

Lemma classifier_raises_coded (df : frame) (w : world) (e : exn) :
  Forall coded df ->
  fst (detect_direction_of_motion df w) = Raise e ->
  (exists code, e = ValueError (NotInList code)
                /\ Py.index code bitmask_cw_pattern = None)
  \/ (exists code t, e = ValueError (IllegalChange code t)
                     /\ Py.index code bitmask_cw_pattern <> None).
Proof.
  intros Hcoded H.
  unfold detect_direction_of_motion, bind at 1 in H.
  cbn [set_current_direction] in H. unfold bind at 1, lift in H.
  destruct (mark_changes_total df Hcoded) as [df1 Hmark]. rewrite Hmark in H.
  apply apply_assign_raises in H. destruct H as (r1 & w1 & Hin & Hr).
  apply mark_changes_ok in Hmark.
  assert (Hr1 : current_position_bitmask r1 <> None
                /\ previous_position_bitmask r1 <> None
                /\ change_occurred r1 <> None
                /\ timestamp_normalized_s r1 <> None).
  { clear - Hmark Hcoded Hin.
    induction Hmark as [|r r' l l' Hrr' _ IH]; [contradiction|].
    inversion Hcoded as [|? ? (Hc & Hp & Ht) Hrest]; subst.
    destruct Hin as [<- | Hin]; [|auto].
    apply mark_change_ok in Hrr'. destruct Hrr' as (cur & prev & _ & _ & ->).
    cbn. repeat split; auto. discriminate. }
  apply check_direction_raises in Hr.
  destruct Hr1 as (Hc & Hp & Hch & Ht).
  destruct Hr as [(name & _ & [Hn | [Hn | [Hn | Hn]]])
                 | [(code & -> & Hnone & _) | (code & t & -> & Hcode & _)]];
    try contradiction; eauto 6.
Qed.

Lemma with_codes_coded (r2 : row) (tl2 : frame) :
  Forall (fun r => timestamp_normalized_s r <> None) (r2 :: tl2) ->
  Forall coded (with_codes r2 tl2).
Proof.
  intros Hts.
  eapply Forall2_transfer; [|apply with_codes_rows|exact Hts].
  intros r r' [pv ->] Hr. unfold coded. cbn. repeat split; auto; discriminate.
Qed.

(** X4: on a capture whose cells convert (every timestamp a text that
    [astype(float)] accepts, every channel cell an integer), a run of the
    pipeline can fail in three ways only: KeyError(0) when the capture has
    no sample; the ValueError of [list.index] when a sample's code is outside
    the cycle "00","01","11","10"; and the illegal-change ValueError when a
    code of the cycle follows a code that is not its neighbour.  Nothing
    after the classifier ever raises.  What the conversions raise on a cell
    that does not convert is not part of this. *)
Theorem pipeline_failures
  (res period_s : float) (capture : list (float * Z * Z)) (w : world) (e : exn) :
  fst (process_dataset res period_s capture w) = Raise e ->
  (capture = [] /\ e = KeyError "0")
  \/ (exists code, e = ValueError (NotInList code)
                   /\ Py.index code bitmask_cw_pattern = None)
  \/ (exists code t, e = ValueError (IllegalChange code t)
                     /\ Py.index code bitmask_cw_pattern <> None).
Proof.
  intros H. destruct capture as [|[[t0 a0] b0] rest].
  - left. split; [reflexivity|]. cbn in H. inversion H. reflexivity.
  - right. rewrite process_as_classify in H. apply bind_raise in H.
    destruct H as [H | (df4 & w4 & Hcl & Hkin)].
    + destruct (stages_1_to_3 period_s t0 a0 b0 rest w)
        as (r2 & tl2 & w1 & Hl & Hrows & Hrun).
      unfold classify in H. cbv zeta in H. rewrite Hrun in H.
      apply classifier_raises_coded in H; [exact H|].
      apply with_codes_coded.
      eapply Forall2_transfer with (P := fun _ => True);
        [|exact Hrows|apply Forall_forall; auto].
      intros s r (_ & _ & Hts) _. exact Hts.
    + exfalso.
      destruct (pipeline_completes res period_s t0 a0 b0 rest w w4 df4 Hcl)
        as (out & w' & Hok).
      rewrite process_as_classify in Hok. unfold bind in Hok.
      rewrite Hcl in Hok. rewrite Hok in Hkin. discriminate.
Qed.

Lemma pipeline_failures_witness :
  fst (process_dataset 2048%float 1%float double_flip world0)
  = Raise (ValueError (IllegalChange "11" 1%float))
  /\ Py.index "11" bitmask_cw_pattern <> None.
Proof.
  assert (Hrun : fst (process_dataset 2048%float 1%float double_flip world0)
                 = Raise (ValueError (IllegalChange "11" 1%float)))
    by (vm_compute; reflexivity).
  split; [exact Hrun|].
  destruct (pipeline_failures 2048%float 1%float double_flip world0 _ Hrun)
    as [[Hempty _] | [(code & Hcode & _) | (code & t & Hcode & Hin)]].
  - discriminate.
  - discriminate.
  - inversion Hcode; subst. exact Hin.
Defined.

(** ** The samples a completed run has seen *)

Lemma classifier_accepts (df df' : frame) (w w' : world) :
  detect_direction_of_motion df w = (Ok df', w') ->
  Forall (fun r => exists cur, current_position_bitmask r = Some cur
                               /\ Py.index cur bitmask_cw_pattern <> None) df.
Proof.
  unfold detect_direction_of_motion. intros H.
  invert_bind H as u w1 Hset H. invert_bind H as df1 w2 Hmark H.
  apply lift_ok in Hmark. destruct Hmark as [Hmark _].
  apply mark_changes_ok in Hmark. apply apply_assign_ok in H.
  apply Forall2_left in H.
  clear - Hmark H. induction Hmark as [|r r1 l l1 Hr _ IH]; constructor.
  - inversion H as [|? ? (r' & d & wa & wb & Hd & _) _]; subst.
    apply check_direction_ok_codes in Hd. destruct Hd as (cur & Hc & Hin).
    apply mark_change_ok in Hr. destruct Hr as (c & p & Hcur & _ & ->).
    cbn in Hc. exists cur. split; [congruence|exact Hin].
  - apply IH. inversion H; assumption.
Qed.

Lemma code_range (a b : Z) :
  0 <= Z.lor (Z.shiftl a 1) b <= 3 -> is_bit a /\ 0 <= b <= 3.
Proof.
  intros H.
  assert (Hnn : 0 <= Z.shiftl a 1 /\ 0 <= b) by (apply Z.lor_nonneg; lia).
  pose proof (lor_ge_l (Z.shiftl a 1) b (proj2 Hnn)) as Ha.
  pose proof (lor_ge_l b (Z.shiftl a 1) (proj1 Hnn)) as Hb.
  rewrite Z.lor_comm in Hb.
  rewrite Z.shiftl_mul_pow2 in * by lia.
  unfold is_bit. change (2 ^ 1) with 2 in *. lia.
Qed.

(** X5: on a capture whose channel cells are integers, a run that completes
    has checked every sample: channel A is 0 or 1, channel B is between 0
    and 3, and (a << 1) | b is between 0 and 3.  The bound on channel B is
    not tighter than that: a sample (0, 2) is taken as code "10".  (A
    channel cell that is a fraction is cut to an integer by [int()] before
    it is checked; such captures are not part of this.) *)
Theorem completed_run_has_valid_samples
  (res period_s : float) (capture : list (float * Z * Z)) (w w' : world)
  (out : frame) :
  process_dataset res period_s capture w = (Ok out, w') ->
  Forall (fun s => is_bit (snd (fst s)) /\ 0 <= snd s <= 3
                   /\ 0 <= Z.lor (Z.shiftl (snd (fst s)) 1) (snd s) <= 3)
         capture.
Proof.
  intros H. destruct capture as [|[[t0 a0] b0] rest]; [constructor|].
  rewrite process_as_classify in H.
  invert_bind H as df4 w4 Hcl Hkin.
  destruct (stages_1_to_3 period_s t0 a0 b0 rest w)
    as (r2 & tl2 & w1 & Hl & Hrows & Hrun).
  unfold classify in Hcl. cbv zeta in Hcl. rewrite Hrun in Hcl.
  apply classifier_accepts in Hcl.
  assert (H2 : Forall (fun r => 0 <= Z.lor (Z.shiftl (chan_a r) 1) (chan_b r) <= 3)
                      (r2 :: tl2)).
  { pose proof (with_codes_rows r2 tl2) as Hcodes.
    clear - Hcodes Hcl.
    induction Hcodes as [|r r' l l' [pv ->] _ IH]; constructor.
    - inversion Hcl as [|? ? (cur & Hcur & Hin) _]; subst.
      cbn in Hcur. inversion Hcur; subst cur.
      apply bitmask_in_cycle. exact Hin.
    - apply IH. inversion Hcl; assumption. }
  clear - Hrows H2.
  induction Hrows as [|s r l l' (Ha & Hb & _) _ IH]; constructor.
  - inversion H2 as [|? ? Hr _]; subst. rewrite Ha, Hb in Hr.
    destruct (code_range _ _ Hr). auto.
  - apply IH. inversion H2; assumption.
Qed.

Lemma completed_run_has_valid_samples_witness :
  exists out,
    fst (process_dataset 4%float 1%float odd_capture world0) = Ok out
    /\ map current_position_bitmask out = [Some "10"]
    /\ Forall (fun s => is_bit (snd (fst s)) /\ 0 <= snd s <= 3
                        /\ 0 <= Z.lor (Z.shiftl (snd (fst s)) 1) (snd s) <= 3)
              odd_capture.
Proof.
  destruct (process_dataset 4%float 1%float odd_capture world0)
    as [[out|e] w'] eqn:Hrun.
  - exists out. split; [reflexivity|].
    split.
    + assert (Hc : match fst (process_dataset 4%float 1%float odd_capture world0)
                   with
                   | Ok df => map current_position_bitmask df
                   | Raise _ => []
                   end = [Some "10"]) by (vm_compute; reflexivity).
      rewrite Hrun in Hc. exact Hc.
    + exact (completed_run_has_valid_samples 4%float 1%float odd_capture
               world0 w' out Hrun).
  - exfalso.
    assert (Hc : match fst (process_dataset 4%float 1%float odd_capture world0)
                 with
                 | Ok _ => true
                 | Raise _ => false
                 end = true) by (vm_compute; reflexivity).
    rewrite Hrun in Hc. discriminate.
Defined.

(** * The helpers around the pipeline *)

(** ** [set_dataset_format] *)

Lemma mem_In (x : string) (l : list string) : Py.mem x l = true <-> In x l.
Proof.
  unfold Py.mem. rewrite existsb_exists. split.
  - intros (y & Hy & E). apply String.eqb_eq in E. subst. exact Hy.
  - intros H. exists x. split; [exact H|apply String.eqb_refl].
Qed.

(** X6: [set_dataset_format] returns True for each of the three supported
    categories and leaves two different column names in the globals,
    whatever they held before; for any other category the assertion fails
    and the globals are untouched.  It never returns False: its catch-all
    branch is unreachable, so [main]'s abort on a False result never runs. *)
Theorem set_dataset_format_outcomes (category : string) (g : channels) :
  (In category SUPPORTED_DATASET_CATEGORIES ->
   exists g',
     set_dataset_format category g = (Done true, g', [])
     /\ LOGIC_ANALYZER_ENCODER_CHAN_A g' <> LOGIC_ANALYZER_ENCODER_CHAN_B g'
     /\ forall g0, set_dataset_format category g0 = (Done true, g', []))
  /\ (~ In category SUPPORTED_DATASET_CATEGORIES ->
      exists msg,
        set_dataset_format category g = (Fail (AssertionError msg), g, []))
  /\ fst (fst (set_dataset_format category g)) <> Done false.
Proof.
  unfold set_dataset_format.
  destruct (Py.mem category SUPPORTED_DATASET_CATEGORIES) eqn:Hmem.
  - cbn [negb]. apply mem_In in Hmem.
    assert (Hcases : category = "flir_blackfly_s" \/ category = "rpi_cam"
                     \/ category = "sbs_encoder_data").
    { cbn in Hmem. intuition congruence. }
    split; [|split].
    + intros _.
      destruct Hcases as [-> | [-> | ->]]; cbn;
        eexists; (split; [reflexivity|split; [discriminate|reflexivity]]).
    + intros Hn. contradiction.
    + destruct Hcases as [-> | [-> | ->]]; cbn; discriminate.
  - cbn [negb]. split; [|split].
    + intros Hin. apply mem_In in Hin. congruence.
    + intros _. eexists. reflexivity.
    + cbn. discriminate.
Qed.

Lemma set_dataset_format_outcomes_witness :
  set_dataset_format "rpi_cam" (mk_channels "DIO 0" "DIO 0")
  = (Done true, mk_channels "DIO 1" "DIO 2", [])
  /\ exists msg,
      set_dataset_format "webcam" initial_channels
      = (Fail (AssertionError msg), initial_channels, []).
Proof.
  destruct (set_dataset_format_outcomes "rpi_cam" (mk_channels "DIO 0" "DIO 0"))
    as (Hin & _ & _).
  destruct (set_dataset_format_outcomes "webcam" initial_channels)
    as (_ & Hout & _).
  split.
  - destruct Hin as (g' & Hrun & _); [cbn; auto|].
    rewrite Hrun. cbn in Hrun. inversion Hrun. reflexivity.
  - apply Hout. cbn. intuition discriminate.
Defined.

(** ** [get_header_row_index] *)

Lemma header_scan_spec (dir : string) (lines : list string) (i : Z) :
  (fst (header_scan dir lines i) = -1
   /\ snd (header_scan dir lines i) <> []
   /\ Forall (fun l => Str.startswith l "#Time (s)," = false) lines)
  \/ (exists k l,
         fst (header_scan dir lines i) = i + Z.of_nat k
         /\ snd (header_scan dir lines i) = []
         /\ nth_error lines k = Some l
         /\ Str.startswith l "#Time (s)," = true
         /\ Forall (fun l => Str.startswith l "#Time (s)," = false)
                   (firstn k lines)).
Proof.
  revert i. induction lines as [|l rest IH]; intros i.
  - left. cbn. repeat split; [discriminate|constructor].
  - cbn [header_scan].
    destruct (Str.startswith l "#Time (s),") eqn:Hl.
    + right. exists 0%nat, l. cbn. repeat split; auto. lia.
    + destruct (IH (i + 1)) as [(Hn & Hp & Hall) | (k & l' & Hn & Hp & Hk & Hl' & Hbefore)].
      * left. repeat split; auto.
      * right. exists (S k), l'. cbn [nth_error firstn].
        repeat split; auto. rewrite Hn. lia.
Qed.

(** X7: [get_header_row_index] returns the index of the first line that
    starts with "#Time (s),": that line exists, no earlier line starts so,
    the index is within the file and nothing is printed; when no line
    starts so it prints its message and returns -1 (and only then). *)
Theorem header_row_is_the_first_match (dir : string) (lines : list string) :
  (fst (get_header_row_index dir lines) = -1
   /\ snd (get_header_row_index dir lines) <> []
   /\ Forall (fun l => Str.startswith l "#Time (s)," = false) lines)
  \/ (exists k l,
         fst (get_header_row_index dir lines) = Z.of_nat k
         /\ (k < List.length lines)%nat
         /\ snd (get_header_row_index dir lines) = []
         /\ nth_error lines k = Some l
         /\ Str.startswith l "#Time (s)," = true
         /\ Forall (fun l => Str.startswith l "#Time (s)," = false)
                   (firstn k lines)).
Proof.
  unfold get_header_row_index.
  destruct (header_scan_spec dir lines 0)
    as [H | (k & l & Hn & Hp & Hk & Hl & Hbefore)].
  - left. exact H.
  - right. exists k, l. repeat split; auto.
    apply nth_error_Some. congruence.
Qed.

(** ** Strings *)

Lemma append_assoc_s (a b c : string) :
  ((a ++ b) ++ c = a ++ (b ++ c))%string.
Proof. induction a as [|x a IH]; cbn; [reflexivity|now rewrite IH]. Qed.

Lemma split_lacks_app (c : ascii) (p t : string) :
  Str.lacks c p = true ->
  Str.split c (p ++ String c t) = p :: Str.split c t.
Proof.
  induction p as [|x p IH]; cbn [Str.lacks String.append Str.split]; intros H.
  - now rewrite Ascii.eqb_refl.
  - apply andb_prop in H as [Hx Hp].
    apply negb_true_iff in Hx. rewrite Hx, (IH Hp). reflexivity.
Qed.

Lemma split_lacks (c : ascii) (p : string) :
  Str.lacks c p = true -> Str.split c p = [p].
Proof.
  induction p as [|x p IH]; cbn [Str.lacks Str.split]; intros H.
  - reflexivity.
  - apply andb_prop in H as [Hx Hp].
    apply negb_true_iff in Hx. rewrite Hx, (IH Hp). reflexivity.
Qed.

Lemma lacks_app (c : ascii) (a b : string) :
  Str.lacks c (a ++ b) = (Str.lacks c a && Str.lacks c b)%bool.
Proof.
  induction a as [|x a IH]; cbn [Str.lacks String.append]; [reflexivity|].
  now rewrite IH, andb_assoc.
Qed.

Lemma rstrip_space_end (s : string) (c : ascii) :
  Str.is_space c = true ->
  Str.rstrip (s ++ String c "") = Str.rstrip s.
Proof.
  intros Hc. induction s as [|x s IH]; cbn [String.append Str.rstrip].
  - now rewrite Hc.
  - now rewrite IH.
Qed.

Lemma rstrip_other_end (s : string) (c : ascii) :
  Str.is_space c = false ->
  Str.rstrip (s ++ String c "") = (s ++ String c "")%string.
Proof.
  intros Hc. induction s as [|x s IH]; cbn [String.append Str.rstrip].
  - now rewrite Hc.
  - rewrite IH. destruct s; reflexivity.
Qed.

Lemma replace_Hz_other (x : ascii) (s : string) :
  Ascii.eqb x "H" = false ->
  Str.replace_Hz (String x s) = String x (Str.replace_Hz s).
Proof.
  intros Hx.
  destruct x as [[] [] [] [] [] [] [] []]; try reflexivity.
  discriminate Hx.
Qed.

Lemma replace_Hz_end (d : string) :
  Str.lacks "H" d = true -> Str.replace_Hz (d ++ "Hz") = d.
Proof.
  induction d as [|x d IH]; cbn [Str.lacks String.append]; intros H.
  - reflexivity.
  - apply andb_prop in H as [Hx Hd]. apply negb_true_iff in Hx.
    rewrite (replace_Hz_other _ _ Hx), (IH Hd). reflexivity.
Qed.

Lemma endswith_iff (s p : string) :
  Str.endswith s p = true <-> exists q, s = (q ++ p)%string.
Proof.
  induction s as [|x s IH]; cbn [Str.endswith].
  - rewrite orb_false_r, String.eqb_eq. split.
    + intros <-. now exists "".
    + intros ([|y q] & E); [exact E|discriminate E].
  - rewrite orb_true_iff, String.eqb_eq, IH. split.
    + intros [<- | (q & ->)]; [now exists ""|now exists (String x q)].
    + intros ([|y q] & E); [left; exact E|].
      right. exists q. now inversion E.
Qed.

Lemma startswith_app (p s : string) : Str.startswith (p ++ s) p = true.
Proof.
  unfold Str.startswith. induction p as [|x p IH]; cbn.
  - now destruct s.
  - destruct (ascii_dec x x); [exact IH|congruence].
Qed.

(** ** [get_sampling_frequency_hz] and [convert_frequency_to_period] *)

(** The text [get_sampling_frequency_hz] hands to [float] for a line. *)
Lemma rate_text (d : string) :
  Str.lacks ":" d = true -> Str.lacks "H" d = true ->
  Str.replace_Hz (Str.rstrip (last (Str.split ":" (rate_line d)) ""))
  = String " " d.
Proof.
  intros Hc HH. unfold rate_line, LF.
  change ("#Sample rate: " ++ d ++ "Hz" ++ String "010" "")%string
    with ("#Sample rate" ++ String ":" (String " " (d ++ "Hz" ++ String "010" "")))%string.
  rewrite split_lacks_app by reflexivity.
  rewrite split_lacks
    by (cbn [Str.lacks]; rewrite lacks_app, Hc; reflexivity).
  cbn [last].
  replace (String " " (d ++ "Hz" ++ String "010" ""))%string
    with ((String " " (d ++ "H") ++ String "z" "") ++ String "010" "")%string
    by (cbn [String.append]; rewrite !append_assoc_s; reflexivity).
  rewrite rstrip_space_end, rstrip_other_end by reflexivity.
  cbn [String.append]. rewrite replace_Hz_other by reflexivity.
  rewrite append_assoc_s. cbn [String.append].
  now rewrite replace_Hz_end.
Qed.

Lemma sampling_skips (py_float : string -> option float) (dir : string)
  (before rest : list string) :
  Forall (fun l => Str.startswith l "#Sample rate: " = false) before ->
  get_sampling_frequency_hz py_float dir (before ++ rest)
  = get_sampling_frequency_hz py_float dir rest.
Proof.
  induction 1 as [|l before Hl _ IH]; cbn [app get_sampling_frequency_hz].
  - reflexivity.
  - now rewrite Hl.
Qed.

(** X8: the sampling period [main] computes.  With no line that starts with
    "#Sample rate: " the frequency is the sentinel -1.0 and the period is
    -1.0: a negative period, no error.  Otherwise the first such line alone
    decides, whatever follows it: text that [float] rejects stops the run
    there, a frequency equal to 0.0 stops it with ZeroDivisionError, and any
    other frequency [f] gives the period 1.0 / f. *)
Theorem period_of_a_capture (py_float : string -> option float) (dir : string)
  (before : list string) :
  Forall (fun l => Str.startswith l "#Sample rate: " = false) before ->
  (exists msg,
      get_sampling_frequency_hz py_float dir before = (Done (-1)%float, [Text msg])
      /\ period_of py_float dir before = Done (-1)%float)
  /\ forall l after,
      Str.startswith l "#Sample rate: " = true ->
      let text := Str.replace_Hz (Str.rstrip (last (Str.split ":" l) "")) in
      match py_float text with
      | None =>
          period_of py_float dir (before ++ l :: after) = Fail (FloatError text)
      | Some f =>
          get_sampling_frequency_hz py_float dir (before ++ l :: after)
          = (Done f, [FoundRate f])
          /\ period_of py_float dir (before ++ l :: after)
             = if (f =? 0)%float then Fail ZeroDivisionError
               else Done (1 / f)%float
      end.
Proof.
  intros Hbefore. split.
  - unfold period_of.
    pose proof (sampling_skips py_float dir before [] Hbefore) as E.
    rewrite app_nil_r in E. rewrite E. cbn [get_sampling_frequency_hz fst].
    eexists. split; reflexivity.
  - intros l after Hl text. unfold period_of.
    rewrite (sampling_skips _ _ _ _ Hbefore). cbn [get_sampling_frequency_hz].
    rewrite Hl. fold text.
    destruct (py_float text) as [f|]; cbn [fst]; [split|]; reflexivity.
Qed.

Lemma period_of_a_capture_witness :
  period_of (fun _ => Some 0%float) "run.csv" ["#Digilent"; rate_line "0"; "#Time (s),DIO 0"]
  = Fail ZeroDivisionError.
Proof.
  destruct (period_of_a_capture (fun _ => Some 0%float) "run.csv" ["#Digilent"])
    as (_ & Hline).
  - repeat constructor.
  - specialize (Hline (rate_line "0") ["#Time (s),DIO 0"] eq_refl).
    cbn beta iota zeta in Hline. destruct Hline as (_ & Hperiod).
    exact Hperiod.
Defined.

(** X9: what [float] is given.  For a line "#Sample rate: <d>Hz" that ends
    in a line feed, where [d] holds neither ':' nor 'H', the text converted
    is [d] behind the one space that follows the colon; the unit and the
    line feed are gone, and the lines after it are not read. *)
Theorem declared_rate_is_parsed (py_float : string -> option float)
  (dir d : string) (after : list string) :
  Str.lacks ":" d = true -> Str.lacks "H" d = true ->
  get_sampling_frequency_hz py_float dir (rate_line d :: after)
  = match py_float (String " " d) with
    | Some f => (Done f, [FoundRate f])
    | None => (Fail (FloatError (String " " d)), [])
    end.
Proof.
  intros Hc HH. cbn [get_sampling_frequency_hz].
  unfold rate_line at 1. rewrite startswith_app.
  now rewrite rate_text.
Qed.

Lemma declared_rate_is_parsed_witness :
  get_sampling_frequency_hz
    (fun s => if String.eqb s " 100000" then Some 100000%float else None)
    "run.csv" [rate_line "100000"; "#Time (s),DIO 0"]
  = (Done 100000%float, [FoundRate 100000%float]).
Proof.
  exact (declared_rate_is_parsed
           (fun s => if String.eqb s " 100000" then Some 100000%float else None)
           "run.csv" "100000" ["#Time (s),DIO 0"] eq_refl eq_refl).
Defined.

(** ** [output_updated_dataframe] *)

(** X10: [output_updated_dataframe] cuts the path at its FIRST '.', not at
    the extension: whatever follows the first dot is dropped, so a dot in a
    directory name moves the output there, and all the datasets under such
    a directory are written to one and the same file.  A path without a
    dot just gets "_new.csv" appended. *)
Theorem out_path_cuts_at_the_first_dot (stem : string) :
  Str.lacks "." stem = true ->
  out_path stem = (stem ++ "_new.csv")%string
  /\ forall rest, out_path (stem ++ String "." rest) = (stem ++ "_new.csv")%string.
Proof.
  intros H. unfold out_path. split.
  - now rewrite split_lacks.
  - intros rest. now rewrite split_lacks_app.
Qed.

Lemma out_path_cuts_at_the_first_dot_witness :
  out_path "/data/v1.2/rpi_cam/7/7_reduced.csv" = "/data/v1_new.csv"
  /\ out_path "/data/v1.2/rpi_cam/8/8_reduced.csv" = "/data/v1_new.csv".
Proof.
  destruct (out_path_cuts_at_the_first_dot "/data/v1" eq_refl) as (_ & H).
  split.
  - exact (H "2/rpi_cam/7/7_reduced.csv").
  - exact (H "2/rpi_cam/8/8_reduced.csv").
Defined.

(** ** [get_dataset_path] *)

(** X11: [get_dataset_path] keeps what the user typed only when it does NOT
    end in '/', and then appends the '/'; a path typed with its trailing
    '/', like the empty answer, is replaced by the default path. *)
Theorem typed_path_with_slash_is_dropped (default_path typed : string) :
  ((typed = "" \/ exists q, typed = (q ++ "/")%string) ->
   fst (get_dataset_path default_path typed) = default_path)
  /\ (typed <> "" -> (forall q, typed <> (q ++ "/")%string) ->
      fst (get_dataset_path default_path typed) = (typed ++ "/")%string).
Proof.
  unfold get_dataset_path. cbn [fst]. split.
  - intros [-> | Hq]; [reflexivity|].
    apply endswith_iff in Hq. rewrite Hq, andb_false_r. reflexivity.
  - intros Hne Hq.
    destruct (String.eqb typed "") eqn:E.
    + apply String.eqb_eq in E. contradiction.
    + destruct (Str.endswith typed "/") eqn:E2; [|reflexivity].
      apply endswith_iff in E2 as (q & ->). now destruct (Hq q).
Qed.

Lemma typed_path_with_slash_is_dropped_witness :
  fst (get_dataset_path "c:\users\thesis_datasets" "/home/feras/frames/")
  = "c:\users\thesis_datasets".
Proof.
  destruct (typed_path_with_slash_is_dropped
              "c:\users\thesis_datasets" "/home/feras/frames/") as (H & _).
  apply H. right. exists "/home/feras/frames". reflexivity.
Defined.

(** ** [_timer] *)

(** X12: [_timer] never measures anything.  It clears [_timer.t_i] at the
    top of every call, so through any history of calls, from any state,
    each start returns 0.0 and each stop returns -1.0: no call returns a
    duration. *)
Theorem timer_never_returns_a_duration (calls : list (bool * float))
  (t_i : option float) :
  timer_history calls t_i
  = map (fun c : bool * float => if fst c then 0%float else (-1)%float) calls.
Proof.
  revert t_i. induction calls as [|[start now] calls IH]; intros t_i.
  - reflexivity.
  - cbn [timer_history map fst]. unfold _timer.
    destruct start; cbn [fst]; now rewrite IH.
Qed.

(** * What a completed run returns *)

Lemma velocity_rows (df out : frame) :
  detect_angular_velocity df = Ok out ->
  exists vs, out = assign (fun v => set_velocity_deg_per_s (Some v)) df vs.
Proof.
  unfold detect_angular_velocity. intros H.
  invert_rbind H as a0 Ha0 H. invert_rbind H as angles Hangles H.
  invert_rbind H as t0 Ht0 H. invert_rbind H as timestamps Hts H.
  inversion H as [Hout]. clear.
  generalize (combine (combine angles (shift a0 angles))
                      (combine timestamps (shift t0 timestamps))).
  induction df as [|r df IH]; intros vs.
  - exists []. reflexivity.
  - destruct vs as [|[[a pa] [t pt]] vs].
    + exists []. reflexivity.
    + destruct (IH vs) as [vs' E].
      exists (track_angular_velocity a pa t pt :: vs'). cbn. now rewrite E.
Qed.

(** X13: every row a completed run returns is a sample at which nothing
    moved: its code equals the code before it, its changed flag is 0 and its
    direction is empty.  No row of the output of [main]'s pipeline carries
    "CW" or "CCW", whatever the capture. *)
Theorem completed_run_returns_dwell_samples
  (res period_s : float) (capture : list (float * Z * Z)) (w w' : world)
  (out : frame) :
  process_dataset res period_s capture w = (Ok out, w') ->
  Forall (fun r => change_occurred r = Some 0
                   /\ direction r = Some ""
                   /\ current_position_bitmask r <> None
                   /\ current_position_bitmask r = previous_position_bitmask r)
         out.
Proof.
  intros H. unfold process_dataset in H. cbv zeta in H.
  invert_bind H as df1 w1 Hdet H.
  invert_bind H as df2 w2 Hnorm H.
  invert_bind H as df3 w3 Hgen H.
  invert_bind H as df4 w4 Hdir H.
  invert_bind H as df5 w5 Hang H.
  invert_bind H as df6 w6 Htrim H. apply lift_ok in Htrim. destruct Htrim as [Htrim ->].
  invert_bind H as df7 w7 Hvel H. apply lift_ok in Hvel. destruct Hvel as [Hvel ->].
  inversion H; subst out w'. clear H Hdet Hnorm Hgen.
  pose proof (classifier_output_classified _ _ _ _ Hdir) as Hcl.
  pose proof (classifier_marks_code_changes _ _ _ _ Hdir) as Hcodes.
  rewrite (integrator_eq res df4 w4 Hcl) in Hang. inversion Hang as [[Hdf5 Hw5]].
  apply trim_keeps_unchanged in Htrim.
  apply velocity_rows in Hvel. destruct Hvel as [vs ->].
  set (dwell := fun r : row =>
                  change_occurred r = Some 0
                  /\ direction r = Some ""
                  /\ current_position_bitmask r <> None
                  /\ current_position_bitmask r = previous_position_bitmask r).
  apply Forall_assign with (P' := dwell).
  { intros v r Hr. exact Hr. }
  rewrite Htrim. apply Forall_forall. intros r Hr.
  apply filter_In in Hr. destruct Hr as [Hr Hch].
  apply negb_true_iff in Hch.
  assert (H5 : Forall (fun r => changed r = false -> dwell r) df5).
  { rewrite <- Hdf5.
    apply Forall_assign with (P' := fun r => changed r = false -> dwell r).
    { intros a r0 Hr0. exact Hr0. }
    apply Forall_forall. intros r0 Hr0 Hch0.
    rewrite Forall_forall in Hcl, Hcodes.
    destruct (Hcodes r0 Hr0) as (cur & prev & Hcur & Hprev & Hflag).
    rewrite Hch0 in Hflag. symmetry in Hflag.
    apply negb_false_iff, String.eqb_eq in Hflag. subst prev.
    destruct (Hcl r0 Hr0) as [[Hc Hd] | (ch & Hc & Hne & _)].
    - repeat split; [exact Hc|exact Hd|congruence|congruence].
    - unfold changed in Hch0. rewrite Hc in Hch0.
      apply negb_false_iff, Z.eqb_eq in Hch0. contradiction. }
  rewrite Forall_forall in H5. exact (H5 r Hr Hch).
Qed.

Lemma completed_run_returns_dwell_samples_witness :
  exists out,
    fst (process_dataset 4%float 1%float scenario world0) = Ok out
    /\ map label out = [0; 1]
    /\ Forall (fun r => change_occurred r = Some 0
                        /\ direction r = Some ""
                        /\ current_position_bitmask r <> None
                        /\ current_position_bitmask r = previous_position_bitmask r)
              out.
Proof.
  destruct (process_dataset 4%float 1%float scenario world0)
    as [[out|e] w'] eqn:Hrun.
  - exists out. split; [reflexivity|]. split.
    + assert (Hc : match fst (process_dataset 4%float 1%float scenario world0) with
                   | Ok df => map label df
                   | Raise _ => []
                   end = [0; 1]) by (vm_compute; reflexivity).
      rewrite Hrun in Hc. exact Hc.
    + exact (completed_run_returns_dwell_samples 4%float 1%float scenario
               world0 w' out Hrun).
  - exfalso.
    assert (Hc : match fst (process_dataset 4%float 1%float scenario world0) with
                 | Ok _ => true
                 | Raise _ => false
                 end = true) by (vm_compute; reflexivity).
    rewrite Hrun in Hc. discriminate.
Defined.

(** * Exchanging the two channels *)

Lemma Forall2_nth {A B} (R : A -> B -> Prop) (l : list A) (l' : list B)
  (i : nat) (x : A) (y : B) :
  Forall2 R l l' -> nth_error l i = Some x -> nth_error l' i = Some y -> R x y.
Proof.
  intros H. revert i. induction H as [|a b l l' Hab _ IH]; intros [|i] Hx Hy;
    cbn in Hx, Hy; try discriminate.
  - inversion Hx; inversion Hy; subst. exact Hab.
  - eapply IH; eassumption.
Qed.

Lemma Forall2_through_map {A B C} (f : A -> A) (R : A -> B -> Prop)
  (R' : A -> C -> Prop) (l : list A) (l1 : list B) (l2 : list C) :
  Forall2 R l l1 -> Forall2 R' (map f l) l2 ->
  Forall2 (fun x y => exists s, R s x /\ R' (f s) y) l1 l2.
Proof.
  intros H. revert l2. induction H as [|a b l l1 Hab _ IH]; intros l2 H2;
    inversion H2; subst; constructor; eauto.
Qed.

Lemma exchange_code (a b : Z) :
  is_bit a -> is_bit b ->
  In (bitmask_of (Z.lor (Z.shiftl a 1) b)) bitmask_cw_pattern
  /\ bitmask_of (Z.lor (Z.shiftl b 1) a)
     = exchange (bitmask_of (Z.lor (Z.shiftl a 1) b)).
Proof.
  intros [-> | ->] [-> | ->]; vm_compute; auto 6.
Qed.

Lemma with_codes_mirrored (r0 r0' : row) (rest rest' : frame) :
  Forall2 (fun r r' => is_bit (chan_a r) /\ is_bit (chan_b r)
                       /\ chan_a r' = chan_b r /\ chan_b r' = chan_a r)
          (r0 :: rest) (r0' :: rest') ->
  Forall2 mirrored_codes (with_codes r0 rest) (with_codes r0' rest').
Proof.
  intros H. apply Forall2_of_nth.
  - rewrite !length_with_codes. exact (Forall2_length H).
  - intros i x y Hx Hy.
    apply with_codes_nth in Hx. destruct Hx as (r & sa & sb & Hr & -> & Hprev).
    apply with_codes_nth in Hy. destruct Hy as (r' & sa' & sb' & Hr' & -> & Hprev').
    destruct (Forall2_nth _ _ _ _ _ _ H Hr Hr') as (Ha & Hb & Ea & Eb).
    assert (Hp : is_bit sa /\ is_bit sb /\ sa' = sb /\ sb' = sa).
    { destruct i as [|j].
      - destruct Hprev as [-> ->]. destruct Hprev' as [-> ->].
        inversion H as [|? ? ? ? (Ha0 & Hb0 & Ea0 & Eb0) _]; subst. auto.
      - destruct Hprev as (p & Hp & -> & ->).
        destruct Hprev' as (p' & Hp' & -> & ->).
        destruct (Forall2_nth _ _ _ _ _ _ H Hp Hp') as (? & ? & ? & ?). auto. }
    destruct Hp as (Hsa & Hsb & -> & ->).
    unfold code_of. rewrite Ea, Eb.
    destruct (exchange_code _ _ Ha Hb) as [Hin ->].
    destruct (exchange_code _ _ Hsa Hsb) as [Hinp ->].
    eexists. eexists. cbn. repeat split; assumption.
Qed.

Lemma mark_changes_mirrored (df df' df1 : frame) :
  Forall2 mirrored_codes df df' ->
  mark_changes df = Ok df1 ->
  exists df1',
    mark_changes df' = Ok df1'
    /\ Forall2 (fun r r' => mirrored_codes r r'
                            /\ change_occurred r' = change_occurred r
                            /\ (change_occurred r = Some 0
                                \/ change_occurred r = Some 1)) df1 df1'.
Proof.
  intros H. revert df1. induction H as [|r r' l l' Hr _ IH]; intros df1 Hm.
  - inversion Hm. exists []. split; [reflexivity|constructor].
  - cbn [mark_changes] in Hm |- *.
    invert_rbind Hm as r1 Hr1 Hm. invert_rbind Hm as l1 Hl1 Hm.
    inversion Hm; subst df1.
    destruct (IH l1 Hl1) as (l1' & -> & Hrest).
    destruct Hr as (c & p & Hc & Hp & Hcur & Hprev & Hcur' & Hprev').
    unfold mark_change, col in Hr1 |- *.
    rewrite Hcur, Hprev in Hr1. rewrite Hcur', Hprev'.
    cbn [rbind] in Hr1 |- *. inversion Hr1; subst r1.
    eexists. split; [reflexivity|]. constructor; [|exact Hrest].
    assert (Heq : String.eqb (exchange c) (exchange p) = String.eqb c p).
    { cbn in Hc, Hp.
      destruct Hc as [<- | [<- | [<- | [<- | []]]]];
        destruct Hp as [<- | [<- | [<- | [<- | []]]]]; reflexivity. }
    rewrite Heq. split; [|split].
    + exists c, p. cbn. auto 8.
    + reflexivity.
    + cbn. destruct (String.eqb c p); auto.
Qed.

Lemma check_direction_mirrored (r r' : row) (w w1 w' : world) (d : string) :
  mirrored_codes r r' ->
  change_occurred r' = change_occurred r ->
  change_occurred r = Some 0 \/ change_occurred r = Some 1 ->
  check_direction r w = (Ok d, w1) ->
  exists w1', check_direction r' w' = (Ok (opposite d), w1').
Proof.
  intros (c & p & Hc & Hp & Hcur & Hprev & Hcur' & Hprev') Hch' Hch H.
  apply (f_equal fst) in H. cbn [fst] in H.
  assert (Hgoal : fst (check_direction r' w') = Ok (opposite d)).
  { revert H. unfold check_direction, bind, lift, col.
    rewrite Hcur, Hprev, Hcur', Hprev', Hch'.
    cbn in Hc, Hp.
    destruct Hc as [<- | [<- | [<- | [<- | []]]]];
      destruct Hp as [<- | [<- | [<- | [<- | []]]]];
      destruct Hch as [-> | ->];
      simpl; intros H; inversion H; try reflexivity;
      destruct (timestamp_normalized_s r); discriminate. }
  destruct (check_direction r' w') as [res w1']. exists w1'.
  cbn [fst] in Hgoal. now rewrite Hgoal.
Qed.

Lemma classifier_mirrored_rows (df1 df1' : frame) :
  Forall2 (fun r r' => mirrored_codes r r'
                       /\ change_occurred r' = change_occurred r
                       /\ (change_occurred r = Some 0
                           \/ change_occurred r = Some 1)) df1 df1' ->
  forall (w w' w1 : world) (out : frame),
    apply_assign check_direction (fun d => set_direction (Some d)) df1 w
    = (Ok out, w1) ->
    exists out' w1',
      apply_assign check_direction (fun d => set_direction (Some d)) df1' w'
      = (Ok out', w1')
      /\ Forall2 mirrored out out'.
Proof.
  induction 1 as [|r r' l l' (Hcodes & Hch' & Hch) _ IH]; intros w w' w1 out H.
  - cbn in H. inversion H. exists [], w'. split; [reflexivity|constructor].
  - rewrite apply_assign_cons in H |- *.
    destruct (check_direction r w) as [[d|e] wa] eqn:Hd; [|discriminate].
    destruct (check_direction_mirrored r r' w wa w' d Hcodes Hch' Hch Hd)
      as (wa' & ->).
    destruct (apply_assign check_direction _ l wa) as [[tl|e] wb] eqn:Htl;
      [|discriminate].
    destruct (IH wa wa' wb tl Htl) as (tl' & wb' & -> & Hrest).
    inversion H; subst out w1.
    eexists. eexists. split; [reflexivity|].
    constructor; [|exact Hrest]. split; cbn; [exact Hch'|reflexivity].
Qed.

(** X14: exchanging the two channels reverses the sense of rotation.  For
    a capture of bits that the classifier accepts, the capture with its
    channel columns exchanged is accepted too, from any world, and sample by
    sample it has the same changed flag and the opposite direction: "CW"
    where the original has "CCW", "CCW" where it has "CW", empty where it is
    empty. *)
Theorem exchanged_channels_reverse_the_direction
  (period_s : float) (capture : list (float * Z * Z)) (w w4 w' : world)
  (df4 : frame) :
  Forall (fun s => is_bit (snd (fst s)) /\ is_bit (snd s)) capture ->
  classify period_s capture w = (Ok df4, w4) ->
  exists df4' w4',
    classify period_s (swap_channels capture) w' = (Ok df4', w4')
    /\ Forall2 mirrored df4 df4'.
Proof.
  intros Hbits Hcl.
  destruct capture as [|[[t0 a0] b0] rest].
  { cbv in Hcl. discriminate Hcl. }
  cbn [swap_channels map fst snd].
  destruct (stages_1_to_3 period_s t0 a0 b0 rest w)
    as (r2 & tl2 & w1 & _ & Hrows & Hrun).
  destruct (stages_1_to_3 period_s t0 b0 a0
              (map (fun s => (fst (fst s), snd s, snd (fst s))) rest) w')
    as (r2' & tl2' & w1' & _ & Hrows' & Hrun').
  unfold classify in Hcl |- *. cbv zeta in Hcl |- *.
  rewrite Hrun in Hcl. rewrite Hrun'.
  assert (Hpairs : Forall2 (fun r r' => is_bit (chan_a r) /\ is_bit (chan_b r)
                                        /\ chan_a r' = chan_b r
                                        /\ chan_b r' = chan_a r)
                           (r2 :: tl2) (r2' :: tl2')).
  { change ((t0, b0, a0) :: map (fun s => (fst (fst s), snd s, snd (fst s))) rest)
      with (map (fun s : float * Z * Z => (fst (fst s), snd s, snd (fst s)))
                ((t0, a0, b0) :: rest)) in Hrows'.
    pose proof (Forall2_through_map _ _ _ _ _ _ Hrows Hrows') as Hboth.
    assert (Hbits2 : Forall (fun r => is_bit (chan_a r) /\ is_bit (chan_b r))
                            (r2 :: tl2)).
    { eapply Forall2_transfer; [|exact Hrows|exact Hbits].
      intros s r (Ha & Hb & _) [Hsa Hsb]. rewrite Ha, Hb. auto. }
    clear - Hboth Hbits2.
    induction Hboth as [|r r' l l' (s & (Ha & Hb & _) & (Ha' & Hb' & _)) _ IH];
      constructor.
    - inversion Hbits2 as [|? ? [Hra Hrb] _]; subst.
      cbn in Ha', Hb'. repeat split; congruence.
    - apply IH. inversion Hbits2; assumption. }
  apply with_codes_mirrored in Hpairs.
  unfold detect_direction_of_motion in Hcl |- *.
  invert_bind Hcl as u wa Hset Hcl. invert_bind Hcl as df1 wb Hmark Hcl.
  apply lift_ok in Hmark. destruct Hmark as [Hmark ->].
  destruct (mark_changes_mirrored _ _ _ Hpairs Hmark) as (df1' & Hmark' & Hrel).
  unfold bind at 1. cbn [set_current_direction].
  unfold bind at 1, lift at 1. rewrite Hmark'.
  eapply classifier_mirrored_rows; eassumption.
Qed.

Lemma exchanged_channels_reverse_the_direction_witness :
  exists df4 df4',
    fst (classify 1%float scenario world0) = Ok df4
    /\ fst (classify 1%float (swap_channels scenario) world0) = Ok df4'
    /\ map direction df4
       = [Some ""; Some ""; Some "CW"; Some "CW"; Some "CW"; Some "CW"]
    /\ Forall2 mirrored df4 df4'.
Proof.
  destruct (classify 1%float scenario world0) as [[df4|e] w4] eqn:Hrun.
  - assert (Hbits : Forall (fun s : float * Z * Z =>
                              is_bit (snd (fst s)) /\ is_bit (snd s)) scenario).
    { unfold scenario, is_bit.
      repeat (apply Forall_cons; [cbn; auto|]). apply Forall_nil. }
    destruct (exchanged_channels_reverse_the_direction
                1%float scenario world0 w4 world0 df4 Hbits Hrun)
      as (df4' & w4' & Hrun' & Hmirror).
    exists df4, df4'. rewrite Hrun'. repeat split; try assumption.
    assert (Hd : match fst (classify 1%float scenario world0) with
                 | Ok df => map direction df
                 | Raise _ => []
                 end
                 = [Some ""; Some ""; Some "CW"; Some "CW"; Some "CW"; Some "CW"])
      by (vm_compute; reflexivity).
    rewrite Hrun in Hd. exact Hd.
  - exfalso.
    assert (Hc : match fst (classify 1%float scenario world0) with
                 | Ok _ => true
                 | Raise _ => false
                 end = true) by (vm_compute; reflexivity).
    rewrite Hrun in Hc. discriminate.
Defined.

(** * The pipeline never looks ahead *)

Lemma load_from_app (i : Z) (c e : list (float * Z * Z)) :
  load_from i (c ++ e)
  = load_from i c ++ load_from (i + Z.of_nat (List.length c)) e.
Proof.
  revert i. induction c as [|s c IH]; intros i.
  - cbn. now rewrite Z.add_0_r.
  - cbn [app load_from List.length]. rewrite IH.
    replace (i + 1 + Z.of_nat (List.length c))
      with (i + Z.of_nat (S (List.length c))) by lia.
    reflexivity.
Qed.

Lemma shift_prefix {A} (fill x : A) (l m : list A) :
  exists m',
    shift fill ((x :: l) ++ m) = shift fill (x :: l) ++ m'
    /\ List.length m' = List.length m.
Proof.
  destruct m as [|y m].
  - exists []. now rewrite !app_nil_r.
  - exists (last (x :: l) fill :: removelast (y :: m)). split.
    + assert (E : x :: l = removelast (x :: l) ++ [last (x :: l) fill])
        by (apply app_removelast_last; discriminate).
      transitivity (fill :: (x :: l) ++ removelast (y :: m)).
      * unfold shift. cbn [app]. f_equal.
        change (x :: l ++ y :: m) with ((x :: l) ++ y :: m).
        rewrite removelast_app by discriminate. reflexivity.
      * rewrite E at 1. unfold shift. rewrite <- app_assoc. reflexivity.
    + cbn [List.length]. now rewrite length_removelast_cons.
Qed.

Lemma combine_prefix {A B} (l1 m1 : list A) (l2 m2 : list B) :
  List.length l1 = List.length l2 ->
  combine (l1 ++ m1) (l2 ++ m2) = combine l1 l2 ++ combine m1 m2.
Proof.
  revert l2. induction l1 as [|x l1 IH]; intros [|y l2] H;
    cbn in H; try discriminate; cbn [app combine].
  - reflexivity.
  - f_equal. apply IH. congruence.
Qed.

Lemma assign_prefix {A} (set : A -> row -> row) (df df' : frame)
  (vs vs' : list A) :
  List.length vs = List.length df ->
  assign set (df ++ df') (vs ++ vs') = assign set df vs ++ assign set df' vs'.
Proof.
  revert vs. induction df as [|r df IH]; intros [|v vs] H;
    cbn in H; try discriminate; cbn [app assign].
  - reflexivity.
  - f_equal. apply IH. congruence.
Qed.

Lemma column_prefix {A} name (f : row -> option A) (df m : frame) (vs : list A) :
  column name f (df ++ m) = Ok vs ->
  exists v1 v2,
    column name f df = Ok v1 /\ vs = v1 ++ v2
    /\ List.length v1 = List.length df /\ List.length v2 = List.length m.
Proof.
  revert vs. induction df as [|r df IH]; intros vs H.
  - exists [], vs. repeat split.
    apply column_ok in H. apply (f_equal (@List.length _)) in H.
    rewrite !length_map in H. cbn [app] in H. congruence.
  - cbn [app column] in H |- *.
    invert_rbind H as v Hv H. invert_rbind H as vs' Hvs H. inversion H; subst vs.
    destruct (IH vs' Hvs) as (v1 & v2 & -> & -> & Hl1 & Hl2).
    rewrite Hv. cbn [rbind].
    exists (v :: v1), v2. repeat split; cbn [List.length]; congruence.
Qed.

Lemma apply_assign_prefix {A} (f : row -> M A) (set : A -> row -> row)
  (df m out' : frame) (w w' : world) :
  apply_assign f set (df ++ m) w = (Ok out', w') ->
  exists out w1 more,
    apply_assign f set df w = (Ok out, w1) /\ out' = out ++ more.
Proof.
  revert w w' out'. induction df as [|r df IH]; intros w w' out' H.
  - exists [], w, out'. split; reflexivity.
  - cbn [app] in H. rewrite apply_assign_cons in H |- *.
    destruct (f r w) as [[v|e] wa]; [|discriminate].
    destruct (apply_assign f set (df ++ m) wa) as [[tl|e] wb] eqn:Htl;
      [|discriminate].
    destruct (IH wa wb tl Htl) as (out & w1 & more & -> & ->).
    inversion H. eexists. eexists. exists more. split; reflexivity.
Qed.

Lemma mark_changes_prefix (df m out' : frame) :
  mark_changes (df ++ m) = Ok out' ->
  exists out more, mark_changes df = Ok out /\ out' = out ++ more.
Proof.
  revert out'. induction df as [|r df IH]; intros out' H.
  - exists [], out'. split; reflexivity.
  - cbn [app mark_changes] in H |- *.
    invert_rbind H as r' Hr H. invert_rbind H as tl Htl H. inversion H.
    destruct (IH tl Htl) as (out & more & -> & ->).
    rewrite Hr. cbn [rbind]. eexists. exists more. split; reflexivity.
Qed.

Lemma trim_prefix (df m out' : frame) :
  trim_redundant_data_points (df ++ m) = Ok out' ->
  exists out more,
    trim_redundant_data_points df = Ok out /\ out' = out ++ more.
Proof.
  revert out'. induction df as [|r df IH]; intros out' H.
  - exists [], out'. split; reflexivity.
  - cbn [app trim_redundant_data_points] in H |- *.
    invert_rbind H as ch Hch H. invert_rbind H as tl Htl H. inversion H.
    destruct (IH tl Htl) as (out & more & -> & ->).
    rewrite Hch. cbn [rbind].
    destruct (ch =? 0); eexists; exists more; split; reflexivity.
Qed.

Lemma with_codes_prefix (r0 : row) (rest m : frame) :
  exists more, with_codes r0 (rest ++ m) = with_codes r0 rest ++ more.
Proof.
  unfold with_codes.
  change (r0 :: rest ++ m) with ((r0 :: rest) ++ m). rewrite !map_app.
  cbn [map].
  destruct (shift_prefix (chan_a r0) (chan_a r0) (map chan_a rest) (map chan_a m))
    as (ma & -> & Hla).
  destruct (shift_prefix (chan_b r0) (chan_b r0) (map chan_b rest) (map chan_b m))
    as (mb & -> & Hlb).
  rewrite combine_prefix by (rewrite !length_shift; cbn; now rewrite !length_map).
  change (set_current_position_bitmask (Some (code_of r0)) r0
          :: map (fun r => set_current_position_bitmask (Some (code_of r)) r) rest
             ++ map (fun r => set_current_position_bitmask (Some (code_of r)) r) m)
    with ((set_current_position_bitmask (Some (code_of r0)) r0
           :: map (fun r => set_current_position_bitmask (Some (code_of r)) r) rest)
          ++ map (fun r => set_current_position_bitmask (Some (code_of r)) r) m).
  rewrite assign_prefix.
  - eexists. reflexivity.
  - rewrite length_combine, !length_shift. cbn [List.length].
    rewrite !length_map. lia.
Qed.

Lemma classifier_prefix (df m out' : frame) (w w' w0 : world) :
  detect_direction_of_motion (df ++ m) w = (Ok out', w') ->
  exists out w1 more,
    detect_direction_of_motion df w0 = (Ok out, w1) /\ out' = out ++ more.
Proof.
  intros H.
  assert (Hsame : exists out w1 more,
             detect_direction_of_motion df w = (Ok out, w1)
             /\ out' = out ++ more).
  { unfold detect_direction_of_motion in H |- *.
    invert_bind H as u wa Hset H. invert_bind H as df1 wb Hmark H.
    apply lift_ok in Hmark. destruct Hmark as [Hmark ->].
    destruct (mark_changes_prefix _ _ _ Hmark) as (d1 & m1 & Hd1 & ->).
    destruct (apply_assign_prefix _ _ _ _ _ _ _ H) as (out & w1 & more & Hout & ->).
    exists out, w1, more. split; [|reflexivity].
    rewrite (bind_run _ _ _ _ _ Hset).
    unfold bind at 1, lift at 1. rewrite Hd1. exact Hout. }
  destruct Hsame as (out & w1 & more & Hrun & ->).
  destruct (classifier_blind df w w0 I) as [Hfst _].
  rewrite Hrun in Hfst. cbn [fst] in Hfst.
  destruct (detect_direction_of_motion df w0) as [res w2].
  cbn [fst] in Hfst. subst res. eauto.
Qed.

Lemma integrator_prefix (res : float) (df m out' : frame) (w w' w0 : world) :
  detect_change_in_angular_position res (df ++ m) w = (Ok out', w') ->
  exists out w1 more,
    detect_change_in_angular_position res df w0 = (Ok out, w1)
    /\ out' = out ++ more.
Proof.
  intros H.
  assert (Hsame : exists out w1 more,
             detect_change_in_angular_position res df w = (Ok out, w1)
             /\ out' = out ++ more).
  { unfold detect_change_in_angular_position in H |- *.
    invert_bind H as u wa Hset H. invert_bind H as u' wb Hset' H.
    invert_bind H as df5 wc Happ H.
    invert_bind H as u2 wd Hr1 H. invert_bind H as u3 we Hr2 H.
    inversion H; subst out' w'.
    destruct (apply_assign_prefix _ _ _ _ _ _ _ Happ) as (out & w1 & more & Hout & ->).
    exists out. eexists. exists more. split; [|reflexivity].
    rewrite (bind_run _ _ _ _ _ Hset), (bind_run _ _ _ _ _ Hset'),
      (bind_run _ _ _ _ _ Hout).
    reflexivity. }
  destruct Hsame as (out & w1 & more & Hrun & ->).
  destruct (integrator_blind res df w w0 I) as [Hfst _].
  rewrite Hrun in Hfst. cbn [fst] in Hfst.
  destruct (detect_change_in_angular_position res df w0) as [r w2].
  cbn [fst] in Hfst. subst r. eauto.
Qed.

Lemma velocity_prefix (r0 : row) (tl m out' : frame) :
  label r0 = 0 ->
  detect_angular_velocity ((r0 :: tl) ++ m) = Ok out' ->
  exists out more,
    detect_angular_velocity (r0 :: tl) = Ok out /\ out' = out ++ more.
Proof.
  intros H0 H. unfold detect_angular_velocity in H |- *.
  cbn [app] in H. rewrite !at0_head in H |- * by exact H0.
  invert_rbind H as a0 Ha0 H. invert_rbind H as angles Hangles H.
  invert_rbind H as t0 Ht0 H. invert_rbind H as timestamps Hts H.
  change (r0 :: tl ++ m) with ((r0 :: tl) ++ m) in Hangles, Hts, H.
  destruct (column_prefix _ _ _ _ _ Hangles) as (as1 & as2 & Has1 & -> & Hla1 & Hla2).
  destruct (column_prefix _ _ _ _ _ Hts) as (ts1 & ts2 & Hts1 & -> & Hlt1 & Hlt2).
  rewrite Ha0, Has1, Ht0, Hts1. cbn [rbind].
  destruct as1 as [|x as1]; [discriminate Hla1|].
  destruct ts1 as [|y ts1]; [discriminate Hlt1|].
  destruct (shift_prefix a0 x as1 as2) as (ma & Ea & Hma).
  destruct (shift_prefix t0 y ts1 ts2) as (mt & Et & Hmt).
  rewrite Ea, Et in H.
  rewrite !combine_prefix in H
    by (rewrite ?length_combine, ?length_shift; cbn [List.length] in *; lia).
  rewrite assign_prefix in H
    by (rewrite !length_combine, !length_shift; cbn [List.length] in *; lia).
  inversion H. eexists. eexists. split; reflexivity.
Qed.

Lemma stages_1_to_3_prefix (period_s t0 : float) (a0 b0 : Z)
  (rest extra : list (float * Z * Z)) (w : world) :
  exists df1 r2 tl2 w1 m3 w1',
    detect_initial_stable_angular_position
      (read_csv ((t0, a0, b0) :: rest)) period_s w = (Ok df1, w1)
    /\ normalize_timestamps df1 period_s = Ok (r2 :: tl2)
    /\ generate_encoder_position_bitmask (r2 :: tl2) = Ok (with_codes r2 tl2)
    /\ forall B (k : frame -> M B),
        bind (detect_initial_stable_angular_position
                (read_csv (((t0, a0, b0) :: rest) ++ extra)) period_s)
             (fun df => bind (lift (normalize_timestamps df period_s))
                          (fun df => bind (lift (generate_encoder_position_bitmask df))
                                       k)) w
        = k (with_codes r2 tl2 ++ m3) w1'.
Proof.
  pose proof (detector_eq period_s t0 a0 b0 rest w) as Hdet. cbv zeta in Hdet.
  pose proof (detector_eq period_s t0 a0 b0 (rest ++ extra) w) as Hdet'.
  cbv zeta in Hdet'.
  set (g := fun r => set_matches_initial_position (Some (matches_entry a0 b0 r)) r)
    in *.
  set (h := fun r => set_timestamp_normalized_s (Some (time_s r - t0)%float) r).
  set (r2 := h (g (raw_row 0 (t0, a0, b0)))).
  set (tl2 := map h (map g (load_from (0 + 1) rest))).
  destruct (with_codes_prefix r2 tl2
              (map h (map g (load_from (0 + 1 + Z.of_nat (List.length rest)) extra))))
    as (m3 & Hm3).
  eexists. exists r2, tl2. eexists. exists m3. eexists.
  split; [exact Hdet|]. split; [|split].
  - unfold normalize_timestamps. cbn [read_csv load_from map].
    rewrite at0_head by reflexivity. reflexivity.
  - apply generate_eq. reflexivity.
  - intros B k. cbn [app]. rewrite (bind_run _ _ _ _ _ Hdet').
    unfold normalize_timestamps. cbn [read_csv load_from map].
    rewrite at0_head by reflexivity.
    cbn [col rbind time_s set_matches_initial_position raw_row g].
    rewrite bind_lift_ok. cbn [map].
    rewrite generate_eq by reflexivity. rewrite bind_lift_ok.
    rewrite load_from_app, !map_app. rewrite <- Hm3. reflexivity.
Qed.

(** X15: the pipeline never looks ahead.  If it completes on a capture
    that continues a non-empty capture, it completes on that capture alone,
    from any world, and returns the same rows: what it returns for the
    longer capture is what it returns for the shorter one, followed by more
    rows.  No sample that comes later changes a row computed before; and a
    capture on which it raises cannot be rescued by more samples. *)
Theorem later_samples_leave_earlier_rows
  (res period_s : float) (s : float * Z * Z) (rest extra : list (float * Z * Z))
  (w w' w0 : world) (out' : frame) :
  process_dataset res period_s ((s :: rest) ++ extra) w = (Ok out', w') ->
  exists out w1 more,
    process_dataset res period_s (s :: rest) w0 = (Ok out, w1)
    /\ out' = out ++ more.
Proof.
  destruct s as [[t0 a0] b0]. intros H.
  assert (Hsame : exists out w1 more,
             process_dataset res period_s ((t0, a0, b0) :: rest) w = (Ok out, w1)
             /\ out' = out ++ more).
  { destruct (stages_1_to_3_prefix period_s t0 a0 b0 rest extra w)
      as (df1 & r2 & tl2 & w1 & m3 & w1' & Hdet & Hnorm & Hgen & Hrun').
    unfold process_dataset in H |- *. cbv zeta in H |- *.
    rewrite Hrun' in H.
    invert_bind H as df4' w4' Hdir' H.
    invert_bind H as df5' w5' Hang' H.
    invert_bind H as df6' w6' Htrim' H.
    apply lift_ok in Htrim'. destruct Htrim' as [Htrim' ->].
    invert_bind H as df7' w7' Hvel' H.
    apply lift_ok in Hvel'. destruct Hvel' as [Hvel' ->].
    inversion H; subst out' w'. clear H.
    destruct (classifier_prefix _ _ _ _ _ w1 Hdir') as (df4 & w4 & m4 & Hdir & ->).
    destruct (integrator_prefix _ _ _ _ _ _ w4 Hang') as (df5 & w5 & m5 & Hang & ->).
    destruct (trim_prefix _ _ _ Htrim') as (df6 & m6 & Htrim & ->).
    destruct (head_after_integrator res period_s t0 a0 b0 rest
                w w1 w1 w4 w4 w5 _ _ _ _ _ Hdet Hnorm Hgen Hdir Hang)
      as (r & tl & Hdf5 & Hl & _ & _ & Hch).
    rewrite Hdf5 in Htrim.
    destruct (trim_head r tl df6 Hch Htrim) as (tl6 & ->).
    destruct (velocity_prefix r tl6 m6 df7' Hl Hvel') as (df7 & m7 & Hvel & ->).
    exists df7, w5, m7. split; [|reflexivity].
    rewrite (bind_run _ _ _ _ _ Hdet).
    unfold bind at 1, lift at 1. rewrite Hnorm.
    unfold bind at 1, lift at 1. rewrite Hgen.
    rewrite (bind_run _ _ _ _ _ Hdir), (bind_run _ _ _ _ _ Hang).
    rewrite <- Hdf5 in Htrim.
    unfold bind at 1, lift at 1. rewrite Htrim.
    unfold bind at 1, lift at 1. rewrite Hvel.
    reflexivity. }
  destruct Hsame as (out & w1 & more & Hrun & ->).
  destruct (process_dataset_blind res period_s ((t0, a0, b0) :: rest) w w0 I)
    as [Hfst _].
  rewrite Hrun in Hfst. cbn [fst] in Hfst.
  destruct (process_dataset res period_s ((t0, a0, b0) :: rest) w0) as [r w2].
  cbn [fst] in Hfst. subst r. eauto.
Qed.

Lemma later_samples_leave_earlier_rows_witness :
  exists out out' more,
    fst (process_dataset 4%float 1%float scenario world0) = Ok out'
    /\ fst (process_dataset 4%float 1%float (firstn 3 scenario) world0) = Ok out
    /\ out' = out ++ more.
Proof.
  destruct (process_dataset 4%float 1%float scenario world0)
    as [[out'|e] w'] eqn:Hrun.
  - destruct (later_samples_leave_earlier_rows 4%float 1%float
                (hd (0%float, 0, 0) scenario) (firstn 2 (tl scenario))
                (skipn 3 scenario) world0 w' world0 out' Hrun)
      as (out & w1 & more & Hshort & Hout).
    exists out, out', more. split; [reflexivity|]. split; [|exact Hout].
    change (firstn 3 scenario)
      with (hd (0%float, 0, 0) scenario :: firstn 2 (tl scenario)).
    now rewrite Hshort.
  - exfalso.
    assert (Hc : match fst (process_dataset 4%float 1%float scenario world0) with
                 | Ok _ => true
                 | Raise _ => false
                 end = true) by (vm_compute; reflexivity).
    rewrite Hrun in Hc. discriminate.
Defined.

(** * The frame-rate histogram *)

Lemma count_keys (ts : string) (d : list (string * Z)) (k : string) :
  In k (map fst (GetFps.count ts d)) <-> k = ts \/ In k (map fst d).
Proof.
  induction d as [|[k0 n0] d IH]; cbn [GetFps.count map fst In].
  - intuition.
  - destruct (String.eqb ts k0) eqn:E; cbn [map fst In].
    + apply String.eqb_eq in E. subst. intuition.
    + rewrite IH. intuition.
Qed.

Lemma count_nodup (ts : string) (d : list (string * Z)) :
  NoDup (map fst d) -> NoDup (map fst (GetFps.count ts d)).
Proof.
  induction d as [|[k0 n0] d IH]; cbn [GetFps.count map fst]; intros H.
  - constructor; [intros []|constructor].
  - inversion H as [|? ? Hk0 Hd]; subst.
    destruct (String.eqb ts k0) eqn:E; cbn [map fst].
    + constructor; assumption.
    + constructor; [|apply IH; exact Hd].
      rewrite count_keys. intros [-> | Hin]; [|contradiction].
      rewrite String.eqb_refl in E. discriminate.
Qed.

Lemma count_items (ts : string) (d : list (string * Z)) (k : string) (n : Z) :
  NoDup (map fst d) ->
  In (k, n) (GetFps.count ts d) ->
  (k <> ts /\ In (k, n) d)
  \/ (k = ts /\ In (ts, n - 1) d)
  \/ (k = ts /\ n = 1 /\ ~ In ts (map fst d)).
Proof.
  induction d as [|[k0 n0] d IH]; cbn [GetFps.count map fst]; intros Hnd H.
  - destruct H as [H | []]. inversion H; subst. right. right. auto.
  - inversion Hnd as [|? ? Hk0 Hd]; subst.
    destruct (String.eqb ts k0) eqn:E.
    + apply String.eqb_eq in E. subst k0.
      destruct H as [H | H].
      * inversion H; subst. right. left. split; [reflexivity|].
        left. f_equal. lia.
      * left. split; [|right; exact H].
        intros ->. apply Hk0. apply (in_map fst) in H. exact H.
    + apply String.eqb_neq in E.
      destruct H as [H | H].
      * inversion H; subst. left. split; [congruence|left; reflexivity].
      * destruct (IH Hd H) as [[Hne Hin] | [[-> Hin] | (-> & -> & Hnot)]].
        -- left. split; [exact Hne|right; exact Hin].
        -- right. left. split; [reflexivity|right; exact Hin].
        -- right. right. repeat split. cbn [In]. intuition.
Qed.

Lemma occurrences_snoc (k ts : string) (seen : list string) :
  GetFps.occurrences k (seen ++ [ts])
  = GetFps.occurrences k seen + (if String.eqb ts k then 1 else 0).
Proof.
  unfold GetFps.occurrences. rewrite count_occ_app. cbn [count_occ].
  destruct (string_dec ts k) as [-> | Hne].
  - rewrite String.eqb_refl. lia.
  - apply String.eqb_neq in Hne. rewrite Hne. lia.
Qed.

Lemma histogram_counts (l : list string) :
  NoDup (map fst (GetFps.histogram l))
  /\ (forall k, In k (map fst (GetFps.histogram l)) <-> In k l)
  /\ forall k n, In (k, n) (GetFps.histogram l) -> n = GetFps.occurrences k l.
Proof.
  unfold GetFps.histogram.
  assert (Hgen : forall l (d : list (string * Z)) seen,
             NoDup (map fst d) ->
             (forall k, In k (map fst d) <-> In k seen) ->
             (forall k n, In (k, n) d -> n = GetFps.occurrences k seen) ->
             let d' := fold_left (fun fps_dict ts => GetFps.count ts fps_dict) l d in
             NoDup (map fst d')
             /\ (forall k, In k (map fst d') <-> In k (seen ++ l))
             /\ forall k n, In (k, n) d' -> n = GetFps.occurrences k (seen ++ l)).
  { clear l. induction l as [|ts l IH]; intros d seen Hnd Hkeys Hocc; cbn [fold_left].
    - rewrite app_nil_r. auto.
    - replace (seen ++ ts :: l) with ((seen ++ [ts]) ++ l)
        by (rewrite <- app_assoc; reflexivity).
      apply IH.
      + apply count_nodup. exact Hnd.
      + intros k. rewrite count_keys, in_app_iff, Hkeys. cbn [In]. intuition.
      + intros k n Hin. rewrite occurrences_snoc.
        destruct (count_items ts d k n Hnd Hin)
          as [[Hne Hd] | [[-> Hd] | (-> & -> & Hnot)]].
        * rewrite (Hocc k n Hd).
          assert (E : String.eqb ts k = false)
            by (apply String.eqb_neq; congruence).
          rewrite E. lia.
        * rewrite String.eqb_refl. rewrite <- (Hocc ts (n - 1) Hd). lia.
        * rewrite String.eqb_refl.
          assert (E : GetFps.occurrences ts seen = 0).
          { unfold GetFps.occurrences.
            rewrite (proj1 (count_occ_not_In string_dec seen ts)); [reflexivity|].
            intros Hin'. apply Hnot. apply Hkeys. exact Hin'. }
          rewrite E. reflexivity. }
  apply (Hgen l [] []).
  - constructor.
  - intros k. reflexivity.
  - intros k n [].
Qed.

Lemma leb_refl_s (s : string) : String.leb s s = true.
Proof. destruct (String.leb_total s s); assumption. Qed.

Lemma item_leb_total (p q : string * Z) :
  GetFps.item_leb p q = false -> GetFps.item_leb q p = true.
Proof.
  unfold GetFps.item_leb. rewrite (String.eqb_sym (fst q) (fst p)).
  destruct (String.eqb (fst p) (fst q)).
  - intros H. apply Z.leb_gt in H. apply Z.leb_le. lia.
  - intros H. destruct (String.leb_total (fst p) (fst q)); congruence.
Qed.

Lemma item_leb_keys (p q : string * Z) :
  GetFps.item_leb p q = true -> String.leb (fst p) (fst q) = true.
Proof.
  unfold GetFps.item_leb. destruct (String.eqb (fst p) (fst q)) eqn:E; intros H.
  - apply String.eqb_eq in E. rewrite E. apply leb_refl_s.
  - exact H.
Qed.

Lemma insert_permutation (p : string * Z) (l : list (string * Z)) :
  Permutation (GetFps.insert p l) (p :: l).
Proof.
  induction l as [|q l IH]; cbn [GetFps.insert].
  - reflexivity.
  - destruct (GetFps.item_leb p q); [reflexivity|].
    rewrite IH. apply perm_swap.
Qed.

Lemma sorted_permutation (l : list (string * Z)) :
  Permutation (GetFps.sorted l) l.
Proof.
  induction l as [|p l IH]; cbn [GetFps.sorted fold_right].
  - reflexivity.
  - fold (GetFps.sorted l). rewrite insert_permutation. now constructor.
Qed.

Lemma insert_sorted (p : string * Z) (l : list (string * Z)) :
  Sorted (fun a b => GetFps.item_leb a b = true) l ->
  Sorted (fun a b => GetFps.item_leb a b = true) (GetFps.insert p l).
Proof.
  induction 1 as [|q l Hl IH Hhd]; cbn [GetFps.insert].
  - repeat constructor.
  - destruct (GetFps.item_leb p q) eqn:E.
    + constructor; [constructor; assumption|constructor; exact E].
    + constructor; [exact IH|].
      destruct l as [|q' l]; cbn [GetFps.insert].
      * constructor. apply item_leb_total. exact E.
      * destruct (GetFps.item_leb p q'); constructor.
        -- apply item_leb_total. exact E.
        -- inversion Hhd. assumption.
Qed.

Lemma sorted_is_sorted (l : list (string * Z)) :
  Sorted (fun a b => GetFps.item_leb a b = true) (GetFps.sorted l).
Proof.
  induction l as [|p l IH]; cbn [GetFps.sorted fold_right].
  - constructor.
  - apply insert_sorted. exact IH.
Qed.

Lemma sorted_keys (l : list (string * Z)) :
  Sorted (fun a b => GetFps.item_leb a b = true) l ->
  Sorted (fun a b => String.leb a b = true) (map fst l).
Proof.
  induction 1 as [|q l Hl IH Hhd]; cbn [map]; constructor.
  - exact IH.
  - destruct Hhd as [|q' l Hq]; cbn [map]; constructor.
    apply item_leb_keys. exact Hq.
Qed.

Lemma timestamps_kept (frames ts : list string) :
  GetFps.timestamps frames = Done ts ->
  Forall2 (fun frame t => GetFps.timestamp_of frame = Done t)
          (filter (fun frame => negb (GetFps.contains frame "fps")) frames) ts.
Proof.
  revert ts. induction frames as [|frame rest IH]; intros ts H;
    cbn [GetFps.timestamps filter] in H |- *.
  - inversion H. constructor.
  - destruct (GetFps.contains frame "fps"); cbn [negb].
    + apply IH. exact H.
    + destruct (GetFps.timestamp_of frame) as [t|f] eqn:Ht; [|discriminate].
      destruct (GetFps.timestamps rest) as [l|f]; [|discriminate].
      inversion H. constructor; [exact Ht|]. apply IH. reflexivity.
Qed.

(** X16: what [get_fps.main] plots.  When it gets as far as the plot, the
    x values are the distinct timestamps cut out of the frame paths that do
    not hold "fps", in ascending order and each one once, and the y value
    beside a timestamp is the number of those frames that carry it; one
    timestamp is cut out of each such frame. *)
Theorem fps_plot_counts_the_frames (frames : list string) (x : list string)
  (y : list Z) :
  GetFps.main frames = Done (x, y) ->
  exists frame_timestamp_list,
    Forall2 (fun frame t => GetFps.timestamp_of frame = Done t)
            (filter (fun frame => negb (GetFps.contains frame "fps")) frames)
            frame_timestamp_list
    /\ List.length x = List.length y
    /\ NoDup x
    /\ Sorted (fun a b => String.leb a b = true) x
    /\ (forall k, In k x <-> In k frame_timestamp_list)
    /\ forall k n, In (k, n) (combine x y) ->
                   n = GetFps.occurrences k frame_timestamp_list /\ 1 <= n.
Proof.
  unfold GetFps.main.
  destruct (GetFps.timestamps frames) as [ts|f] eqn:Hts; [|discriminate].
  cbv zeta.
  intros H.
  assert (Hxy : x = map fst (GetFps.sorted (GetFps.histogram ts))
                /\ y = map snd (GetFps.sorted (GetFps.histogram ts))).
  { destruct (GetFps.sorted (GetFps.histogram ts)); [discriminate|].
    inversion H. split; reflexivity. }
  destruct Hxy as [-> ->]. clear H.
  pose proof (sorted_permutation (GetFps.histogram ts)) as Hperm.
  pose proof (sorted_is_sorted (GetFps.histogram ts)) as Hasc.
  destruct (histogram_counts ts) as (Hnd & Hkeys & Hocc).
  exists ts. split; [apply timestamps_kept; exact Hts|].
  split; [now rewrite !length_map|].
  split.
  { eapply Permutation_NoDup; [|exact Hnd].
    apply Permutation_map. symmetry. exact Hperm. }
  split; [apply sorted_keys; exact Hasc|].
  split.
  { intros k. rewrite <- Hkeys. split; intros Hin.
    - eapply Permutation_in; [|exact Hin]. apply Permutation_map. exact Hperm.
    - eapply Permutation_in; [|exact Hin].
      apply Permutation_map. symmetry. exact Hperm. }
  intros k n Hin.
  assert (Hitem : In (k, n) (GetFps.histogram ts)).
  { eapply Permutation_in; [exact Hperm|].
    clear - Hin. induction (GetFps.sorted (GetFps.histogram ts)) as [|[k0 n0] l IH].
    - destruct Hin.
    - cbn in Hin. destruct Hin as [Hin | Hin]; [left; exact Hin|right; auto]. }
  pose proof (Hocc k n Hitem) as Hn. split; [exact Hn|].
  assert (Hk : In k ts) by (apply Hkeys; apply (in_map fst) in Hitem; exact Hitem).
  rewrite Hn. unfold GetFps.occurrences.
  apply (count_occ_In string_dec) in Hk. lia.
Qed.

Lemma fps_plot_counts_the_frames_witness :
  GetFps.main ["/d/temp-AAAAAAAA07.pgm"; "/d/temp-BBBBBBBB07.pgm";
               "/d/temp-AAAAAAAA08.pgm"; "/d/temp-fps.pgm"]
  = Done (["07.pgm"; "08.pgm"], [2; 1])
  /\ GetFps.occurrences "07.pgm" ["07.pgm"; "07.pgm"; "08.pgm"] = 2.
Proof.
  assert (H : GetFps.main ["/d/temp-AAAAAAAA07.pgm"; "/d/temp-BBBBBBBB07.pgm";
                           "/d/temp-AAAAAAAA08.pgm"; "/d/temp-fps.pgm"]
              = Done (["07.pgm"; "08.pgm"], [2; 1]))
    by (vm_compute; reflexivity).
  split; [exact H|].
  destruct (fps_plot_counts_the_frames _ _ _ H) as (ts & Hts & _ & _ & _ & _ & Hocc).
  assert (E : ts = ["07.pgm"; "07.pgm"; "08.pgm"]).
  { cbn [filter GetFps.contains] in Hts.
    inversion Hts as [|? ? ? ? H1 Hts1]; subst.
    inversion Hts1 as [|? ? ? ? H2 Hts2]; subst.
    inversion Hts2 as [|? ? ? ? H3 Hts3]; subst.
    inversion Hts3; subst.
    vm_compute in H1, H2, H3. congruence. }
  rewrite <- E. symmetry. apply (Hocc "07.pgm" 2). cbn. auto.
Defined.

Lemma startswith_longer (s t p : string) :
  Str.startswith s p = true -> Str.startswith (s ++ t) p = true.
Proof.
  unfold Str.startswith. revert s. induction p as [|c p IH]; intros s H.
  - destruct (s ++ t)%string; reflexivity.
  - destruct s as [|c' s]; cbn in H |- *; [discriminate|].
    destruct (ascii_dec c c'); [apply IH; exact H|discriminate].
Qed.

Lemma contains_longer (s t p : string) :
  GetFps.contains s p = true -> GetFps.contains (s ++ t) p = true.
Proof.
  induction s as [|c s IH]; cbn [GetFps.contains String.append]; intros H.
  - rewrite orb_false_r in H. destruct p as [|c p]; [|discriminate H].
    destruct t; reflexivity.
  - apply orb_true_iff in H. apply orb_true_iff. destruct H as [H | H].
    + left. exact (startswith_longer (String c s) t p H).
    + right. apply IH. exact H.
Qed.

Lemma no_frame_no_timestamp (frames : list string) :
  Forall (fun frame => GetFps.contains frame "fps" = true) frames ->
  GetFps.timestamps frames = Done [].
Proof.
  induction 1 as [|frame rest Hf _ IH]; cbn [GetFps.timestamps].
  - reflexivity.
  - now rewrite Hf.
Qed.

(** X17: [get_fps.main] cannot plot nothing.  When [glob] finds no frame, or
    every path it finds holds "fps", the unpacking of [x, y] raises; and the
    test for "fps" is made on the whole path, so a dataset folder whose own
    path holds "fps" never gets its plot, whatever frames are in it. *)
Theorem fps_plot_needs_a_frame (frames : list string) :
  (Forall (fun frame => GetFps.contains frame "fps" = true) frames ->
   GetFps.main frames = Fail UnpackError)
  /\ forall dataset_root_dir names,
      GetFps.contains dataset_root_dir "fps" = true ->
      GetFps.main (map (String.append dataset_root_dir) names) = Fail UnpackError.
Proof.
  assert (Hall : forall l,
             Forall (fun frame => GetFps.contains frame "fps" = true) l ->
             GetFps.main l = Fail UnpackError).
  { intros l Hl. unfold GetFps.main.
    rewrite (no_frame_no_timestamp l Hl). reflexivity. }
  split; [apply Hall|].
  intros root names Hroot. apply Hall.
  apply Forall_forall. intros frame Hin.
  apply in_map_iff in Hin. destruct Hin as (name & <- & _).
  apply contains_longer. exact Hroot.
Qed.

Lemma fps_plot_needs_a_frame_witness :
  GetFps.main ["/data/60fps/temp-AAAAAAAA07.pgm"; "/data/60fps/temp-AAAAAAAA08.pgm"]
  = Fail UnpackError.
Proof.
  destruct (fps_plot_needs_a_frame []) as (_ & H).
  exact (H "/data/60fps" ["/temp-AAAAAAAA07.pgm"; "/temp-AAAAAAAA08.pgm"] eq_refl).
Defined.

(** * The driver *)

(** ** Sorting names *)

Lemma leb_trans_s (a b c : string) :
  String.leb a b = true -> String.leb b c = true -> String.leb a c = true.
Proof.
  unfold String.leb.
  revert b c. induction a as [|x a IH]; intros [|y b] [|z c]; cbn;
    try congruence.
  unfold Ascii.compare.
  destruct (N.compare_spec (N_of_ascii x) (N_of_ascii y)) as [Exy|Lxy|Gxy];
    destruct (N.compare_spec (N_of_ascii y) (N_of_ascii z)) as [Eyz|Lyz|Gyz];
    destruct (N.compare_spec (N_of_ascii x) (N_of_ascii z)) as [Exz|Lxz|Gxz];
    intros H1 H2; try reflexivity; try discriminate; try (exfalso; lia).
  exact (IH b c H1 H2).
Qed.

Lemma insert_name_permutation (x : string) (l : list string) :
  Permutation (insert_name x l) (x :: l).
Proof.
  induction l as [|y l IH]; cbn [insert_name].
  - reflexivity.
  - destruct (String.leb x y); [reflexivity|].
    rewrite IH. apply perm_swap.
Qed.

Lemma sort_names_permutation (l : list string) : Permutation (sort_names l) l.
Proof.
  induction l as [|x l IH]; cbn [sort_names fold_right].
  - reflexivity.
  - fold (sort_names l). rewrite insert_name_permutation. now constructor.
Qed.

Lemma insert_name_sorted (x : string) (l : list string) :
  Sorted (fun a b => String.leb a b = true) l ->
  Sorted (fun a b => String.leb a b = true) (insert_name x l).
Proof.
  induction 1 as [|y l Hl IH Hhd]; cbn [insert_name].
  - repeat constructor.
  - destruct (String.leb x y) eqn:E.
    + constructor; [constructor; assumption|constructor; exact E].
    + assert (Hyx : String.leb y x = true)
        by (destruct (String.leb_total x y); congruence).
      constructor; [exact IH|].
      destruct l as [|y' l]; cbn [insert_name].
      * constructor. exact Hyx.
      * destruct (String.leb x y'); constructor; [exact Hyx|].
        inversion Hhd. assumption.
Qed.

Lemma sort_names_sorted (l : list string) :
  Sorted (fun a b => String.leb a b = true) (sort_names l).
Proof.
  induction l as [|x l IH]; cbn [sort_names fold_right].
  - constructor.
  - apply insert_name_sorted. exact IH.
Qed.

Lemma filter_sorted (p : string -> bool) (l : list string) :
  Sorted (fun a b => String.leb a b = true) l ->
  Sorted (fun a b => String.leb a b = true) (filter p l).
Proof.
  intros H. apply StronglySorted_Sorted.
  apply Sorted_StronglySorted in H; [|intros a b c; apply leb_trans_s].
  induction H as [|x l Hl IH Hx]; cbn [filter]; [constructor|].
  destruct (p x); [|exact IH].
  constructor; [exact IH|].
  apply Forall_forall. intros y Hy. apply filter_In in Hy.
  rewrite Forall_forall in Hx. apply Hx. tauto.
Qed.

(** ** [scan_for_datasets] *)

Lemma dict_set_fresh (k : string) (v : list string) (d : dict) :
  ~ In k (map fst d) -> dict_set k v d = d ++ [(k, v)].
Proof.
  induction d as [|[k' v'] d IH]; cbn [dict_set map fst In app]; intros H.
  - reflexivity.
  - destruct (String.eqb k' k) eqn:E.
    + apply String.eqb_eq in E. tauto.
    + rewrite IH by tauto. reflexivity.
Qed.

Lemma child_of_directories (entries : list entry) (k : string) :
  Forall (fun e => match e with
                   | Entry _ (Dir _) => True
                   | Entry _ File => False
                   end) entries ->
  In k (map name_of entries) ->
  exists sub, child k entries = Some (Dir sub).
Proof.
  induction 1 as [|[n x] entries He _ IH]; cbn [map name_of In child];
    intros Hin; [contradiction|].
  destruct (String.eqb n k) eqn:E.
  - destruct x as [|sub]; [contradiction|]. eauto.
  - apply IH. destruct Hin as [-> | Hin]; [|exact Hin].
    rewrite String.eqb_refl in E. discriminate.
Qed.

Lemma child_listed (entries : list entry) (k : string) :
  In k (map name_of entries) -> child k entries <> None.
Proof.
  induction entries as [|[n x] entries IH]; cbn [map name_of In child];
    intros Hin; [contradiction|].
  destruct (String.eqb n k) eqn:E; [discriminate|].
  apply IH. destruct Hin as [-> | Hin]; [|exact Hin].
  rewrite String.eqb_refl in E. discriminate.
Qed.

Lemma scan_categories_eq (entries : list entry) (names : list string)
  (acc : dict) :
  NoDup (map fst acc ++ names) ->
  (forall k, In k names -> exists sub, child k entries = Some (Dir sub)) ->
  scan_categories entries names acc
  = Done (acc ++ map (fun k => (k, match subfolders (child k entries) with
                                   | Done l => l
                                   | Fail _ => []
                                   end)) names).
Proof.
  revert acc. induction names as [|k names IH]; intros acc Hnd Hdirs;
    cbn [scan_categories map].
  - now rewrite app_nil_r.
  - destruct (Hdirs k (or_introl eq_refl)) as (sub & Hk).
    rewrite Hk. cbn [subfolders listdir].
    rewrite dict_set_fresh.
    + rewrite IH.
      * rewrite <- app_assoc. reflexivity.
      * rewrite map_app, <- app_assoc. exact Hnd.
      * intros k' Hk'. apply Hdirs. right. exact Hk'.
    + apply NoDup_remove_2 in Hnd. intros Hin. apply Hnd.
      apply in_or_app. left. exact Hin.
Qed.

Lemma scan_categories_file (entries : list entry) (names : list string)
  (acc : dict) (name : string) :
  (forall k, In k names -> child k entries <> None) ->
  In name names -> child name entries = Some File ->
  scan_categories entries names acc = Fail NotADirectoryError.
Proof.
  revert acc. induction names as [|k names IH]; intros acc Hlisted Hin Hfile;
    [destruct Hin|].
  cbn [scan_categories].
  destruct (child k entries) as [[|sub]|] eqn:Hk.
  - reflexivity.
  - cbn [subfolders listdir]. apply IH.
    + intros k' Hk'. apply Hlisted. right. exact Hk'.
    + destruct Hin as [-> | Hin]; [congruence|exact Hin].
    + exact Hfile.
  - exfalso. apply (Hlisted k (or_introl eq_refl)). exact Hk.
Qed.

Lemma filter_twice {A} (p q : A -> bool) (l : list A) :
  filter p (filter q l) = filter (fun x => (q x && p x)%bool) l.
Proof.
  induction l as [|x l IH]; cbn [filter]; [reflexivity|].
  destruct (q x); cbn [filter andb]; [destruct (p x)|]; now rewrite IH.
Qed.

Lemma delete_all (ks : list string) (d : dict) :
  fold_left (fun d k => dict_del k d) ks d
  = filter (fun kv => negb (existsb (String.eqb (fst kv)) ks)) d.
Proof.
  revert d. induction ks as [|k ks IH]; intros d; cbn [fold_left existsb].
  - symmetry. apply forallb_filter_id. apply forallb_forall. reflexivity.
  - rewrite IH. unfold dict_del. rewrite filter_twice.
    apply filter_ext. intros kv. now rewrite negb_orb.
Qed.

Lemma unique_value (d : dict) (k : string) (v v' : list string) :
  NoDup (map fst d) -> In (k, v) d -> In (k, v') d -> v = v'.
Proof.
  induction d as [|[k0 v0] d IH]; cbn [map fst In]; intros Hnd H H';
    [contradiction|].
  inversion Hnd as [|? ? Hk0 Hd]; subst.
  destruct H as [H | H], H' as [H' | H'].
  - congruence.
  - inversion H; subst. exfalso. apply Hk0. exact (in_map fst _ _ H').
  - inversion H'; subst. exfalso. apply Hk0. exact (in_map fst _ _ H).
  - exact (IH Hd H H').
Qed.

Lemma empty_categories_removed (d : dict) :
  NoDup (map fst d) ->
  fold_left (fun d k => dict_del k d) (keys_to_remove d) d
  = filter (fun kv => match snd kv with [] => false | _ :: _ => true end) d.
Proof.
  intros Hnd. rewrite delete_all. apply filter_ext_in. intros [k v] Hin.
  cbn [fst snd].
  destruct v as [|x v].
  - assert (E : existsb (String.eqb k) (keys_to_remove d) = true).
    { apply existsb_exists. exists k. split; [|apply String.eqb_refl].
      unfold keys_to_remove.
      change k with (fst (k, @nil string)). apply in_map.
      apply filter_In. split; [exact Hin|reflexivity]. }
    now rewrite E.
  - assert (E : existsb (String.eqb k) (keys_to_remove d) = false).
    { destruct (existsb (String.eqb k) (keys_to_remove d)) eqn:E; [|reflexivity].
      apply existsb_exists in E. destruct E as (k' & Hk' & Ek).
      apply String.eqb_eq in Ek. subst k'.
      unfold keys_to_remove in Hk'. apply in_map_iff in Hk'.
      destruct Hk' as ([k' v'] & Hfst & Hf). cbn [fst] in Hfst. subst k'.
      apply filter_In in Hf. destruct Hf as [Hin' Hnil]. cbn [snd] in Hnil.
      destruct v'; [|discriminate].
      pose proof (unique_value d k _ _ Hnd Hin Hin'). discriminate. }
    now rewrite E.
Qed.

Lemma child_some_listed (entries : list entry) (k : string) (x : node) :
  child k entries = Some x -> In k (map name_of entries).
Proof.
  induction entries as [|[n y] entries IH]; cbn [child map name_of In];
    intros H; [discriminate|].
  destruct (String.eqb n k) eqn:E.
  - apply String.eqb_eq in E. left. exact E.
  - right. apply IH. exact H.
Qed.

Lemma keys_of_filtered (value : string -> list string) (l : list string) :
  map fst (filter (fun kv : string * list string =>
                     match snd kv with [] => false | _ :: _ => true end)
                  (map (fun k => (k, value k)) l))
  = filter (fun k => match value k with [] => false | _ :: _ => true end) l.
Proof.
  induction l as [|k l IH]; cbn [map filter snd]; [reflexivity|].
  destruct (value k); cbn [map fst]; now rewrite IH.
Qed.

(** X18: what [scan_for_datasets] returns.  For a root directory whose
    entries are all directories, it returns a dict whose keys, in ascending
    order and each once, are exactly the entries that hold at least one
    sub-directory, and the value of a key lists exactly the sub-directories
    of that entry, no other name and none left out, in ascending order (and
    each once, the entry's names being distinct); an entry without
    sub-directories is not reported.  If an entry of the root is a plain
    file, the scan raises NotADirectoryError and returns nothing. *)
Theorem scan_reports_the_categories (entries : list entry) :
  NoDup (map name_of entries) ->
  (Forall (fun e => match e with
                    | Entry _ (Dir _) => True
                    | Entry _ File => False
                    end) entries ->
   exists datasets_paths,
     scan_for_datasets (Some (Dir entries)) = Done datasets_paths
     /\ Sorted (fun a b => String.leb a b = true) (map fst datasets_paths)
     /\ NoDup (map fst datasets_paths)
     /\ (forall k,
            In k (map fst datasets_paths)
            <-> exists sub f,
                 child k entries = Some (Dir sub)
                 /\ In f (map name_of sub) /\ isdir (child f sub) = true)
     /\ (forall k v,
            In (k, v) datasets_paths ->
            exists sub,
              child k entries = Some (Dir sub)
              /\ Sorted (fun a b => String.leb a b = true) v
              /\ (forall f, In f v
                            <-> In f (map name_of sub)
                                /\ isdir (child f sub) = true)
              /\ (NoDup (map name_of sub) -> NoDup v)))
  /\ (forall name,
         In name (map name_of entries) -> child name entries = Some File ->
         scan_for_datasets (Some (Dir entries)) = Fail NotADirectoryError).
Proof.
  intros Hnd.
  assert (Hsorted : NoDup (sort_names (map name_of entries))).
  { eapply Permutation_NoDup; [|exact Hnd].
    symmetry. apply sort_names_permutation. }
  split.
  - intros Hdirs.
    assert (Hall : forall k, In k (sort_names (map name_of entries)) ->
                             exists sub, child k entries = Some (Dir sub)).
    { intros k Hk. apply child_of_directories; [exact Hdirs|].
      eapply Permutation_in; [apply sort_names_permutation|exact Hk]. }
    assert (Hlisted : forall f sub,
               In f (sort_names (filter (fun f => isdir (child f sub))
                                        (map name_of sub)))
               <-> In f (map name_of sub) /\ isdir (child f sub) = true).
    { intros f sub. split; intros Hf.
      - apply (filter_In (fun f => isdir (child f sub))).
        eapply Permutation_in; [apply sort_names_permutation|exact Hf].
      - apply (filter_In (fun f => isdir (child f sub))) in Hf.
        eapply Permutation_in; [symmetry; apply sort_names_permutation|exact Hf]. }
    exists (categories_of entries).
    split; [|split; [|split; [|split]]].
    + unfold scan_for_datasets. cbn [listdir]. cbv zeta.
      rewrite scan_categories_eq by (cbn [map app]; assumption).
      cbn [app]. rewrite empty_categories_removed; [reflexivity|].
      rewrite map_map. cbn [fst]. rewrite map_id. exact Hsorted.
    + unfold categories_of. rewrite keys_of_filtered.
      apply filter_sorted. apply sort_names_sorted.
    + unfold categories_of. rewrite keys_of_filtered.
      apply NoDup_filter. exact Hsorted.
    + intros k. unfold categories_of. rewrite keys_of_filtered, filter_In.
      split.
      * intros [Hk Hne]. destruct (Hall k Hk) as (sub & Hsub).
        rewrite Hsub in Hne. cbn [subfolders listdir] in Hne.
        destruct (sort_names (filter (fun f => isdir (child f sub))
                                     (map name_of sub))) as [|f l] eqn:E;
          [discriminate|].
        exists sub, f. split; [exact Hsub|].
        apply Hlisted. rewrite E. left. reflexivity.
      * intros (sub & f & Hsub & Hf & Hfdir). split.
        -- eapply Permutation_in; [symmetry; apply sort_names_permutation|].
           exact (child_some_listed _ _ _ Hsub).
        -- rewrite Hsub. cbn [subfolders listdir].
           assert (Hin : In f (sort_names (filter (fun f => isdir (child f sub))
                                                  (map name_of sub))))
             by (apply Hlisted; auto).
           destruct (sort_names (filter (fun f => isdir (child f sub))
                                        (map name_of sub)));
             [destruct Hin|reflexivity].
    + intros k v Hin. unfold categories_of in Hin.
      apply filter_In in Hin. destruct Hin as [Hin _].
      apply in_map_iff in Hin. destruct Hin as (k' & Hkv & Hk').
      injection Hkv as -> Hv.
      destruct (Hall k Hk') as (sub & Hsub).
      rewrite Hsub in Hv. cbn [subfolders listdir] in Hv. subst v.
      exists sub. split; [exact Hsub|].
      split; [apply sort_names_sorted|].
      split; [intros f; apply Hlisted|].
      intros Hsubnd. eapply Permutation_NoDup.
      * symmetry. apply sort_names_permutation.
      * apply NoDup_filter. exact Hsubnd.
  - intros name Hin Hfile. unfold scan_for_datasets. cbn [listdir]. cbv zeta.
    rewrite (scan_categories_file entries _ [] name); [reflexivity| | |exact Hfile].
    + intros k Hk. apply child_listed.
      eapply Permutation_in; [apply sort_names_permutation|exact Hk].
    + eapply Permutation_in; [symmetry; apply sort_names_permutation|exact Hin].
Qed.

Lemma scan_reports_the_categories_witness :
  scan_for_datasets (Some (Dir thesis_datasets))
  = Done [("flir_blackfly_s", ["0"; "1"]); ("rpi_cam", ["3"; "7"])]
  /\ (exists datasets_paths,
         scan_for_datasets (Some (Dir thesis_datasets)) = Done datasets_paths
         /\ forall v, In ("rpi_cam", v) datasets_paths -> In "7" v /\ In "3" v)
  /\ scan_for_datasets (Some (Dir (Entry "readme.txt" File :: thesis_datasets)))
     = Fail NotADirectoryError.
Proof.
  split; [vm_compute; reflexivity|]. split.
  - destruct (scan_reports_the_categories thesis_datasets) as [H _].
    + cbn. repeat constructor; cbn; intuition discriminate.
    + destruct H as (datasets_paths & Hscan & _ & _ & _ & Hitems).
      * repeat constructor.
      * exists datasets_paths. split; [exact Hscan|].
        intros v Hv. destruct (Hitems _ _ Hv) as (sub & Hsub & _ & Hlist & _).
        cbn in Hsub. injection Hsub as <-.
        split; apply Hlist; cbn; auto.
  - destruct (scan_reports_the_categories
                (Entry "readme.txt" File :: thesis_datasets)) as [_ H].
    + cbn. repeat constructor; cbn; intuition discriminate.
    + apply (H "readme.txt"); [left; reflexivity|reflexivity].
Defined.

(** ** [main] *)

Lemma set_dataset_format_true (category : string) (g g' : channels)
  (notes : list note) :
  set_dataset_format category g = (Done true, g', notes) ->
  In category SUPPORTED_DATASET_CATEGORIES
  /\ forall g0, set_dataset_format category g0 = (Done true, g', []).
Proof.
  unfold set_dataset_format.
  destruct (Py.mem category SUPPORTED_DATASET_CATEGORIES) eqn:Hmem;
    cbn [negb]; [|discriminate].
  apply mem_In in Hmem. intros H. split; [exact Hmem|].
  cbn in Hmem.
  destruct Hmem as [<- | [<- | [<- | []]]]; cbn in H |- *;
    inversion H; reflexivity.
Qed.

Lemma set_dataset_format_done (category : string) (g g' : channels)
  (b : bool) (notes : list note) :
  set_dataset_format category g = (Done b, g', notes) -> b = true.
Proof.
  unfold set_dataset_format.
  destruct (Py.mem category SUPPORTED_DATASET_CATEGORIES) eqn:Hmem;
    cbn [negb]; [|discriminate].
  apply mem_In in Hmem. cbn in Hmem.
  destruct Hmem as [<- | [<- | [<- | []]]]; cbn; intros H;
    inversion H; reflexivity.
Qed.

Section DriverFacts.

Variable run_dataset : channels -> string -> string -> outcome unit.

Lemma main_datasets_spec (g : channels) (category : string)
  (datasets : list string) (ran ran' : list (string * string * channels))
  (res : outcome unit) :
  main_datasets run_dataset g category datasets ran = (res, ran') ->
  exists new rest,
    ran' = ran ++ new
    /\ map (pair category)
           (filter (fun dataset => negb (blocked category dataset)) datasets)
       = map fst new ++ rest
    /\ Forall (fun r => snd r = g /\ fst (fst r) = category
                        /\ blocked category (snd (fst r)) = false) new
    /\ (res = Done tt ->
        rest = []
        /\ Forall (fun r => run_dataset (snd r) (fst (fst r)) (snd (fst r))
                            = Done tt) new).
Proof.
  revert ran. induction datasets as [|dataset datasets IH]; intros ran H;
    cbn [main_datasets filter map] in H |- *.
  - inversion H; subst. exists [], []. rewrite app_nil_r.
    repeat split; constructor.
  - destruct (blocked category dataset) eqn:Hb; cbn [negb].
    + apply IH. exact H.
    + destruct (run_dataset g category dataset) as [[]|f] eqn:Hrun.
      * destruct (IH _ H) as (new & rest & -> & Hplan & Hnew & Hdone).
        exists ((category, dataset, g) :: new), rest.
        rewrite <- app_assoc. cbn [map fst app]. rewrite Hplan.
        repeat split.
        -- constructor; [cbn; auto|exact Hnew].
        -- apply Hdone. assumption.
        -- constructor; [exact Hrun|]. apply Hdone. assumption.
      * inversion H; subst.
        exists [(category, dataset, g)],
          (map (pair category)
               (filter (fun dataset => negb (blocked category dataset)) datasets)).
        repeat split; try discriminate.
        constructor; [cbn; auto|constructor].
Qed.

Lemma main_categories_spec (g g' : channels) (items : dict)
  (ran ran' : list (string * string * channels)) (res : outcome unit) :
  main_categories run_dataset g items ran = (res, g', ran') ->
  exists new rest,
    ran' = ran ++ new
    /\ planned items = map fst new ++ rest
    /\ Forall (fun r => In (fst (fst r)) SUPPORTED_DATASET_CATEGORIES
                        /\ blocked (fst (fst r)) (snd (fst r)) = false
                        /\ forall g0, set_dataset_format (fst (fst r)) g0
                                      = (Done true, snd r, [])) new
    /\ (res = Done tt ->
        rest = []
        /\ Forall (fun kv => In (fst kv) SUPPORTED_DATASET_CATEGORIES) items
        /\ Forall (fun r => run_dataset (snd r) (fst (fst r)) (snd (fst r))
                            = Done tt) new).
Proof.
  revert g ran. induction items as [|[category datasets] items IH];
    intros g ran H; cbn [main_categories] in H.
  - inversion H; subst. exists [], []. rewrite app_nil_r.
    repeat split; constructor.
  - unfold planned. cbn [flat_map fst snd]. fold (planned items).
    destruct (set_dataset_format category g) as [[[b|f] g1] notes] eqn:Hset.
    + pose proof (set_dataset_format_done _ _ _ _ _ Hset). subst b.
      destruct (set_dataset_format_true _ _ _ _ Hset) as [Hsup Hany].
      destruct (main_datasets run_dataset g1 category datasets ran)
        as [[[]|f] ran1] eqn:Hds.
      * destruct (main_datasets_spec _ _ _ _ _ _ Hds)
          as (new1 & rest1 & -> & Hplan1 & Hnew1 & Hdone1).
        destruct (Hdone1 eq_refl) as [-> Hok1]. rewrite app_nil_r in Hplan1.
        destruct (IH _ _ H) as (new & rest & -> & Hplan & Hnew & Hdone).
        exists (new1 ++ new), rest.
        rewrite <- !app_assoc, map_app, Hplan1, Hplan, <- app_assoc.
        repeat split.
        -- apply Forall_app. split; [|exact Hnew].
           eapply Forall_impl; [|exact Hnew1].
           intros r (Hg & Hc & Hb). rewrite Hc, Hg. auto.
        -- apply Hdone. assumption.
        -- constructor; [exact Hsup|]. apply Hdone. assumption.
        -- apply Forall_app. split; [exact Hok1|]. apply Hdone. assumption.
      * inversion H; subst.
        destruct (main_datasets_spec _ _ _ _ _ _ Hds)
          as (new1 & rest1 & -> & Hplan1 & Hnew1 & _).
        exists new1, (rest1 ++ planned items).
        rewrite Hplan1, <- app_assoc.
        repeat split; try discriminate.
        eapply Forall_impl; [|exact Hnew1].
        intros r (Hg & Hc & Hb). rewrite Hc, Hg. auto.
    + inversion H; subst.
      exists [], (map (pair category)
                      (filter (fun dataset => negb (blocked category dataset))
                              datasets)
                  ++ planned items).
      rewrite app_nil_r.
      repeat split; try discriminate. constructor.
Qed.

(** X19: how [main] goes through a scan.  With no dataset found it exits.
    Otherwise it enters the datasets in the order of the dict, category by
    category, leaves out the block-listed ones, and runs each under the
    channel names of its own category, which has to be a supported one; it
    stops at the first category or dataset that fails, so what it has run is
    an initial part of the plan; and it completes only when every category
    is supported and every dataset it planned has completed. *)
Theorem main_runs_the_plan (datasets_paths : dict) (g g' : channels)
  (res : outcome unit) (ran : list (string * string * channels)) :
  main run_dataset datasets_paths g = (res, g', ran) ->
  (datasets_paths = [] -> res = Fail SystemExit /\ ran = [])
  /\ (exists rest,
         planned datasets_paths = map fst ran ++ rest
         /\ (res = Done tt -> rest = []))
  /\ Forall (fun r => In (fst (fst r)) SUPPORTED_DATASET_CATEGORIES
                      /\ blocked (fst (fst r)) (snd (fst r)) = false
                      /\ forall g0, set_dataset_format (fst (fst r)) g0
                                    = (Done true, snd r, [])) ran
  /\ (res = Done tt ->
      Forall (fun kv => In (fst kv) SUPPORTED_DATASET_CATEGORIES) datasets_paths
      /\ Forall (fun r => run_dataset (snd r) (fst (fst r)) (snd (fst r)) = Done tt)
                ran).
Proof.
  unfold main. destruct datasets_paths as [|item items].
  - intros H. inversion H; subst. split; [auto|].
    split; [exists []; split; [reflexivity|discriminate]|].
    split; [constructor|discriminate].
  - intros H. apply main_categories_spec in H.
    destruct H as (new & rest & -> & Hplan & Hnew & Hdone).
    cbn [app]. split; [discriminate|].
    split; [exists rest; split; [exact Hplan|apply Hdone]|].
    split; [exact Hnew|].
    intros Hres. destruct (Hdone Hres) as (_ & Hsup & Hok). auto.
Qed.

End DriverFacts.

Lemma main_runs_the_plan_witness :
  exists g' ran rest,
    main (fun g category dataset =>
            if String.eqb dataset "3" then Fail ZeroDivisionError else Done tt)
         [("flir_blackfly_s", ["0"; "1"]); ("rpi_cam", ["3"; "7"])]
         initial_channels
    = (Fail ZeroDivisionError, g', ran)
    /\ map fst ran = [("flir_blackfly_s", "1"); ("rpi_cam", "3")]
    /\ planned [("flir_blackfly_s", ["0"; "1"]); ("rpi_cam", ["3"; "7"])]
       = map fst ran ++ rest
    /\ Forall (fun r => forall g0, set_dataset_format (fst (fst r)) g0
                                   = (Done true, snd r, [])) ran.
Proof.
  destruct (main (fun g category dataset =>
                    if String.eqb dataset "3" then Fail ZeroDivisionError
                    else Done tt)
                 [("flir_blackfly_s", ["0"; "1"]); ("rpi_cam", ["3"; "7"])]
                 initial_channels) as [[res g'] ran] eqn:Hmain.
  destruct (main_runs_the_plan _ _ _ _ _ _ Hmain)
    as (_ & (rest & Hplan & _) & Hran & _).
  vm_compute in Hmain. inversion Hmain; subst res g' ran.
  exists (mk_channels "DIO 1" "DIO 2"). eexists. exists rest.
  split; [reflexivity|]. split; [reflexivity|]. split; [exact Hplan|].
  eapply Forall_impl; [|exact Hran]. intros r (_ & _ & H). exact H.
Defined.

(** X20: a folder that is no supported category stops the batch.  When the
    root directory holds a directory whose name is none of the supported
    categories and which has a sub-directory, the scan reports it, and
    [main] on that scan cannot complete, whatever the datasets are. *)
Theorem unsupported_folder_stops_the_batch
  (run_dataset : channels -> string -> string -> outcome unit)
  (entries sub : list entry) (name f : string) (g : channels) :
  NoDup (map name_of entries) ->
  Forall (fun e => match e with
                   | Entry _ (Dir _) => True
                   | Entry _ File => False
                   end) entries ->
  In name (map name_of entries) ->
  child name entries = Some (Dir sub) ->
  In f (map name_of sub) -> isdir (child f sub) = true ->
  ~ In name SUPPORTED_DATASET_CATEGORIES ->
  exists datasets_paths,
    scan_for_datasets (Some (Dir entries)) = Done datasets_paths
    /\ In name (map fst datasets_paths)
    /\ exists failure, fst (fst (main run_dataset datasets_paths g)) = Fail failure.
Proof.
  intros Hnd Hdirs Hname Hsub Hf Hfdir Hunsup.
  assert (Hall : forall k, In k (sort_names (map name_of entries)) ->
                           exists sub, child k entries = Some (Dir sub)).
  { intros k Hk. apply child_of_directories; [exact Hdirs|].
    eapply Permutation_in; [apply sort_names_permutation|exact Hk]. }
  assert (Hscan : scan_for_datasets (Some (Dir entries))
                  = Done (categories_of entries)).
  { unfold scan_for_datasets. cbn [listdir]. cbv zeta.
    rewrite scan_categories_eq.
    - cbn [app]. rewrite empty_categories_removed; [reflexivity|].
      rewrite map_map. cbn [fst]. rewrite map_id.
      eapply Permutation_NoDup; [|exact Hnd].
      symmetry. apply sort_names_permutation.
    - cbn [map app]. eapply Permutation_NoDup; [|exact Hnd].
      symmetry. apply sort_names_permutation.
    - exact Hall. }
  assert (Hkey : In name (map fst (categories_of entries))).
  { unfold categories_of.
    set (value := match subfolders (child name entries) with
                  | Done l => l
                  | Fail _ => []
                  end).
    change name with (fst (name, value)). apply in_map.
    apply filter_In. split.
    - apply in_map_iff. exists name. split; [reflexivity|].
      eapply Permutation_in; [symmetry; apply sort_names_permutation|exact Hname].
    - cbn [snd]. unfold value. rewrite Hsub. cbn [subfolders listdir].
      assert (Hin : In f (sort_names (filter (fun f => isdir (child f sub))
                                             (map name_of sub)))).
      { eapply Permutation_in; [symmetry; apply sort_names_permutation|].
        apply filter_In. auto. }
      destruct (sort_names (filter (fun f => isdir (child f sub)) (map name_of sub)));
        [destruct Hin|reflexivity]. }
  exists (categories_of entries). split; [exact Hscan|]. split; [exact Hkey|].
  destruct (main run_dataset (categories_of entries) g) as [[res g'] ran] eqn:Hmain.
  cbn [fst]. destruct res as [[]|failure]; [|eauto].
  exfalso. unfold main in Hmain.
  destruct (categories_of entries) as [|item items] eqn:Hitems; [destruct Hkey|].
  apply main_categories_spec in Hmain.
  destruct Hmain as (new & rest & _ & _ & _ & Hdone).
  destruct (Hdone eq_refl) as (_ & Hsup & _).
  rewrite Forall_forall in Hsup.
  apply in_map_iff in Hkey. destruct Hkey as (kv & <- & Hkv).
  exact (Hunsup (Hsup kv Hkv)).
Qed.

Lemma unsupported_folder_stops_the_batch_witness :
  exists datasets_paths failure,
    scan_for_datasets
      (Some (Dir (Entry "archive" (Dir [Entry "old" (Dir [])]) :: thesis_datasets)))
    = Done datasets_paths
    /\ fst (fst (main (fun _ _ _ => Done tt) datasets_paths initial_channels))
       = Fail failure.
Proof.
  destruct (unsupported_folder_stops_the_batch
              (fun _ _ _ => Done tt)
              (Entry "archive" (Dir [Entry "old" (Dir [])]) :: thesis_datasets)
              [Entry "old" (Dir [])] "archive" "old" initial_channels)
    as (datasets_paths & Hscan & _ & failure & Hmain).
  - cbn. repeat constructor; cbn; intuition discriminate.
  - repeat constructor.
  - left. reflexivity.
  - reflexivity.
  - left. reflexivity.
  - reflexivity.
  - cbn. intuition discriminate.
  - exists datasets_paths, failure. split; assumption.
Defined.

(** * [get_time_offset] *)

Lemma split_spaced_eq_lacks (s : string) :
  Str.lacks "=" s = true -> split_spaced_eq s = [s].
Proof.
  induction s as [|x s IH]; intros H; [reflexivity|].
  cbn [Str.lacks] in H. apply andb_prop in H as [_ Hs].
  cbn [split_spaced_eq]. rewrite (IH Hs).
  destruct s as [|y [|z s']]; try reflexivity.
  cbn [Str.lacks] in Hs. apply andb_prop in Hs as [Hy _].
  apply negb_true_iff in Hy. rewrite Hy, andb_false_r. reflexivity.
Qed.

Lemma split_spaced_eq_other (x : ascii) (s : string) :
  Ascii.eqb x " " = false ->
  split_spaced_eq (String x s) = onto_first x (split_spaced_eq s).
Proof.
  intros H. cbn [split_spaced_eq].
  destruct s as [|y [|z s']]; try reflexivity.
  rewrite H. reflexivity.
Qed.

Lemma rstrip_line (v : string) (c : ascii) :
  Str.is_space c = false ->
  Str.rstrip ((v ++ String c "") ++ LF) = (v ++ String c "")%string.
Proof.
  intros Hc. unfold LF.
  rewrite rstrip_space_end by reflexivity. now apply rstrip_other_end.
Qed.

(** X21: [get_time_offset] on its own file format and beside it.  For a
    first line "t_diff = <v>" ended by a line feed, where [v] holds no '='
    and ends in a character that [rstrip] does not remove, it returns [v] and
    reports it with the space that follows the '=' still in front.  A
    "t_diff" line without any '=' raises IndexError before anything is
    printed; a line with '=' but without " = ", like "t_diff=3", first
    prints the value it found and then raises IndexError. *)
Theorem time_offset_of_a_line (dir v : string) (c : ascii) (rest : list string) :
  Str.lacks "=" v = true -> Str.is_space c = false -> Ascii.eqb c "=" = false ->
  get_time_offset dir (t_diff_line (v ++ String c "") :: rest)
  = (Done (v ++ String c "")%string,
     [Text ("Found t_diff value of [ " ++ v ++ String c "" ++ "] seconds")%string])
  /\ (forall l, Str.startswith l "t_diff" = true -> Str.lacks "=" l = true ->
                get_time_offset dir (l :: rest) = (Fail IndexError, []))
  /\ get_time_offset dir (("t_diff=" ++ v ++ String c "" ++ LF)%string :: rest)
     = (Fail IndexError,
        [Text ("Found t_diff value of [" ++ v ++ String c "" ++ "] seconds")%string]).
Proof.
  intros Hv Hc Hne.
  assert (Hvc : Str.lacks "=" (v ++ String c "") = true).
  { rewrite lacks_app, Hv. cbn [Str.lacks andb].
    rewrite Hne. reflexivity. }
  assert (Hline : Str.lacks "=" ((v ++ String c "") ++ LF) = true).
  { rewrite lacks_app, Hvc. reflexivity. }
  split; [|split].
  - unfold t_diff_line. cbn [get_time_offset].
    change ("t_diff = " ++ (v ++ String c "") ++ LF)%string
      with ("t_diff" ++ String " " (String "=" (String " " ((v ++ String c "") ++ LF))))%string
      at 1.
    rewrite startswith_app.
    change ("t_diff = " ++ (v ++ String c "") ++ LF)%string
      with ("t_diff " ++ String "=" (String " " ((v ++ String c "") ++ LF)))%string
      at 1.
    rewrite split_lacks_app by reflexivity.
    rewrite split_lacks by (cbn [Str.lacks]; rewrite Hline; reflexivity).
    cbn [nth_error].
    change (String " " ((v ++ String c "") ++ LF))
      with ((String " " v ++ String c "") ++ LF)%string.
    rewrite rstrip_line by exact Hc.
    assert (Esplit : split_spaced_eq ("t_diff = " ++ (v ++ String c "") ++ LF)
                     = ["t_diff"; ((v ++ String c "") ++ LF)%string]).
    { cbn [String.append split_spaced_eq Ascii.eqb Bool.eqb andb].
      rewrite split_spaced_eq_lacks by exact Hline. reflexivity. }
    rewrite Esplit. cbn [nth_error]. rewrite rstrip_line by exact Hc.
    rewrite append_assoc_s. reflexivity.
  - intros l Hl Hlacks. cbn [get_time_offset]. rewrite Hl.
    rewrite split_lacks by exact Hlacks. reflexivity.
  - cbn [get_time_offset].
    change ("t_diff=" ++ v ++ String c "" ++ LF)%string
      with ("t_diff" ++ String "=" (v ++ String c "" ++ LF))%string at 1.
    rewrite startswith_app.
    change ("t_diff=" ++ v ++ String c "" ++ LF)%string
      with ("t_diff" ++ String "=" (v ++ String c "" ++ LF))%string at 1.
    rewrite split_lacks_app by reflexivity.
    rewrite <- (append_assoc_s v (String c "") LF).
    rewrite split_lacks by exact Hline.
    cbn [nth_error]. rewrite rstrip_line by exact Hc.
    assert (Esplit : split_spaced_eq ("t_diff=" ++ (v ++ String c "") ++ LF)
                     = [("t_diff=" ++ (v ++ String c "") ++ LF)%string]).
    { cbn [String.append].
      repeat (rewrite split_spaced_eq_other by reflexivity).
      rewrite split_spaced_eq_lacks by exact Hline. reflexivity. }
    rewrite Esplit. cbn [nth_error].
    rewrite append_assoc_s. reflexivity.
Qed.

Lemma time_offset_of_a_line_witness :
  get_time_offset "d/" [t_diff_line "0.012345"]
  = (Done "0.012345", [Text "Found t_diff value of [ 0.012345] seconds"])
  /\ get_time_offset "d/" [("t_diff=0.012345" ++ LF)%string]
     = (Fail IndexError, [Text "Found t_diff value of [0.012345] seconds"]).
Proof.
  destruct (time_offset_of_a_line "d/" "0.01234" "5" [] eq_refl eq_refl eq_refl)
    as (Hvalue & _ & Hraise).
  split; [exact Hvalue|exact Hraise].
Defined.
